(** * lcls-daq-browser: the error exploration engine

    A shallow embedding of the filtering, grouping, time-jump and
    navigation code of the browser (filter.go, db.go, update.go, model.go)
    and the properties of it that the specification states.

    Conventions.
    - Go's [int] is a 64-bit two's complement integer: it is a [Z] kept in
      range by [GoInt.wrap] after every arithmetic operation.
    - Go strings are byte strings: [string] (a list of [ascii] bytes);
      [<] on strings is [String.ltb] (bytewise lexicographic).
    - A run-time panic (index out of range, division by zero) is [None] in
      the [option] monad; a function that cannot panic is a plain function.
    - [map[string]*T] is a [gmap string T]; slices are lists. *)

From Stdlib Require Import ZArith Lia List Ascii String Bool Permutation Sorted.
From stdpp Require Import gmap strings.

Open Scope Z_scope.

(** ** Go's machine integers *)

Module GoInt.

Definition wrap (z : Z) : Z := (z + 2 ^ 63) mod 2 ^ 64 - 2 ^ 63.

Definition add (a b : Z) : Z := wrap (a + b).
Definition sub (a b : Z) : Z := wrap (a - b).
Definition mul (a b : Z) : Z := wrap (a * b).
Definition neg (a : Z) : Z := wrap (- a).

(** [a / b]: truncated division; dividing by zero panics. *)
Definition div (a b : Z) : option Z :=
  if b =? 0 then None else Some (wrap (Z.quot a b)).

(** [len(s)] of a slice. *)
Definition len {A : Type} (l : list A) : Z := Z.of_nat (length l).

(** [s[i]]: a negative or too large index panics. *)
Definition index {A : Type} (l : list A) (i : Z) : option A :=
  if i <? 0 then None else nth_error l (Z.to_nat i).

Definition inRange (z : Z) : Prop := - 2 ^ 63 <= z < 2 ^ 63.

End GoInt.

(** Go's [abs] helper of db.go. *)
Definition abs (x : Z) : Z := if x <? 0 then GoInt.neg x else x.

(** ** Byte strings *)

Definition byte (c : ascii) : N := N_of_ascii c.

Definition isDigit (c : ascii) : bool := (48 <=? byte c)%N && (byte c <=? 57)%N.

Definition digitVal (c : ascii) : Z := Z.of_N (byte c) - 48.

(** [s[:n]] and [s[a:b]] on strings long enough for the slice. *)
Definition slice (a b : nat) (s : string) : string := String.substring a (b - a) s.

(** [s[i] == c]. *)
Definition byteAt (i : nat) (s : string) (c : ascii) : bool :=
  match String.get i s with
  | Some d => Ascii.eqb d c
  | None => false
  end.

(** [strings.Contains]. *)
Fixpoint Contains (s substr : string) : bool :=
  String.prefix substr s ||
  match s with
  | EmptyString => false
  | String _ r => Contains r substr
  end.

(** [strings.Split(s, "/")]: never empty. *)
Fixpoint SplitSlash (s : string) : list string :=
  match s with
  | EmptyString => [EmptyString]
  | String c r =>
      if Ascii.eqb c "/" then EmptyString :: SplitSlash r
      else match SplitSlash r with
           | p :: ps => String c p :: ps
           | [] => [String c EmptyString]
           end
  end.

(** ** [fmt.Sscanf(s, "%d:%d", &h, &m)]

    The scanner of package fmt, specialised to the one format the program
    uses.  [%d] skips leading space (a newline is an error outside the
    [Scanln] family), accepts one sign, then the longest run of decimal
    digits (digit-separating underscores belong to [%v] only); the token
    goes through [strconv.ParseInt(tok, 10, 64)], which rejects a value
    outside 64 bits.  The literal [:] must follow the first number
    immediately.  Input left after the second number is ignored. *)

Module Scan.

(** Unicode White_Space as [fmt] tests it, on the UTF-8 bytes:
    U+0009..U+000D, U+0020 (one byte); U+0085, U+00A0 (two bytes);
    U+1680, U+2000..U+200A, U+2028, U+2029, U+202F, U+205F, U+3000
    (three bytes). *)
Definition space1 (a : N) : bool :=
  ((9 <=? a) && (a <=? 13) || (a =? 32))%N.

Definition space2 (a b : N) : bool :=
  ((a =? 194) && ((b =? 133) || (b =? 160)))%N.

Definition space3 (a b c : N) : bool :=
  (((a =? 225) && (b =? 154) && (c =? 128))
   || ((a =? 226) && (b =? 128) &&
       (((128 <=? c) && (c <=? 138)) || (c =? 168) || (c =? 169) || (c =? 175)))
   || ((a =? 226) && (b =? 129) && (c =? 159))
   || ((a =? 227) && (b =? 128) && (c =? 128)))%N.

(** [ss.SkipSpace] with [nlIsSpace = false]: [None] is the error
    "unexpected newline". *)
Fixpoint SkipSpace (s : string) : option string :=
  match s with
  | EmptyString => Some s
  | String a r =>
      if (byte a =? 10)%N then None
      else if space1 (byte a) then SkipSpace r
      else
        match r with
        | String b r2 =>
            if space2 (byte a) (byte b) then SkipSpace r2
            else
              match r2 with
              | String c r3 =>
                  if space3 (byte a) (byte b) (byte c) then SkipSpace r3
                  else Some s
              | EmptyString => Some s
              end
        | EmptyString => Some s
        end
  end.

(** The longest prefix of decimal digits, and what follows it. *)
Fixpoint scanNumber (s : string) : string * string :=
  match s with
  | String c r =>
      if isDigit c
      then let '(tok, rest) := scanNumber r in (String c tok, rest)
      else (EmptyString, s)
  | EmptyString => (EmptyString, EmptyString)
  end.

(** Base-10 value of a digit string; [None] on any other byte. *)
Fixpoint parseUint (acc : Z) (tok : string) : option Z :=
  match tok with
  | EmptyString => Some acc
  | String c r => if isDigit c then parseUint (acc * 10 + digitVal c) r else None
  end.

Definition scanInt (s : string) : option (Z * string) :=
  s1 ← SkipSpace s;
  let '(negative, s2) :=
    match s1 with
    | String c r =>
        if Ascii.eqb c "-" then (true, r)
        else if Ascii.eqb c "+" then (false, r)
        else (false, s1)
    | EmptyString => (false, s1)
    end in
  let '(tok, s3) := scanNumber s2 in
  match tok with
  | EmptyString => None
  | _ =>
      u ← parseUint 0 tok;
      let v := if negative : bool then - u else u in
      if (- 2 ^ 63 <=? v) && (v <? 2 ^ 63) then Some (v, s3) else None
  end.

Definition Sscanf_d_colon_d (s : string) : option (Z * Z) :=
  '(h, s1) ← scanInt s;
  match s1 with
  | String c s2 =>
      if Ascii.eqb c ":" then '(m, _) ← scanInt s2; Some (h, m) else None
  | EmptyString => None
  end.

End Scan.

(** ** db.go: [parseTimeToMinutes] *)

Definition parseTimeToMinutes (timeStr : string) : Z :=
  if (String.length timeStr <? 5)%nat || negb (byteAt 2 timeStr ":") then -1
  else
    match Scan.Sscanf_d_colon_d timeStr with
    | None => -1
    | Some (h, m) => GoInt.add (GoInt.mul h 60) m
    end.

(** ** Package time: the part the program uses

    [time.Parse] with the six layouts that occur in db.go, [Time.UTC],
    [Time.In] and [Time.Format].  A [Time] is an instant (seconds since the
    Unix epoch) with the offset of the zone it is shown in; fractional
    seconds are accepted by [Parse] and dropped, since no layout of the
    program prints them. *)

Module GoTime.

Record Time := mkTime { unixSec : Z; zoneOffset : Z }.

(** Days since 1970-01-01 of a proleptic Gregorian date, and back. *)
Definition daysFromCivil (y m d : Z) : Z :=
  let y' := if m <=? 2 then y - 1 else y in
  let era := y' / 400 in
  let yoe := y' - era * 400 in
  let mp := (m + 9) mod 12 in
  let doy := (153 * mp + 2) / 5 + d - 1 in
  let doe := yoe * 365 + yoe / 4 - yoe / 100 + doy in
  era * 146097 + doe - 719468.

Definition civilFromDays (z : Z) : Z * Z * Z :=
  let z' := z + 719468 in
  let era := z' / 146097 in
  let doe := z' - era * 146097 in
  let yoe := (doe - doe / 1460 + doe / 36524 - doe / 146096) / 365 in
  let doy := doe - (365 * yoe + yoe / 4 - yoe / 100) in
  let mp := (5 * doy + 2) / 153 in
  let d := doy - (153 * mp + 2) / 5 + 1 in
  let m := if mp <? 10 then mp + 3 else mp - 9 in
  let y := yoe + era * 400 in
  (if m <=? 2 then y + 1 else y, m, d).

Definition isLeap (y : Z) : bool :=
  (y mod 4 =? 0) && (negb (y mod 100 =? 0) || (y mod 400 =? 0)).

Definition daysIn (m y : Z) : Z :=
  if m =? 2 then (if isLeap y then 29 else 28)
  else if (m =? 4) || (m =? 6) || (m =? 9) || (m =? 11) then 30
  else 31.

(** [time.Date(y, m, d, hh, mm, ss, 0, time.UTC)]. *)
Definition Date (y m d hh mm ss : Z) : Time :=
  mkTime (daysFromCivil y m d * 86400 + hh * 3600 + mm * 60 + ss) 0.

Definition UTC (t : Time) : Time := mkTime (unixSec t) 0.

(** A [*time.Location] is the offset, in seconds east of UTC, in force
    at each instant. *)
Definition Location := Z -> Z.

Definition FixedZone (offset : Z) : Location := fun _ => offset.

Definition In (loc : Location) (t : Time) : Time :=
  mkTime (unixSec t) (loc (unixSec t)).

(** The elements of a layout: the reference time's fields. *)
Inductive std :=
  stdLongYear | stdZeroMonth | stdZeroDay | stdHour | stdZeroMinute | stdZeroSecond.

(** [nextStdChunk] for the reference elements the program's layouts are
    made of: [2006], [01], [02], [15], [04], [05]; any other byte is
    literal text.  It returns the literal prefix, the element and the
    rest of the layout. *)
Fixpoint nextStdChunk (layout : string) : string * option std * string :=
  match layout with
  | String "2" (String "0" (String "0" (String "6" r))) => (EmptyString, Some stdLongYear, r)
  | String "0" (String "1" r) => (EmptyString, Some stdZeroMonth, r)
  | String "0" (String "2" r) => (EmptyString, Some stdZeroDay, r)
  | String "1" (String "5" r) => (EmptyString, Some stdHour, r)
  | String "0" (String "4" r) => (EmptyString, Some stdZeroMinute, r)
  | String "0" (String "5" r) => (EmptyString, Some stdZeroSecond, r)
  | String c r =>
      let '(p, s, rest) := nextStdChunk r in (String c p, s, rest)
  | EmptyString => (EmptyString, None, EmptyString)
  end.

Fixpoint cutspace (s : string) : string :=
  match s with
  | String " " r => cutspace r
  | _ => s
  end.

(** [skip(value, prefix)]: a space in the layout stands for any number of
    spaces in the value. Fuel is the length of the prefix. *)
Fixpoint skip (fuel : nat) (value prefix : string) : option string :=
  match prefix with
  | EmptyString => Some value
  | String p prefix' =>
      match fuel with
      | O => None
      | S fuel' =>
          if Ascii.eqb p " " then
            match value with
            | String v _ =>
                if Ascii.eqb v " "
                then skip fuel' (cutspace value) (cutspace prefix)
                else None
            | EmptyString => skip fuel' (cutspace value) (cutspace prefix)
            end
          else
            match value with
            | String v value' =>
                if Ascii.eqb v p then skip fuel' value' prefix' else None
            | EmptyString => None
            end
      end
  end.

(** [getnum(s, fixed)]: one or two digits, exactly two when [fixed]. *)
Definition getnum (s : string) (fixed : bool) : option (Z * string) :=
  match s with
  | String a r =>
      if isDigit a then
        match r with
        | String b r2 =>
            if isDigit b then Some (digitVal a * 10 + digitVal b, r2)
            else if fixed then None else Some (digitVal a, r)
        | EmptyString => if fixed then None else Some (digitVal a, r)
        end
      else None
  | EmptyString => None
  end.

(** The fractional second that may follow the seconds although the
    layout has none: [.] or [,] and at least one digit. *)
Fixpoint dropDigits (s : string) : string :=
  match s with
  | String c r => if isDigit c then dropDigits r else s
  | EmptyString => s
  end.

Definition commaOrPeriod (c : ascii) : bool := Ascii.eqb c "." || Ascii.eqb c ",".

Definition dropFraction (value : string) : string :=
  match value with
  | String a (String b r) =>
      if commaOrPeriod a && isDigit b then dropDigits r else value
  | _ => value
  end.

Record fields := mkFields {
  f_year : Z; f_month : Z; f_day : Z; f_hour : Z; f_min : Z; f_sec : Z }.

Definition parseStd (s : std) (value : string) (f : fields) : option (fields * string) :=
  match s with
  | stdLongYear =>
      match value with
      | String a (String b (String c (String d r))) =>
          if isDigit a && isDigit b && isDigit c && isDigit d then
            Some (mkFields (((digitVal a * 10 + digitVal b) * 10 + digitVal c) * 10 + digitVal d)
                           (f_month f) (f_day f) (f_hour f) (f_min f) (f_sec f), r)
          else None
      | _ => None
      end
  | stdZeroMonth =>
      '(n, r) ← getnum value true;
      if (n <=? 0) || (12 <? n) then None
      else Some (mkFields (f_year f) n (f_day f) (f_hour f) (f_min f) (f_sec f), r)
  | stdZeroDay =>
      '(n, r) ← getnum value true;
      Some (mkFields (f_year f) (f_month f) n (f_hour f) (f_min f) (f_sec f), r)
  | stdHour =>
      '(n, r) ← getnum value false;
      if (n <? 0) || (24 <=? n) then None
      else Some (mkFields (f_year f) (f_month f) (f_day f) n (f_min f) (f_sec f), r)
  | stdZeroMinute =>
      '(n, r) ← getnum value true;
      if (n <? 0) || (60 <=? n) then None
      else Some (mkFields (f_year f) (f_month f) (f_day f) (f_hour f) n (f_sec f), r)
  | stdZeroSecond =>
      '(n, r) ← getnum value true;
      if (n <? 0) || (60 <=? n) then None
      else Some (mkFields (f_year f) (f_month f) (f_day f) (f_hour f) (f_min f) n,
                 dropFraction r)
  end.

(** The loop of [time.Parse]; fuel bounds the number of layout chunks. *)
Fixpoint parseLoop (fuel : nat) (layout value : string) (f : fields) : option fields :=
  match fuel with
  | O => None
  | S fuel' =>
      let '(prefix, s, suffix) := nextStdChunk layout in
      value1 ← skip (S (String.length prefix)) value prefix;
      match s with
      | None => match value1 with EmptyString => Some f | _ => None end
      | Some s =>
          '(f', value2) ← parseStd s value1 f;
          parseLoop fuel' suffix value2 f'
      end
  end.

(** [time.Parse(layout, value)]: [None] is a parse error.  Without a
    date in the layout the date is January 1 of year 0; the day is
    checked against the month once all fields are read. *)
Definition Parse (layout value : string) : option Time :=
  f ← parseLoop (S (String.length layout)) layout value (mkFields 0 (-1) (-1) 0 0 0);
  let month := if f_month f <? 0 then 1 else f_month f in
  let day := if f_day f <? 0 then 1 else f_day f in
  if (day <? 1) || (daysIn month (f_year f) <? day) then None
  else Some (Date (f_year f) month day (f_hour f) (f_min f) (f_sec f)).

(** Wall-clock fields of [t] in its zone. *)
Definition localSec (t : Time) : Z := unixSec t + zoneOffset t.
Definition civil (t : Time) : Z * Z * Z := civilFromDays (localSec t / 86400).
Definition hour (t : Time) : Z := (localSec t mod 86400) / 3600.
Definition minute (t : Time) : Z := (localSec t mod 3600) / 60.
Definition second (t : Time) : Z := localSec t mod 60.

Definition digitChar (n : Z) : ascii := ascii_of_N (Z.to_N (48 + n)).

(** Decimal digits of a non-negative number, least significant last. *)
Fixpoint utoa (fuel : nat) (n : Z) (acc : string) : string :=
  match fuel with
  | O => acc
  | S fuel' =>
      let acc' := String (digitChar (n mod 10)) acc in
      if n <? 10 then acc' else utoa fuel' (n / 10) acc'
  end.

Fixpoint zeros (n : nat) : string :=
  match n with O => EmptyString | S k => String "0" (zeros k) end.

(** [appendInt(b, x, width)]: sign, then the digits padded with zeros. *)
Definition appendInt (x : Z) (width : nat) : string :=
  let u := Z.abs x in
  let ds := utoa 20 u EmptyString in
  let sign : string := if x <? 0 then "-"%string else EmptyString in
  sign +:+ zeros (width - String.length ds) +:+ ds.

Definition formatStd (s : std) (t : Time) : string :=
  match s with
  | stdLongYear => appendInt (civil t).1.1 4
  | stdZeroMonth => appendInt (civil t).1.2 2
  | stdZeroDay => appendInt (civil t).2 2
  | stdHour => appendInt (hour t) 2
  | stdZeroMinute => appendInt (minute t) 2
  | stdZeroSecond => appendInt (second t) 2
  end.

Fixpoint formatLoop (fuel : nat) (layout : string) (t : Time) : string :=
  match fuel with
  | O => EmptyString
  | S fuel' =>
      let '(prefix, s, suffix) := nextStdChunk layout in
      match s with
      | None => prefix
      | Some s => prefix +:+ formatStd s t +:+ formatLoop fuel' suffix t
      end
  end.

Definition Format (layout : string) (t : Time) : string :=
  formatLoop (S (String.length layout)) layout t.

(** [time.Date(y, m, d, hh, mm, ss, 0, loc)]: the instant at which the
    wall clock of [loc] shows the given reading.  The library looks the
    offset up at the reading taken as a UTC instant and, unless the
    instant this gives lies in the same period of the zone, once more at
    that instant; either way the offset used is the one in force there. *)
Definition DateIn (loc : Location) (y m d hh mm ss : Z) : Time :=
  let unix := daysFromCivil y m d * 86400 + hh * 3600 + mm * 60 + ss in
  let offset := loc unix in
  let offset := if offset =? 0 then offset else loc (unix - offset) in
  let unix := unix - offset in
  mkTime unix (loc unix).

(** [time.ParseInLocation(layout, value, loc)], for the layouts of
    [Parse]: none of them names a zone, so the reading is one of [loc]. *)
Definition ParseInLocation (layout value : string) (loc : Location) : option Time :=
  f ← parseLoop (S (String.length layout)) layout value (mkFields 0 (-1) (-1) 0 0 0);
  let month := if f_month f <? 0 then 1 else f_month f in
  let day := if f_day f <? 0 then 1 else f_day f in
  if (day <? 1) || (daysIn month (f_year f) <? day) then None
  else Some (DateIn loc (f_year f) month day (f_hour f) (f_min f) (f_sec f)).

(** [t.AddDate(years, months, days)] for a [t] in [loc]: the date of [t]
    with the numbers added, months overflowing into years and days into
    months, at the clock reading of [t]. *)
Definition AddDate (loc : Location) (years months days : Z) (t : Time) : Time :=
  let '(year, month, day) := civil t in
  let m := month - 1 + months in
  DateIn loc (year + years + m / 12) (m mod 12 + 1) (day + days)
         (hour t) (minute t) (second t).

End GoTime.

(** ** db.go, model.go: the records *)

Record Error := mkError {
  ID : Z;
  Timestamp : string;
  Component : string;
  Host : string;
  LogLevel : string;
  ErrorType : string;
  Message : string;
  LineNumber : Z;
  FilePath : string;
  ContextBefore : string;
  ContextAfter : string;
  DateRef : string
}.

(** [ErrorGroup]: errors grouped by (time, component). *)
Module ErrorGroup.
Record t := mk {
  Time : string;
  Component : string;
  Errors : list Error
}.
End ErrorGroup.

Abbreviation ErrorGroup := ErrorGroup.t.

#[global] Instance ErrorGroup_inhabited : Inhabited ErrorGroup :=
  populate (ErrorGroup.mk EmptyString EmptyString []).

(** ** db.go: time of day of an error *)

(** [extractTimeFromPath]: HH:MM:SS out of .../DD_HH:MM:SS_host:component.log *)
Definition extractTimeFromPath (path : string) : string :=
  match last (SplitSlash path) with
  | None => EmptyString
  | Some filename =>
      if (11 <? String.length filename)%nat
         && byteAt 2 filename "_" && byteAt 5 filename ":" && byteAt 8 filename ":"
      then slice 3 11 filename
      else EmptyString
  end.

(** The loop [for _, layout := range layouts] of [extractTimeHHMM]: the
    first layout that parses decides. *)
Fixpoint firstParse (layouts : list string) (value : string) : option GoTime.Time :=
  match layouts with
  | [] => None
  | layout :: rest =>
      match GoTime.Parse layout value with
      | Some t => Some t
      | None => firstParse rest value
      end
  end.

(** [extractTimeHHMM(timestamp, filepath)]: HH:MM from the timestamp or,
    failing that, from the file path; the empty string when neither has
    one.  This is the two-argument function that [buildGroups] calls. *)
Definition extractTimeHHMM (timestamp filepath : string) : string :=
  let fromPath :=
    let timeStr := extractTimeFromPath filepath in
    if (5 <=? String.length timeStr)%nat then slice 0 5 timeStr else EmptyString in
  if negb (String.eqb timestamp EmptyString) then
    match firstParse ["2006-01-02 15:04:05"; "15:04:05"; "15:04"]%string timestamp with
    | Some t => GoTime.Format "15:04" t
    | None =>
        if (5 <=? String.length timestamp)%nat && byteAt 2 timestamp ":"
        then slice 0 5 timestamp
        else fromPath
    end
  else fromPath.

(** ** filter.go: [buildGroups] *)

(** [sort.Slice(s, less)].  The library sorts in place with an unstable
    algorithm; on a slice whose elements are pairwise ordered by [less]
    there is one sorted arrangement only ([sortSlice_unique] below), so any
    sorting function is a model of it there.  This one inserts each element
    before the first one it is less than. *)
Fixpoint insertSlice {A : Type} (less : A -> A -> bool) (x : A) (l : list A) : list A :=
  match l with
  | [] => [x]
  | y :: r => if less x y then x :: y :: r else y :: insertSlice less x r
  end.

Definition sortSlice {A : Type} (less : A -> A -> bool) (l : list A) : list A :=
  foldr (insertSlice less) [] l.

(** The comparison closure of [buildGroups]: by time, then by component. *)
Definition groupLess (gi gj : ErrorGroup) : bool :=
  if negb (String.eqb (ErrorGroup.Time gi) (ErrorGroup.Time gj))
  then String.ltb (ErrorGroup.Time gi) (ErrorGroup.Time gj)
  else String.ltb (ErrorGroup.Component gi) (ErrorGroup.Component gj).

(** The time a group is filed under: the placeholder when none resolves. *)
Definition groupTime (timeOf : Error -> string) (e : Error) : string :=
  let timeStr := timeOf e in
  if String.eqb timeStr EmptyString then "??:??"%string else timeStr.

Definition groupKey (timeOf : Error -> string) (e : Error) : string :=
  groupTime timeOf e +:+ "|" +:+ Component e.

(** One iteration of the grouping loop on [groupMap] and [groupOrder]. *)
Definition groupStep (timeOf : Error -> string)
    (st : gmap string ErrorGroup * list string) (e : Error)
    : gmap string ErrorGroup * list string :=
  let '(groupMap, groupOrder) := st in
  let timeStr := groupTime timeOf e in
  let key := timeStr +:+ "|" +:+ Component e in
  match groupMap !! key with
  | Some g =>
      (<[key := ErrorGroup.mk (ErrorGroup.Time g) (ErrorGroup.Component g)
                              (ErrorGroup.Errors g ++ [e])]> groupMap,
       groupOrder)
  | None =>
      (<[key := ErrorGroup.mk timeStr (Component e) [e]]> groupMap,
       groupOrder ++ [key])
  end.

(** [buildGroups] over the function that gives an error its time. *)
Definition buildGroupsWith (timeOf : Error -> string) (filteredErrors : list Error)
    : list ErrorGroup :=
  match filteredErrors with
  | [] => []
  | _ =>
      let '(groupMap, groupOrder) :=
        fold_left (groupStep timeOf) filteredErrors (∅, []) in
      sortSlice groupLess ((fun key => groupMap !!! key) <$> groupOrder)
  end.

Definition timeOfError (e : Error) : string :=
  extractTimeHHMM (Timestamp e) (FilePath e).

Definition buildGroups (filteredErrors : list Error) : list ErrorGroup :=
  buildGroupsWith timeOfError filteredErrors.

(** [totalErrorsInGroups]. *)
Definition totalErrorsInGroups (groups : list ErrorGroup) : Z :=
  fold_left (fun total g => GoInt.add total (GoInt.len (ErrorGroup.Errors g))) groups 0.

Definition sampleError (id : Z) (ts comp level msg : string) : Error :=
  mkError id ts comp "host" level "system" msg id "" "" "" "".

(** ** model.go: the state of the browser *)

Inductive Mode := ModeHutchPicker | ModeDatePicker | ModeErrorList.

Inductive Panel := PanelGroups | PanelErrors | PanelContext.

(** The fields of [Model] that filtering and navigation read or write.
    The viewport holds the rendering of one error's context; the rendering
    itself ([formatContext]) is display code, so the viewport is the error
    it was last filled from. *)
Record Model := mkModel {
  allErrors : list Error;  (* full unfiltered list *)
  filteredErrors : list Error;  (* currently visible (after filters) *)
  groups : list ErrorGroup;  (* grouped by (time, component) *)
  mode : Mode;
  focusedPanel : Panel;  (* which panel has focus *)
  groupCursor : Z;  (* selected group in the left panel *)
  errorCursor : Z;  (* selected error in the middle panel *)
  groupOffset : Z;  (* scroll offset for groups *)
  errorOffset : Z;  (* scroll offset for errors *)
  pageSize : Z;
  levelFilter : string;
  componentFilter : string;
  messageFilter : string;
  filterInput : string;  (* value of the filter text input *)
  viewport : option Error;  (* error whose context the viewport shows *)
  height : Z  (* terminal height *)
}.

(** Field assignments [m.f = v]. *)

Definition set_filteredErrors (v : list Error) (m : Model) : Model :=
  mkModel (allErrors m) v (groups m) (mode m) (focusedPanel m) (groupCursor m)
    (errorCursor m) (groupOffset m) (errorOffset m) (pageSize m)
    (levelFilter m) (componentFilter m) (messageFilter m) (filterInput m)
    (viewport m) (height m).

Definition set_groups (v : list ErrorGroup) (m : Model) : Model :=
  mkModel (allErrors m) (filteredErrors m) v (mode m) (focusedPanel m)
    (groupCursor m) (errorCursor m) (groupOffset m) (errorOffset m)
    (pageSize m) (levelFilter m) (componentFilter m) (messageFilter m)
    (filterInput m) (viewport m) (height m).

Definition set_focusedPanel (v : Panel) (m : Model) : Model :=
  mkModel (allErrors m) (filteredErrors m) (groups m) (mode m) v
    (groupCursor m) (errorCursor m) (groupOffset m) (errorOffset m)
    (pageSize m) (levelFilter m) (componentFilter m) (messageFilter m)
    (filterInput m) (viewport m) (height m).

Definition set_groupCursor (v : Z) (m : Model) : Model :=
  mkModel (allErrors m) (filteredErrors m) (groups m) (mode m)
    (focusedPanel m) v (errorCursor m) (groupOffset m) (errorOffset m)
    (pageSize m) (levelFilter m) (componentFilter m) (messageFilter m)
    (filterInput m) (viewport m) (height m).

Definition set_errorCursor (v : Z) (m : Model) : Model :=
  mkModel (allErrors m) (filteredErrors m) (groups m) (mode m)
    (focusedPanel m) (groupCursor m) v (groupOffset m) (errorOffset m)
    (pageSize m) (levelFilter m) (componentFilter m) (messageFilter m)
    (filterInput m) (viewport m) (height m).

Definition set_groupOffset (v : Z) (m : Model) : Model :=
  mkModel (allErrors m) (filteredErrors m) (groups m) (mode m)
    (focusedPanel m) (groupCursor m) (errorCursor m) v (errorOffset m)
    (pageSize m) (levelFilter m) (componentFilter m) (messageFilter m)
    (filterInput m) (viewport m) (height m).

Definition set_errorOffset (v : Z) (m : Model) : Model :=
  mkModel (allErrors m) (filteredErrors m) (groups m) (mode m)
    (focusedPanel m) (groupCursor m) (errorCursor m) (groupOffset m) v
    (pageSize m) (levelFilter m) (componentFilter m) (messageFilter m)
    (filterInput m) (viewport m) (height m).

Definition set_levelFilter (v : string) (m : Model) : Model :=
  mkModel (allErrors m) (filteredErrors m) (groups m) (mode m)
    (focusedPanel m) (groupCursor m) (errorCursor m) (groupOffset m)
    (errorOffset m) (pageSize m) v (componentFilter m) (messageFilter m)
    (filterInput m) (viewport m) (height m).

Definition set_componentFilter (v : string) (m : Model) : Model :=
  mkModel (allErrors m) (filteredErrors m) (groups m) (mode m)
    (focusedPanel m) (groupCursor m) (errorCursor m) (groupOffset m)
    (errorOffset m) (pageSize m) (levelFilter m) v (messageFilter m)
    (filterInput m) (viewport m) (height m).

Definition set_messageFilter (v : string) (m : Model) : Model :=
  mkModel (allErrors m) (filteredErrors m) (groups m) (mode m)
    (focusedPanel m) (groupCursor m) (errorCursor m) (groupOffset m)
    (errorOffset m) (pageSize m) (levelFilter m) (componentFilter m) v
    (filterInput m) (viewport m) (height m).

Definition set_filterInput (v : string) (m : Model) : Model :=
  mkModel (allErrors m) (filteredErrors m) (groups m) (mode m)
    (focusedPanel m) (groupCursor m) (errorCursor m) (groupOffset m)
    (errorOffset m) (pageSize m) (levelFilter m) (componentFilter m)
    (messageFilter m) v (viewport m) (height m).

Definition set_viewport (v : option Error) (m : Model) : Model :=
  mkModel (allErrors m) (filteredErrors m) (groups m) (mode m)
    (focusedPanel m) (groupCursor m) (errorCursor m) (groupOffset m)
    (errorOffset m) (pageSize m) (levelFilter m) (componentFilter m)
    (messageFilter m) (filterInput m) v (height m).

Definition set_allErrors (v : list Error) (m : Model) : Model :=
  mkModel v (filteredErrors m) (groups m) (mode m) (focusedPanel m)
    (groupCursor m) (errorCursor m) (groupOffset m) (errorOffset m)
    (pageSize m) (levelFilter m) (componentFilter m) (messageFilter m)
    (filterInput m) (viewport m) (height m).

Definition set_mode (v : Mode) (m : Model) : Model :=
  mkModel (allErrors m) (filteredErrors m) (groups m) v (focusedPanel m)
    (groupCursor m) (errorCursor m) (groupOffset m) (errorOffset m)
    (pageSize m) (levelFilter m) (componentFilter m) (messageFilter m)
    (filterInput m) (viewport m) (height m).

Definition set_height (v : Z) (m : Model) : Model :=
  mkModel (allErrors m) (filteredErrors m) (groups m) (mode m)
    (focusedPanel m) (groupCursor m) (errorCursor m) (groupOffset m)
    (errorOffset m) (pageSize m) (levelFilter m) (componentFilter m)
    (messageFilter m) (filterInput m) (viewport m) v.

#[global] Instance Mode_eq_dec : EqDecision Mode.
Proof. solve_decision. Defined.

#[global] Instance Panel_eq_dec : EqDecision Panel.
Proof. solve_decision. Defined.

(** [strings.ToLower] maps every Unicode letter to its lower case, by the
    tables of package unicode.  The engine only ever compares the results,
    so it is taken as given; [asciiToLower] is what it does on ASCII. *)
Class CaseFold := ToLower : string -> string.

Definition lowerByte (c : ascii) : ascii :=
  if (65 <=? byte c)%N && (byte c <=? 90)%N then ascii_of_N (byte c + 32) else c.

Fixpoint asciiToLower (s : string) : string :=
  match s with
  | EmptyString => EmptyString
  | String c r => String (lowerByte c) (asciiToLower r)
  end.

(** [NewModel] without an initial hutch: every field has its zero value
    but the page size. *)
Definition NewModel : Model :=
  mkModel [] [] [] ModeHutchPicker PanelGroups 0 0 0 0 15
          EmptyString EmptyString EmptyString EmptyString None 0.

(** [Update] on a [tea.WindowSizeMsg], as far as the engine sees it. *)
Definition windowSize (h : Z) (m : Model) : Model := set_height h m.

Section Engine.

Context `{CaseFold}.

(** *** filter.go *)

(** [getFilteredGroupErrors]: errors of the current group, filtered by
    [messageFilter]. *)
Definition getFilteredGroupErrors (m : Model) : option (list Error) :=
  if groupCursor m >=? GoInt.len (groups m) then Some []
  else
    group ← GoInt.index (groups m) (groupCursor m);
    if String.eqb (messageFilter m) EmptyString then Some (ErrorGroup.Errors group)
    else
      let filterLower := ToLower (messageFilter m) in
      Some (List.filter (fun e => Contains (ToLower (Message e)) filterLower)
                        (ErrorGroup.Errors group)).

(** model.go: [updateContextPane]. *)
Definition updateContextPane (m : Model) : option Model :=
  if negb (bool_decide (mode m = ModeErrorList)) || (GoInt.len (groups m) =? 0) then Some m
  else
    errors ← getFilteredGroupErrors m;
    if (GoInt.len errors =? 0) || (errorCursor m >=? GoInt.len errors) then Some m
    else
      e ← GoInt.index errors (errorCursor m);
      Some (set_viewport (Some e) m).

(** model.go: [selectedError]; the inner [None] is the nil pointer. *)
Definition selectedError (m : Model) : option (option Error) :=
  errors ← getFilteredGroupErrors m;
  if (GoInt.len errors =? 0) || (errorCursor m >=? GoInt.len errors) then Some None
  else e ← GoInt.index errors (errorCursor m); Some (Some e).

(** The body of the loop of [applyFilters]: [false] is [continue]. *)
Definition passesFilters (m : Model) (e : Error) : bool :=
  if negb (String.eqb (levelFilter m) EmptyString)
     && negb (String.eqb (LogLevel e) (levelFilter m))
  then false
  else if negb (String.eqb (componentFilter m) EmptyString)
  then
    if negb (Contains (ToLower (Component e)) (ToLower (componentFilter m)))
    then false else true
  else true.

Definition applyFilters (m : Model) : option Model :=
  let m := set_filteredErrors [] m in
  let m :=
    fold_left (fun m e =>
                 if passesFilters m e
                 then set_filteredErrors (filteredErrors m ++ [e]) m
                 else m)
              (allErrors m) m in
  let m := set_groups (buildGroups (filteredErrors m)) m in
  let m := set_groupCursor 0 m in
  let m := set_errorCursor 0 m in
  let m := set_groupOffset 0 m in
  let m := set_errorOffset 0 m in
  updateContextPane m.

(** The two nested loops of [findAndSelectError]: the first position, in
    group order, of an error with the given id. *)
Fixpoint findInErrors (errorID : Z) (errors : list Error) (ei : Z) : option Z :=
  match errors with
  | [] => None
  | e :: rest => if ID e =? errorID then Some ei else findInErrors errorID rest (ei + 1)
  end.

Fixpoint findInGroups (errorID : Z) (gs : list ErrorGroup) (gi : Z) : option (Z * Z) :=
  match gs with
  | [] => None
  | group :: rest =>
      match findInErrors errorID (ErrorGroup.Errors group) 0 with
      | Some ei => Some (gi, ei)
      | None => findInGroups errorID rest (gi + 1)
      end
  end.

(** The page size of the panels: [m.height - 10], at least 5. *)
Definition panelPageSize (m : Model) : Z :=
  let pageSize := GoInt.sub (height m) 10 in
  if pageSize <? 5 then 5 else pageSize.

Definition findAndSelectError (errorID : Z) (m : Model) : option Model :=
  match findInGroups errorID (groups m) 0 with
  | Some (gi, ei) =>
      let m := set_groupCursor gi m in
      let m := set_errorCursor ei m in
      let pageSize := panelPageSize m in
      q ← GoInt.div (groupCursor m) pageSize;
      let m := set_groupOffset (GoInt.mul q pageSize) m in
      q ← GoInt.div (errorCursor m) pageSize;
      Some (set_errorOffset (GoInt.mul q pageSize) m)
  | None => Some m
  end.

Definition clearFilters (m : Model) : option Model :=
  errors ← getFilteredGroupErrors m;
  currentErrorID ←
    (if errorCursor m <? GoInt.len errors
     then ID <$> GoInt.index errors (errorCursor m)
     else Some 0);
  let m := set_levelFilter EmptyString m in
  let m := set_componentFilter EmptyString m in
  let m := set_messageFilter EmptyString m in
  let m := set_filterInput EmptyString m in
  let m := set_filteredErrors (allErrors m) m in
  let m := set_groups (buildGroups (filteredErrors m)) m in
  m ← (if currentErrorID >? 0 then findAndSelectError currentErrorID m else Some m);
  updateContextPane m.

Definition applyMessageFilter (m : Model) : option Model :=
  let m := set_errorCursor 0 m in
  let m := set_errorOffset 0 m in
  updateContextPane m.

(** The loop of [jumpToTime] from index [i] on, with the best index and
    difference so far. *)
Fixpoint nearestGroup (targetMinutes : Z) (gs : list ErrorGroup)
    (i bestIdx bestDiff : Z) : Z :=
  match gs with
  | [] => bestIdx
  | g :: rest =>
      let groupMinutes := parseTimeToMinutes (ErrorGroup.Time g) in
      if groupMinutes <? 0 then nearestGroup targetMinutes rest (i + 1) bestIdx bestDiff
      else
        let diff := abs (GoInt.sub groupMinutes targetMinutes) in
        if diff <? bestDiff
        then nearestGroup targetMinutes rest (i + 1) i diff
        else nearestGroup targetMinutes rest (i + 1) bestIdx bestDiff
  end.

Definition jumpToTime (timeStr : string) (m : Model) : option Model :=
  if GoInt.len (groups m) =? 0 then Some m
  else
    let targetMinutes := parseTimeToMinutes timeStr in
    if targetMinutes <? 0 then Some m
    else
      let bestIdx := nearestGroup targetMinutes (groups m) 0 0 (GoInt.mul 24 60) in
      let m := set_groupCursor bestIdx m in
      let m := set_errorCursor 0 m in
      q ← GoInt.div (groupCursor m) (pageSize m);
      let m := set_groupOffset (GoInt.mul q (pageSize m)) m in
      let m := set_errorOffset 0 m in
      updateContextPane m.

(** *** update.go: navigation in the three-panel layout *)

Definition navigateUp (m : Model) : option Model :=
  if bool_decide (focusedPanel m = PanelGroups) then
    if groupCursor m >? 0 then
      let m := set_groupCursor (GoInt.sub (groupCursor m) 1) m in
      let m := if groupCursor m <? groupOffset m
               then set_groupOffset (groupCursor m) m else m in
      let m := set_errorCursor 0 m in
      let m := set_errorOffset 0 m in
      let m := set_messageFilter EmptyString m in
      updateContextPane m
    else Some m
  else
    _ ← getFilteredGroupErrors m;
    if errorCursor m >? 0 then
      let m := set_errorCursor (GoInt.sub (errorCursor m) 1) m in
      let m := if errorCursor m <? errorOffset m
               then set_errorOffset (errorCursor m) m else m in
      updateContextPane m
    else Some m.

Definition navigateDown (m : Model) : option Model :=
  let visibleCount := panelPageSize m in
  if bool_decide (focusedPanel m = PanelGroups) then
    if groupCursor m <? GoInt.sub (GoInt.len (groups m)) 1 then
      let m := set_groupCursor (GoInt.add (groupCursor m) 1) m in
      let m := if groupCursor m >=? GoInt.add (groupOffset m) visibleCount
               then set_groupOffset
                      (GoInt.add (GoInt.sub (groupCursor m) visibleCount) 1) m
               else m in
      let m := set_errorCursor 0 m in
      let m := set_errorOffset 0 m in
      let m := set_messageFilter EmptyString m in
      updateContextPane m
    else Some m
  else
    errors ← getFilteredGroupErrors m;
    if errorCursor m <? GoInt.sub (GoInt.len errors) 1 then
      let m := set_errorCursor (GoInt.add (errorCursor m) 1) m in
      let m := if errorCursor m >=? GoInt.add (errorOffset m) visibleCount
               then set_errorOffset
                      (GoInt.add (GoInt.sub (errorCursor m) visibleCount) 1) m
               else m in
      updateContextPane m
    else Some m.

Definition navigatePageUp (m : Model) : option Model :=
  let pageSize := panelPageSize m in
  if bool_decide (focusedPanel m = PanelGroups) then
    let m := set_groupCursor (GoInt.sub (groupCursor m) pageSize) m in
    let m := if groupCursor m <? 0 then set_groupCursor 0 m else m in
    q ← GoInt.div (groupCursor m) pageSize;
    let m := set_groupOffset (GoInt.mul q pageSize) m in
    let m := set_errorCursor 0 m in
    let m := set_errorOffset 0 m in
    let m := set_messageFilter EmptyString m in
    updateContextPane m
  else
    let m := set_errorCursor (GoInt.sub (errorCursor m) pageSize) m in
    let m := if errorCursor m <? 0 then set_errorCursor 0 m else m in
    q ← GoInt.div (errorCursor m) pageSize;
    let m := set_errorOffset (GoInt.mul q pageSize) m in
    updateContextPane m.

Definition navigatePageDown (m : Model) : option Model :=
  let pageSize := panelPageSize m in
  if bool_decide (focusedPanel m = PanelGroups) then
    let m := set_groupCursor (GoInt.add (groupCursor m) pageSize) m in
    let m := if groupCursor m >=? GoInt.len (groups m)
             then set_groupCursor (GoInt.sub (GoInt.len (groups m)) 1) m else m in
    let m := if groupCursor m <? 0 then set_groupCursor 0 m else m in
    q ← GoInt.div (groupCursor m) pageSize;
    let m := set_groupOffset (GoInt.mul q pageSize) m in
    let m := set_errorCursor 0 m in
    let m := set_errorOffset 0 m in
    let m := set_messageFilter EmptyString m in
    updateContextPane m
  else
    errors ← getFilteredGroupErrors m;
    let m := set_errorCursor (GoInt.add (errorCursor m) pageSize) m in
    let m := if errorCursor m >=? GoInt.len errors
             then set_errorCursor (GoInt.sub (GoInt.len errors) 1) m else m in
    let m := if errorCursor m <? 0 then set_errorCursor 0 m else m in
    q ← GoInt.div (errorCursor m) pageSize;
    let m := set_errorOffset (GoInt.mul q pageSize) m in
    updateContextPane m.

Definition navigateHome (m : Model) : option Model :=
  if bool_decide (focusedPanel m = PanelGroups) then
    let m := set_groupCursor 0 m in
    let m := set_groupOffset 0 m in
    let m := set_errorCursor 0 m in
    let m := set_errorOffset 0 m in
    let m := set_messageFilter EmptyString m in
    updateContextPane m
  else
    let m := set_errorCursor 0 m in
    let m := set_errorOffset 0 m in
    updateContextPane m.

Definition navigateEnd (m : Model) : option Model :=
  let pageSize := panelPageSize m in
  if bool_decide (focusedPanel m = PanelGroups) then
    let m := set_groupCursor (GoInt.sub (GoInt.len (groups m)) 1) m in
    let m := if groupCursor m <? 0 then set_groupCursor 0 m else m in
    let m := set_groupOffset (GoInt.sub (GoInt.len (groups m)) pageSize) m in
    let m := if groupOffset m <? 0 then set_groupOffset 0 m else m in
    let m := set_errorCursor 0 m in
    let m := set_errorOffset 0 m in
    let m := set_messageFilter EmptyString m in
    updateContextPane m
  else
    errors ← getFilteredGroupErrors m;
    let m := set_errorCursor (GoInt.sub (GoInt.len errors) 1) m in
    let m := if errorCursor m <? 0 then set_errorCursor 0 m else m in
    let m := set_errorOffset (GoInt.sub (GoInt.len errors) pageSize) m in
    let m := if errorOffset m <? 0 then set_errorOffset 0 m else m in
    updateContextPane m.

(** The six navigation operations and a sequence of them. *)
Inductive NavOp := Up | Down | PageUp | PageDown | Home | End_.

Definition navigate (op : NavOp) (m : Model) : option Model :=
  match op with
  | Up => navigateUp m
  | Down => navigateDown m
  | PageUp => navigatePageUp m
  | PageDown => navigatePageDown m
  | Home => navigateHome m
  | End_ => navigateEnd m
  end.

Fixpoint navigateAll (ops : list NavOp) (m : Model) : option Model :=
  match ops with
  | [] => Some m
  | op :: rest => m' ← navigate op m; navigateAll rest m'
  end.

(** [updateDatePicker] on Enter, with [errors] what [LoadErrors]
    returned for the selected day. *)
Definition openDay (errors : list Error) (m : Model) : option Model :=
  let m := set_allErrors errors m in
  let m := set_filteredErrors errors m in
  let m := set_levelFilter EmptyString m in
  let m := set_componentFilter EmptyString m in
  let m := set_groups (buildGroups (filteredErrors m)) m in
  let m := set_mode ModeErrorList m in
  let m := set_focusedPanel PanelGroups m in
  let m := set_groupCursor 0 m in
  let m := set_errorCursor 0 m in
  let m := set_groupOffset 0 m in
  let m := set_errorOffset 0 m in
  updateContextPane m.

(** [updateErrorList] on Tab and Shift-Tab: the focus cycles over the
    three panels. *)
Definition tabForward (m : Model) : Model :=
  match focusedPanel m with
  | PanelGroups => set_focusedPanel PanelErrors m
  | PanelErrors => set_focusedPanel PanelContext m
  | PanelContext => set_focusedPanel PanelGroups m
  end.

Definition tabBackward (m : Model) : Model :=
  match focusedPanel m with
  | PanelGroups => set_focusedPanel PanelContext m
  | PanelErrors => set_focusedPanel PanelGroups m
  | PanelContext => set_focusedPanel PanelErrors m
  end.

(** [updateErrorList], the key that toggles the critical-only filter. *)
Definition toggleCriticalOnly (m : Model) : option Model :=
  let m := if String.eqb (levelFilter m) "C"
           then set_levelFilter EmptyString m
           else set_levelFilter "C" m in
  applyFilters m.

(** [updateInput] on Enter, for the component filter and the message
    filter. *)
Definition enterComponentFilter (value : string) (m : Model) : option Model :=
  applyFilters (set_componentFilter value m).

Definition enterMessageFilter (value : string) (m : Model) : option Model :=
  applyMessageFilter (set_messageFilter value m).

End Engine.

(** ** db.go: calendar days in Pacific time *)

(** [DateSummary]: a date with error counts. *)
Record DateSummary := mkDateSummary {
  Date : string;
  FileCount : Z;
  ErrorCount : Z
}.

(** One row of the query of [GetDatesWithErrors]:
    [lf.id, lf.start_timestamp_utc, lf.error_count]. *)
Record FileRow := mkFileRow {
  fileID : Z;
  timestampUTC : string;
  rowErrorCount : Z
}.

(** [dateAgg], local to [GetDatesWithErrors]. *)
Record dateAgg := mkDateAgg {
  fileIDs : gmap Z bool;
  errorCount : Z
}.

(** The zone [init] falls back to when the zone database is missing:
    [time.FixedZone("PST", -8*60*60)]. *)
Definition fixedPST : GoTime.Location := GoTime.FixedZone (-8 * 60 * 60).

Section PacificDate.

(** [pacificLoc], the package variable [init] sets: America/Los_Angeles
    from the zone database, or [fixedPST]. *)
Variable pacificLoc : GoTime.Location.

Definition utcToPacific (t : GoTime.Time) : GoTime.Time := GoTime.In pacificLoc t.

(** [utcTimestampToPacificDate]: a UTC timestamp string to a Pacific date
    string (YYYY-MM-DD); empty when the timestamp does not parse. *)
Definition utcTimestampToPacificDate (timestamp : string) : string :=
  if String.eqb timestamp EmptyString then EmptyString
  else
    match firstParse ["2006-01-02 15:04:05"; "2006-01-02T15:04:05";
                      "2006-01-02T15:04:05Z"]%string timestamp with
    | Some t =>
        let t := GoTime.UTC t in
        let pacific := utcToPacific t in
        GoTime.Format "2006-01-02" pacific
    | None =>
        if (String.length timestamp =? 10)%nat then
          match GoTime.Parse "2006-01-02" timestamp with
          | Some t =>
              let t := GoTime.UTC t in
              let pacific := utcToPacific t in
              GoTime.Format "2006-01-02" pacific
          | None => EmptyString
          end
        else EmptyString
    end.

(** The body of the loop over the rows: group by Pacific date. *)
Definition dateStep (dateMap : gmap string dateAgg) (row : FileRow)
    : gmap string dateAgg :=
  let pacificDate := utcTimestampToPacificDate (timestampUTC row) in
  if String.eqb pacificDate EmptyString then dateMap
  else
    match dateMap !! pacificDate with
    | Some agg =>
        let ids :=
          if negb (default false (fileIDs agg !! fileID row))
          then <[fileID row := true]> (fileIDs agg)
          else fileIDs agg in
        <[pacificDate := mkDateAgg ids (GoInt.add (errorCount agg) (rowErrorCount row))]>
          dateMap
    | None =>
        <[pacificDate := mkDateAgg {[fileID row := true]} (rowErrorCount row)]> dateMap
    end.

(** [GetDatesWithErrors] on the rows the query returned: dates (in
    Pacific time) that have errors, sorted descending, at most 60. *)
Definition GetDatesWithErrors (rows : list FileRow) : list DateSummary :=
  let dateMap := fold_left dateStep rows ∅ in
  let dates :=
    (fun '(date, agg) =>
       mkDateSummary date (Z.of_nat (size (fileIDs agg))) (errorCount agg))
      <$> map_to_list dateMap in
  let dates := sortSlice (fun di dj => String.ltb (Date dj) (Date di)) dates in
  if GoInt.len dates >? 60 then take 60 dates else dates.

End PacificDate.

(** ** db.go: loading the errors of a day

    The functions of the revision [buildGroups] is written against; the
    later revision follows under [Pacific]. *)

(** Field assignments [e.Timestamp = v] and [e.DateRef = v]. *)
Definition set_Timestamp (v : string) (e : Error) : Error :=
  mkError (ID e) v (Component e) (Host e) (LogLevel e) (ErrorType e) (Message e)
          (LineNumber e) (FilePath e) (ContextBefore e) (ContextAfter e) (DateRef e).

Definition set_DateRef (v : string) (e : Error) : Error :=
  mkError (ID e) (Timestamp e) (Component e) (Host e) (LogLevel e) (ErrorType e)
          (Message e) (LineNumber e) (FilePath e) (ContextBefore e) (ContextAfter e) v.

(** [getErrorSortTime]: a sortable time string, "HH:MM:SS", of an error;
    "99:99:99" sorts an unknown time to the end. *)
Definition getErrorSortTime (e : Error) : string :=
  let timeStr := extractTimeFromPath (FilePath e) in
  if negb (String.eqb timeStr EmptyString) then timeStr
  else if negb (String.eqb (Timestamp e) EmptyString) then
    if (8 <=? String.length (Timestamp e))%nat
       && byteAt 2 (Timestamp e) ":" && byteAt 5 (Timestamp e) ":"
    then slice 0 8 (Timestamp e)
    else
      match firstParse ["2006-01-02 15:04:05"; "2006-01-02T15:04:05"]%string
                       (Timestamp e) with
      | Some t => GoTime.Format "15:04:05" t
      | None => "99:99:99"%string
      end
  else "99:99:99"%string.

(** The comparison closure of [LoadErrors]: by sort time, then by line
    number. *)
Definition errorLessWith (sortTime : Error -> string) (ei ej : Error) : bool :=
  let ti := sortTime ei in
  let tj := sortTime ej in
  if negb (String.eqb ti tj) then String.ltb ti tj
  else LineNumber ei <? LineNumber ej.

Definition errorLess : Error -> Error -> bool := errorLessWith getErrorSortTime.

(** The loop of [LoadErrors] over the rows of the query, each scanned
    into an [Error]: an empty timestamp is filled from the file name. *)
Definition loadStep (errors : list Error) (e : Error) : list Error :=
  let e := if String.eqb (Timestamp e) EmptyString
           then set_Timestamp (extractTimeFromPath (FilePath e)) e else e in
  errors ++ [e].

(** [LoadErrors] on the rows the query returned.  [sort.Slice] leaves
    errors that compare equal in an order of its choosing; this is one
    such order. *)
Definition LoadErrors (rows : list Error) : list Error :=
  sortSlice errorLess (fold_left loadStep rows []).

Definition MaxInt32 : Z := 2147483647.

(** The loop of [FindNearestErrorIndex] from index [i] on, with the best
    index and difference so far; [timeOf] is the call of
    [extractTimeHHMM]. *)
Fixpoint nearestError (timeOf : Error -> string) (targetMinutes : Z)
    (errors : list Error) (i bestIdx bestDiff : Z) : Z :=
  match errors with
  | [] => bestIdx
  | e :: rest =>
      let errTime := timeOf e in
      let errMinutes := parseTimeToMinutes errTime in
      if errMinutes <? 0
      then nearestError timeOf targetMinutes rest (i + 1) bestIdx bestDiff
      else
        let diff := abs (GoInt.sub errMinutes targetMinutes) in
        if diff <? bestDiff
        then nearestError timeOf targetMinutes rest (i + 1) i diff
        else nearestError timeOf targetMinutes rest (i + 1) bestIdx bestDiff
  end.

(** [FindNearestErrorIndex]: the error closest to [targetTime] (HH:MM). *)
Definition FindNearestErrorIndex (errors : list Error) (targetTime : string) : Z :=
  if GoInt.len errors =? 0 then 0
  else
    let targetMinutes := parseTimeToMinutes targetTime in
    if targetMinutes <? 0 then 0
    else nearestError timeOfError targetMinutes errors 0 0 MaxInt32.

(** One row of the query of the later [LoadErrors]: the columns scanned
    into the error, and [lf.start_timestamp_utc]. *)
Record ErrorRow := mkErrorRow {
  scanned : Error;
  fileTimestamp : string
}.

(** ** db.go, the revision that shows times in Pacific time

    The source tree holds two revisions of db.go.  [buildGroups] in
    filter.go calls the two-argument [extractTimeHHMM] above; the later
    revision, which also has [utcTimestampToPacificDate], gives the
    function a reference date and converts every time of day from UTC to
    Pacific time.  Its functions are here, under [Pacific]. *)

Module Pacific.

Section Zone.

Variable pacificLoc : GoTime.Location.

(** What [time.Now()] returns when a function runs without a
    reference date. *)
Variable now : GoTime.Time.

(** [convertTimeWithDate]: a time string (HH:MM:SS) to Pacific time
    (HH:MM), on a reference date. *)
Definition convertTimeWithDate (timeStr dateRef : string) : string :=
  if (String.length timeStr <? 5)%nat then EmptyString
  else
    let dateRef :=
      if String.eqb dateRef EmptyString
      then GoTime.Format "2006-01-02" (GoTime.UTC now)
      else dateRef in
    let timeStr :=
      if (String.length timeStr =? 5)%nat then timeStr +:+ ":00" else timeStr in
    let fullDateTime := dateRef +:+ " " +:+ timeStr in
    match GoTime.Parse "2006-01-02 15:04:05" fullDateTime with
    | None => slice 0 5 timeStr
    | Some t =>
        let t := GoTime.UTC t in
        let pacific := utcToPacific pacificLoc t in
        GoTime.Format "15:04" pacific
    end.

(** [extractTimeHHMM(timestamp, filepath, dateRef)]. *)
Definition extractTimeHHMM (timestamp filepath dateRef : string) : string :=
  let fromPath :=
    let timeStr := extractTimeFromPath filepath in
    if negb (String.eqb timeStr EmptyString)
    then convertTimeWithDate timeStr dateRef
    else EmptyString in
  if negb (String.eqb timestamp EmptyString) then
    match GoTime.Parse "2006-01-02 15:04:05" timestamp with
    | Some t =>
        let t := GoTime.UTC t in
        let pacific := utcToPacific pacificLoc t in
        GoTime.Format "15:04" pacific
    | None =>
        match firstParse ["15:04:05"; "15:04"]%string timestamp with
        | Some t => convertTimeWithDate (GoTime.Format "15:04:05" t) dateRef
        | None =>
            if (5 <=? String.length timestamp)%nat && byteAt 2 timestamp ":" then
              let timeStr :=
                if (String.length timestamp <? 8)%nat
                then slice 0 5 timestamp +:+ ":00"
                else timestamp in
              convertTimeWithDate (slice 0 8 timeStr) dateRef
            else fromPath
        end
    end
  else fromPath.

(** [convertTimeWithDateHHMMSS]: the same conversion, to HH:MM:SS;
    empty when the time does not parse. *)
Definition convertTimeWithDateHHMMSS (timeStr dateRef : string) : string :=
  if (String.length timeStr <? 8)%nat then EmptyString
  else
    let dateRef :=
      if String.eqb dateRef EmptyString
      then GoTime.Format "2006-01-02" (GoTime.UTC now)
      else dateRef in
    let fullDateTime := dateRef +:+ " " +:+ timeStr in
    match GoTime.Parse "2006-01-02 15:04:05" fullDateTime with
    | None => EmptyString
    | Some t =>
        let t := GoTime.UTC t in
        let pacific := utcToPacific pacificLoc t in
        GoTime.Format "15:04:05" pacific
    end.

(** [getErrorSortTime]: the key [LoadErrors] sorts the errors of a day
    by; "99:99:99" sorts an unknown time to the end. *)
Definition getErrorSortTime (e : Error) : string :=
  let fromTimestamp :=
    if negb (String.eqb (Timestamp e) EmptyString)
       && (8 <=? String.length (Timestamp e))%nat
       && byteAt 2 (Timestamp e) ":" && byteAt 5 (Timestamp e) ":"
    then
      let converted := convertTimeWithDateHHMMSS (slice 0 8 (Timestamp e)) (DateRef e) in
      if negb (String.eqb converted EmptyString) then converted
      else "99:99:99"%string
    else "99:99:99"%string in
  let fromPath :=
    let timeStr := extractTimeFromPath (FilePath e) in
    if negb (String.eqb timeStr EmptyString) then
      let converted := convertTimeWithDateHHMMSS timeStr (DateRef e) in
      if negb (String.eqb converted EmptyString) then converted else timeStr
    else fromTimestamp in
  if negb (String.eqb (Timestamp e) EmptyString) then
    match firstParse ["2006-01-02 15:04:05"; "2006-01-02T15:04:05"]%string
                     (Timestamp e) with
    | Some t =>
        let t := GoTime.UTC t in
        let pacific := utcToPacific pacificLoc t in
        GoTime.Format "15:04:05" pacific
    | None => fromPath
    end
  else fromPath.

(** The time [buildGroups] files an error under when it is compiled
    against this revision: the reference date is the error's. *)
Definition timeOfError (e : Error) : string :=
  extractTimeHHMM (Timestamp e) (FilePath e) (DateRef e).

Definition buildGroups (filteredErrors : list Error) : list ErrorGroup :=
  buildGroupsWith timeOfError filteredErrors.

(** [FindNearestErrorIndex]: the error closest to [targetTime] (HH:MM
    in Pacific time). *)
Definition FindNearestErrorIndex (errors : list Error) (targetTime : string) : Z :=
  if GoInt.len errors =? 0 then 0
  else
    let targetMinutes := parseTimeToMinutes targetTime in
    if targetMinutes <? 0 then 0
    else nearestError timeOfError targetMinutes errors 0 0 MaxInt32.

(** [pacificDateToUTCRange]: the UTC time range of a Pacific date,
    start (inclusive) and end (exclusive); [None] is the parse
    error. *)
Definition pacificDateToUTCRange (pacificDate : string) : option (string * string) :=
  dateParsed ← GoTime.ParseInLocation "2006-01-02" pacificDate pacificLoc;
  let startPacific := dateParsed in
  let endPacific := GoTime.AddDate pacificLoc 0 0 1 startPacific in
  let startUTC := GoTime.Format "2006-01-02 15:04:05" (GoTime.UTC startPacific) in
  let endUTC := GoTime.Format "2006-01-02 15:04:05" (GoTime.UTC endPacific) in
  Some (startUTC, endUTC).

Definition errorLess : Error -> Error -> bool := errorLessWith getErrorSortTime.

(** The loop of [LoadErrors] over the rows of the query: the reference
    date is the date asked for, an empty timestamp is filled from the
    file name, and the error is kept when its file started on that
    Pacific date. *)
Definition loadStep (pacificDate : string) (errors : list Error) (row : ErrorRow)
    : list Error :=
  let e := scanned row in
  let e := set_DateRef pacificDate e in
  let e := if String.eqb (Timestamp e) EmptyString
           then set_Timestamp (extractTimeFromPath (FilePath e)) e else e in
  let errPacificDate := utcTimestampToPacificDate pacificLoc (fileTimestamp row) in
  if String.eqb errPacificDate pacificDate then errors ++ [e] else errors.

(** The slice [LoadErrors] hands to [sort.Slice]. *)
Definition loadedRows (rows : list ErrorRow) (pacificDate : string) : list Error :=
  fold_left (loadStep pacificDate) rows [].

(** [LoadErrors] on the rows the query returned for the UTC range of
    the date; [None] is the error of a date that does not parse.
    [sort.Slice] leaves errors that compare equal in an order of its
    choosing; this is one such order. *)
Definition LoadErrors (rows : list ErrorRow) (pacificDate : string)
    : option (list Error) :=
  _ ← pacificDateToUTCRange pacificDate;
  Some (sortSlice errorLess (loadedRows rows pacificDate)).

End Zone.

End Pacific.

(** ** The vocabulary of the properties *)

(** [a] may stand before [b] in a slice sorted by [less]. *)
Definition notAfter {A : Type} (less : A -> A -> bool) (a b : A) : Prop :=
  less b a = false.

Definition groupErrors (g : ErrorGroup) : list Error := ErrorGroup.Errors g.

(** The (time, component) pair of a group. *)
Definition groupPair (g : ErrorGroup) : string * string :=
  (ErrorGroup.Time g, ErrorGroup.Component g).

(** [e] belongs under the (time, component) pair of [g]. *)
Definition sharesKey (timeOf : Error -> string) (g : ErrorGroup) (e : Error) : Prop :=
  groupTime timeOf e = ErrorGroup.Time g /\ Component e = ErrorGroup.Component g.

#[global] Instance sharesKey_dec timeOf g e : Decision (sharesKey timeOf g e).
Proof. unfold sharesKey. apply _. Defined.

(** What holds of [groupMap] and [groupOrder] once the errors of
    [processed] went through the loop of [buildGroups]: the keys in
    [groupOrder] are distinct and are those of the map; the group under a
    key has the errors with that key, in their order, and the time and
    component of one of them; every error processed has its key there. *)
Definition groupInv (timeOf : Error -> string) (processed : list Error)
    (st : gmap string ErrorGroup * list string) : Prop :=
  NoDup st.2 /\
  (forall k, k ∈ st.2 <-> is_Some (st.1 !! k)) /\
  (forall k g, st.1 !! k = Some g ->
     ErrorGroup.Errors g = filter (fun e => groupKey timeOf e = k) processed /\
     exists e0, e0 ∈ processed /\ groupKey timeOf e0 = k /\
                ErrorGroup.Time g = groupTime timeOf e0 /\
                ErrorGroup.Component g = Component e0) /\
  (forall e, e ∈ processed -> groupKey timeOf e ∈ st.2).

(** The slice [buildGroups] hands to [sort.Slice]. *)
Definition unsortedGroups (timeOf : Error -> string) (fe : list Error)
    : list ErrorGroup :=
  let '(groupMap, groupOrder) := fold_left (groupStep timeOf) fe (∅, []) in
  (fun key => groupMap !!! key) <$> groupOrder.

(** A string of the shape HH:MM, digits around a colon. *)
Definition isHHMM (s : string) : bool :=
  match s with
  | String a (String b (String c (String d (String e EmptyString)))) =>
      isDigit a && isDigit b && Ascii.eqb c ":" && isDigit d && isDigit e
  | _ => false
  end.

(** The placeholder of [buildGroups]. *)
Definition placeholder : string := "??:??".

(** A group time that resolves: it has the shape HH:MM, or
    [parseTimeToMinutes] reads minutes from it. *)
Definition resolvable (t : string) : Prop :=
  isHHMM t = true \/ 0 <= parseTimeToMinutes t.

(** Minutes of a group, and their distance to the target, as the loop of
    [jumpToTime] computes them. *)
Definition groupMinutes (g : ErrorGroup) : Z := parseTimeToMinutes (ErrorGroup.Time g).

Definition minutesFrom (targetMinutes : Z) (g : ErrorGroup) : Z :=
  abs (GoInt.sub (groupMinutes g) targetMinutes).

(** The cursors and offsets of [m'] are those of [m]. *)
Definition sameCursors (m m' : Model) : Prop :=
  groupCursor m' = groupCursor m /\ errorCursor m' = errorCursor m /\
  groupOffset m' = groupOffset m /\ errorOffset m' = errorOffset m.

(** The cursor of a panel is on the page the offset shows. *)
Definition visible (cursor offset pageSize : Z) : Prop :=
  offset <= cursor < offset + pageSize.

(** The id of the selected error, if one is selected. *)
Definition selectedID `{CaseFold} (m : Model) : option (option Z) :=
  match selectedError m with
  | Some (Some e) => Some (Some (ID e))
  | Some None => Some None
  | None => None
  end.

(** The invariant of one panel: the cursor is an index of the list (0 for
    an empty list), the offset is not negative, and the cursor is among
    the [pageSize] rows from the offset on when the list is not empty. *)
Definition panelInv (cursor offset len pageSize : Z) : Prop :=
  0 <= cursor < Z.max 1 len /\ 0 <= offset /\
  (0 < len -> offset <= cursor < offset + pageSize).

(** Both panels, the errors panel over the list it shows. *)
Definition cursorInv `{CaseFold} (m : Model) : Prop :=
  panelInv (groupCursor m) (groupOffset m) (GoInt.len (groups m)) (panelPageSize m) /\
  exists errors, getFilteredGroupErrors m = Some errors /\
    panelInv (errorCursor m) (errorOffset m) (GoInt.len errors) (panelPageSize m).

(** The parts of the invariant, one by one.  The range of a panel: the
    cursor is an index of the list (0 for an empty list) and the offset is
    not negative; the offset of a list that is not empty is at most 2^62,
    as the lengths are, so that the arithmetic on it does not overflow. *)
Definition panelRange (cursor offset len : Z) : Prop :=
  0 <= cursor < Z.max 1 len /\ 0 <= offset /\ (0 < len -> offset <= 2 ^ 62).

Definition cursorRange `{CaseFold} (m : Model) : Prop :=
  panelRange (groupCursor m) (groupOffset m) (GoInt.len (groups m)) /\
  exists errors, getFilteredGroupErrors m = Some errors /\
    panelRange (errorCursor m) (errorOffset m) (GoInt.len errors).

(** The cursor of the groups panel is among the visible rows. *)
Definition groupsVisible (m : Model) : Prop :=
  0 < GoInt.len (groups m) -> visible (groupCursor m) (groupOffset m) (panelPageSize m).

(** The cursor of the errors panel is among the visible rows. *)
Definition errorsVisible `{CaseFold} (m : Model) : Prop :=
  forall errors, getFilteredGroupErrors m = Some errors -> 0 < GoInt.len errors ->
    visible (errorCursor m) (errorOffset m) (panelPageSize m).

(** The invariant of a panel with the visible rows counted in ([panelInv])
    or not ([panelRange]), and of both panels. *)
Definition panelInvWhen (v : bool) (cursor offset len pageSize : Z) : Prop :=
  0 <= cursor < Z.max 1 len /\ 0 <= offset /\
  (0 < len -> if v then offset <= cursor < offset + pageSize else offset <= 2 ^ 62).

Definition cursorInvWhen `{CaseFold} (vg ve : bool) (m : Model) : Prop :=
  panelInvWhen vg (groupCursor m) (groupOffset m) (GoInt.len (groups m)) (panelPageSize m) /\
  exists errors, getFilteredGroupErrors m = Some errors /\
    panelInvWhen ve (errorCursor m) (errorOffset m) (GoInt.len errors) (panelPageSize m).

(** Sizes for which the arithmetic of the navigation does not overflow:
    a terminal height and list lengths of at most 2^62. *)
Definition sizeBound (m : Model) : Prop :=
  - 2 ^ 62 <= height m <= 2 ^ 62 /\
  GoInt.len (groups m) <= 2 ^ 62 /\
  Forall (fun g => GoInt.len (ErrorGroup.Errors g) <= 2 ^ 62) (groups m).

(** The three layouts [utcTimestampToPacificDate] tries first. *)
Definition utcLayouts : list string :=
  ["2006-01-02 15:04:05"; "2006-01-02T15:04:05"; "2006-01-02T15:04:05Z"]%string.

(** ** Concrete days *)

(** The errors of the example scenario of the specification: two errors
    at 07:50 in one component, one at 09:15 in another. *)
Definition scenarioErrors : list Error :=
  [sampleError 3 "09:15:00" "drp1" "E" "lost";
   sampleError 1 "07:50:01" "teb0" "E" "timeout";
   sampleError 2 "07:50:40" "teb0" "C" "timeout"].

(** The browser on the day of [scenarioErrors], in a terminal 40 rows
    high, with ASCII case folding. *)
Definition scenarioDay : Model :=
  Eval vm_compute in
  default NewModel (openDay (H := asciiToLower) scenarioErrors (windowSize 40 NewModel)).

(** A day on which no error has a time, with the last of its three groups
    selected. *)
Definition timelessDay : Model :=
  Eval vm_compute in
  default NewModel
    (m ← openDay (H := asciiToLower)
           [sampleError 1 "" "teb0" "E" "lost"; sampleError 2 "" "drp1" "E" "lost";
            sampleError 3 "" "meb" "E" "lost"]
           (windowSize 40 NewModel);
     navigateEnd (H := asciiToLower) m).

(** The day of [scenarioErrors] with the message filter "timeout" typed
    in the errors panel and the focus back on the groups panel. *)
Definition scenarioWithMessageFilter : Model :=
  Eval vm_compute in
  default NewModel
    (tabBackward <$> enterMessageFilter (H := asciiToLower) "timeout" (tabForward scenarioDay)).

(** The round trip of the specification on the day of [scenarioErrors]:
    clear the filters; select the second error of the 07:50 group (id 2);
    filter by the component "teb", which keeps it; clear the filters
    again. *)
Definition roundTripSelected : option Model :=
  m ← clearFilters (H := asciiToLower) scenarioDay;
  navigateDown (H := asciiToLower) (tabForward m).

Definition roundTripFiltered : option Model :=
  m ← roundTripSelected;
  enterComponentFilter (H := asciiToLower) "teb" (tabBackward m).

Definition roundTripCleared : option Model :=
  m ← roundTripFiltered;
  clearFilters (H := asciiToLower) m.

(** The second group selected and a message filter that hides its one
    error: no error is selected. *)
Definition nothingSelected : option Model :=
  m ← navigateDown (H := asciiToLower) scenarioDay;
  enterMessageFilter (H := asciiToLower) "timeout" (tabForward m).

(** The component filter "teb" on, and the second error of the filtered
    view selected. *)
Definition selectedUnderFilter : Model :=
  Eval vm_compute in
  default NewModel
    (m ← enterComponentFilter (H := asciiToLower) "teb" scenarioDay;
     navigateDown (H := asciiToLower) (tabForward m)).

(** A day with eight groups, one a minute from 08:00 on, in a terminal 15
    rows high (five visible rows), after a jump to 08:07. *)
Definition eightGroups : list Error :=
  [sampleError 1 "08:00:00" "teb0" "E" "m"; sampleError 2 "08:01:00" "teb0" "E" "m";
   sampleError 3 "08:02:00" "teb0" "E" "m"; sampleError 4 "08:03:00" "teb0" "E" "m";
   sampleError 5 "08:04:00" "teb0" "E" "m"; sampleError 6 "08:05:00" "teb0" "E" "m";
   sampleError 7 "08:06:00" "teb0" "E" "m"; sampleError 8 "08:07:00" "teb0" "E" "m"].

Definition afterJump : Model :=
  Eval vm_compute in
  default NewModel
    (m ← openDay (H := asciiToLower) eightGroups (windowSize 15 NewModel);
     jumpToTime (H := asciiToLower) "08:07" m).

(** The example of the specification: groups at 07:50 and 08:05. *)
Definition twoGroups : Model :=
  Eval vm_compute in
  default NewModel
    (openDay (H := asciiToLower)
       [sampleError 1 "07:50:00" "teb0" "E" "m"; sampleError 2 "08:05:00" "teb0" "E" "m"]
       (windowSize 40 NewModel)).
(** ** model.go, filter.go: text for the display *)

(** [len(s)] of a string. *)
Definition strLen (s : string) : Z := Z.of_nat (String.length s).

(** [fmt.Sprintf("%d", x)] for an [int]. *)
Definition fmtInt (x : Z) : string :=
  let sign : string := if x <? 0 then "-"%string else EmptyString in
  sign +:+ GoTime.utoa 20 (Z.abs x) EmptyString.

(** [filterCount]: a string like "(23/647)", filtered against total. *)
Definition filterCount (m : Model) : string :=
  if GoInt.len (allErrors m) =? 0 then EmptyString
  else if GoInt.len (filteredErrors m) =? GoInt.len (allErrors m) then EmptyString
  else "(" +:+ fmtInt (GoInt.len (filteredErrors m)) +:+ "/"
           +:+ fmtInt (GoInt.len (allErrors m)) +:+ ")".

(** [truncate]: [s[:max-3]] panics when [max-3] is negative. *)
Definition truncate (s : string) (max : Z) : option string :=
  if strLen s <=? max then Some s
  else
    let hi := GoInt.sub max 3 in
    if (0 <=? hi) && (hi <=? strLen s)
    then Some (slice 0 (Z.to_nat hi) s +:+ "...")
    else None.

(** [strings.TrimLeft(s, cutset)] for a cutset of one byte. *)
Fixpoint TrimLeft (s : string) (cutset : ascii) : string :=
  match s with
  | String c r => if Ascii.eqb c cutset then TrimLeft r cutset else s
  | EmptyString => s
  end.

(** What [wrapText] writes between two lines: a newline and the indent of
    the continuation lines. *)
Definition continuation : string := String "010" "       ".

(** The inner loop of [wrapText], [for i := width - 1; i > 0; i--]: the
    last space before [width], or [width]. *)
Fixpoint breakPoint (text : string) (i : nat) (width : Z) : Z :=
  match i with
  | O => width
  | S i' => if byteAt i text " " then Z.of_nat i else breakPoint text i' width
  end.

(** The outer loop, [for len(text) > width]; every round shortens [text],
    so its length is fuel enough. *)
Fixpoint wrapLoop (fuel : nat) (text : string) (width : Z) (result : string)
    : option string :=
  if strLen text >? width then
    match fuel with
    | O => None
    | S fuel' =>
        let bp := breakPoint text (Z.to_nat (GoInt.sub width 1)) width in
        let result := result +:+ slice 0 (Z.to_nat bp) text in
        let result := result +:+ continuation in
        wrapLoop fuel'
          (TrimLeft (slice (Z.to_nat bp) (String.length text) text) " ") width result
    end
  else Some (result +:+ text).

(** [wrapText]: wraps text to fit within the given width. *)
Definition wrapText (text : string) (width : Z) : option string :=
  if (width <=? 0) || (strLen text <=? width) then Some text
  else wrapLoop (String.length text) text width EmptyString.

(** The vocabulary of wrapping. *)

(** [n] spaces. *)
Fixpoint spaces (n : nat) : string :=
  match n with O => EmptyString | S k => String " " (spaces k) end.

(** A text cut into pieces: each piece with the number of spaces that
    followed it in the text, and the last line.  [wrapped] is what
    [wrapText] writes for them, [unwrapped] the text they were cut from. *)
Fixpoint wrapped (pieces : list (string * nat)) (last : string) : string :=
  match pieces with
  | [] => last
  | (s, _) :: rest => s +:+ continuation +:+ wrapped rest last
  end.

Fixpoint unwrapped (pieces : list (string * nat)) (last : string) : string :=
  match pieces with
  | [] => last
  | (s, n) :: rest => s +:+ spaces n +:+ unwrapped rest last
  end.

Definition startsWithSpace (s : string) : bool :=
  match s with String c _ => Ascii.eqb c " " | EmptyString => false end.

(** The lines of a wrapped text: the pieces and the last line. *)
Definition wrapLines (pieces : list (string * nat)) (last : string) : list string :=
  (fst <$> pieces) ++ [last].

(** ** update.go: the mouse on the three-panel screen *)

(** [tea.MouseButton], [tea.MouseAction] and the fields of [tea.MouseMsg]
    the handlers read. *)
Inductive MouseButton :=
  | MouseButtonNone | MouseButtonLeft | MouseButtonMiddle | MouseButtonRight
  | MouseButtonWheelUp | MouseButtonWheelDown | MouseButtonWheelLeft
  | MouseButtonWheelRight | MouseButtonBackward | MouseButtonForward
  | MouseButton10 | MouseButton11.

Inductive MouseAction := MouseActionPress | MouseActionRelease | MouseActionMotion.

Record MouseMsg := mkMouseMsg {
  X : Z;
  Y : Z;
  Button : MouseButton;
  Action : MouseAction
}.

#[global] Instance MouseAction_eq_dec : EqDecision MouseAction.
Proof. solve_decision. Defined.

Section Mouse.

Context `{CaseFold}.

(** [handleMouseErrorList]; [width] is the field [m.width], the width of
    the terminal.  Scrolling the context pane moves the viewport over its
    content and changes nothing else. *)
Definition handleMouseErrorList (width : Z) (msg : MouseMsg) (m : Model)
    : option Model :=
  panelWidth ← GoInt.div (GoInt.sub width 6) 3;
  let listStartY := 3 in
  let visibleRows := GoInt.sub (height m) 10 in
  let visibleRows := if visibleRows <? 1 then 1 else visibleRows in
  let clickedPanel :=
    if X msg <? GoInt.add panelWidth 2 then PanelGroups
    else if X msg <? GoInt.add (GoInt.mul panelWidth 2) 4 then PanelErrors
    else PanelContext in
  match Button msg with
  | MouseButtonLeft =>
      if negb (bool_decide (Action msg = MouseActionPress)) then Some m
      else
        let m := set_focusedPanel clickedPanel m in
        let clickedRow := GoInt.sub (Y msg) listStartY in
        if (clickedRow >=? 0) && (clickedRow <? visibleRows) then
          match clickedPanel with
          | PanelGroups =>
              let newCursor := GoInt.add (groupOffset m) clickedRow in
              if (newCursor >=? 0) && (newCursor <? GoInt.len (groups m)) then
                let m := set_groupCursor newCursor m in
                let m := set_errorCursor 0 m in
                let m := set_errorOffset 0 m in
                let m := set_messageFilter EmptyString m in
                updateContextPane m
              else Some m
          | PanelErrors =>
              errors ← getFilteredGroupErrors m;
              let newCursor := GoInt.add (errorOffset m) clickedRow in
              if (newCursor >=? 0) && (newCursor <? GoInt.len errors) then
                let m := set_errorCursor newCursor m in
                updateContextPane m
              else Some m
          | PanelContext => Some m
          end
        else Some m
  | MouseButtonWheelUp =>
      match focusedPanel m with
      | PanelGroups => navigateUp m
      | PanelErrors => navigateUp m
      | PanelContext => Some m
      end
  | MouseButtonWheelDown =>
      match focusedPanel m with
      | PanelGroups => navigateDown m
      | PanelErrors => navigateDown m
      | PanelContext => Some m
      end
  | _ => Some m
  end.

(** [updateErrorList] on Enter: drill into the group. *)
Definition enterGroup (m : Model) : Model :=
  if bool_decide (focusedPanel m = PanelGroups) then
    let m := set_focusedPanel PanelErrors m in
    let m := set_errorCursor 0 m in
    set_errorOffset 0 m
  else m.

End Mouse.

(** ** More vocabulary *)

(** Minutes of an error under [timeOf], and their distance to the target,
    as the loop of [FindNearestErrorIndex] computes them. *)
Definition errorMinutes (timeOf : Error -> string) (e : Error) : Z :=
  parseTimeToMinutes (timeOf e).

Definition errorDistance (timeOf : Error -> string) (targetMinutes : Z) (e : Error) : Z :=
  abs (GoInt.sub (errorMinutes timeOf e) targetMinutes).

(** [idx] is the index [FindNearestErrorIndex] owes for [targetTime]: an
    index of the slice (0 for an empty one); 0 when the target does not
    parse or no error is a candidate; else the first of the nearest
    candidates.  The candidates are the errors with a time less than
    [MaxInt32] minutes from the target. *)
Definition nearestIndex (timeOf : Error -> string) (errors : list Error)
    (targetTime : string) (idx : Z) : Prop :=
  let target := parseTimeToMinutes targetTime in
  0 <= idx < Z.max 1 (GoInt.len errors) /\
  (target < 0 -> idx = 0) /\
  (0 <= target ->
   (idx = 0 /\
    forall j e, errors !! j = Some e -> 0 <= errorMinutes timeOf e ->
                MaxInt32 <= errorDistance timeOf target e)
   \/
   (exists k e, errors !! k = Some e /\ idx = Z.of_nat k /\
      0 <= errorMinutes timeOf e /\ errorDistance timeOf target e < MaxInt32 /\
      (forall j e', errors !! j = Some e' -> 0 <= errorMinutes timeOf e' ->
                    errorDistance timeOf target e <= errorDistance timeOf target e') /\
      (forall j e', errors !! j = Some e' -> 0 <= errorMinutes timeOf e' -> (j < k)%nat ->
                    errorDistance timeOf target e < errorDistance timeOf target e'))).

(** The rows of the query whose file started on the Pacific date [date],
    the sum of their error counts, and the number of files among them. *)
Definition rowsOn (pacificLoc : GoTime.Location) (date : string) (rows : list FileRow)
    : list FileRow :=
  filter (fun row => utcTimestampToPacificDate pacificLoc (timestampUTC row) = date) rows.

Definition sumCounts (rows : list FileRow) : Z :=
  foldr (fun row acc => rowErrorCount row + acc) 0 rows.

Definition distinctFiles (rows : list FileRow) : Z :=
  Z.of_nat (size (list_to_set (fileID <$> rows) : gset Z)).

(** The summaries [GetDatesWithErrors] has before the cut to 60: one for
    each date of the map, newest first. *)
Definition allDates (pacificLoc : GoTime.Location) (rows : list FileRow)
    : list DateSummary :=
  sortSlice (fun di dj => String.ltb (Date dj) (Date di))
    ((fun '(date, agg) =>
        mkDateSummary date (Z.of_nat (size (fileIDs agg))) (errorCount agg))
       <$> map_to_list (fold_left (dateStep pacificLoc) rows ∅)).

(** What holds of [dateMap] once the rows of [processed] went through the
    loop of [GetDatesWithErrors]. *)
Definition dateInv (pacificLoc : GoTime.Location) (processed : list FileRow)
    (dateMap : gmap string dateAgg) : Prop :=
  forall d,
    match dateMap !! d with
    | None => d = EmptyString \/ rowsOn pacificLoc d processed = []
    | Some agg =>
        d <> EmptyString /\ rowsOn pacificLoc d processed <> [] /\
        errorCount agg = sumCounts (rowsOn pacificLoc d processed) /\
        dom (fileIDs agg) = list_to_set (fileID <$> rowsOn pacificLoc d processed)
    end.

(** ** The operations of the three-panel screen

    The keys and the mouse of the error list, by the function of
    update.go and filter.go each runs. *)
Inductive Op :=
  | OpNavigate (op : NavOp)
  | OpToggleCritical
  | OpComponentFilter (value : string)
  | OpMessageFilter (value : string)
  | OpClearFilters
  | OpJumpToTime (timeStr : string)
  | OpMouse (width : Z) (msg : MouseMsg).

Definition perform `{CaseFold} (op : Op) (m : Model) : option Model :=
  match op with
  | OpNavigate op => navigate op m
  | OpToggleCritical => toggleCriticalOnly m
  | OpComponentFilter value => enterComponentFilter value m
  | OpMessageFilter value => enterMessageFilter value m
  | OpClearFilters => clearFilters m
  | OpJumpToTime timeStr => jumpToTime timeStr m
  | OpMouse width msg => handleMouseErrorList width msg m
  end.

(** The context pane shows the selected error, when one is selected. *)
Definition contextShown `{CaseFold} (m : Model) : Prop :=
  forall e, selectedError m = Some (Some e) -> viewport m = Some e.

(** [m] and [m'] differ in the viewport at most. *)
Definition sameButViewport (m m' : Model) : Prop :=
  set_viewport None m = set_viewport None m'.

(** The result of an operation on [m]: a panic, [m] with the focus moved
    at most, or what [updateContextPane] returns on a state in the mode
    of [m]. *)
Definition endsInUpdate `{CaseFold} (m : Model) (r : option Model) : Prop :=
  r = None \/
  (exists p, r = Some (set_focusedPanel p m)) \/
  (exists m1, mode m1 = mode m /\ r = updateContextPane m1).

(** The state [applyFilters] hands to [updateContextPane]. *)
Definition refiltered `{CaseFold} (m : Model) : Model :=
  let shown := List.filter (passesFilters m) (allErrors m) in
  set_errorOffset 0 (set_groupOffset 0 (set_errorCursor 0 (set_groupCursor 0
    (set_groups (buildGroups shown) (set_filteredErrors shown m))))).

(** The layouts [extractTimeHHMM] tries on a timestamp. *)
Definition clockLayouts : list string := ["2006-01-02 15:04:05"; "15:04:05"; "15:04"]%string.

(** An error with a timestamp that one of the layouts reads. *)
Definition timestamped (e : Error) : Prop :=
  Timestamp e <> EmptyString /\ is_Some (firstParse clockLayouts (Timestamp e)).

(** What the loop of the later [LoadErrors] makes of a row it keeps. *)
Definition loadedError (pacificDate : string) (row : ErrorRow) : Error :=
  let e := set_DateRef pacificDate (scanned row) in
  if String.eqb (Timestamp e) EmptyString
  then set_Timestamp (extractTimeFromPath (FilePath e)) e else e.

(** A sort key that is a clock time, as [Format] prints it. *)
Definition clockTime (s : string) : Prop :=
  exists t, s = GoTime.Format "15:04:05" t.

(** A slice in the order of [LoadErrors]: sort times do not decrease,
    line numbers do not decrease among equal sort times, and an error
    with the sentinel for a sort time stands after every error with a
    clock time. *)
Definition loadOrder (sortTime : Error -> string) (errors : list Error) : Prop :=
  (forall i j a b, errors !! i = Some a -> errors !! j = Some b -> (i < j)%nat ->
     String.leb (sortTime a) (sortTime b) = true /\
     (sortTime a = sortTime b -> LineNumber a <= LineNumber b)) /\
  (forall i j a b, errors !! i = Some a -> errors !! j = Some b ->
     sortTime a = "99:99:99"%string -> clockTime (sortTime b) -> (j < i)%nat).

(** * Properties *)

(** ** Go's machine integers *)

Lemma wrap_id z : GoInt.inRange z -> GoInt.wrap z = z.
Proof.
  unfold GoInt.inRange, GoInt.wrap. intros Hz.
  rewrite Z.mod_small by lia. lia.
Qed.

Lemma wrap_inRange z : GoInt.inRange (GoInt.wrap z).
Proof.
  unfold GoInt.inRange, GoInt.wrap.
  pose proof (Z.mod_pos_bound (z + 2 ^ 63) (2 ^ 64) ltac:(lia)). lia.
Qed.

Lemma len_nonneg {A} (l : list A) : 0 <= GoInt.len l.
Proof. unfold GoInt.len. lia. Qed.

Lemma len_zero_iff {A} (l : list A) : GoInt.len l = 0 <-> l = [].
Proof. unfold GoInt.len. destruct l; simpl; split; intros; try done; lia. Qed.

Lemma index_lt {A} (l : list A) i :
  0 <= i < GoInt.len l -> exists x, GoInt.index l i = Some x.
Proof.
  unfold GoInt.index, GoInt.len. intros Hi.
  destruct (Z.ltb_spec i 0); [lia|].
  destruct (nth_error l (Z.to_nat i)) eqn:E; [eauto|].
  apply nth_error_None in E. lia.
Qed.

Lemma index_elem_of {A} (l : list A) i x : GoInt.index l i = Some x -> x ∈ l.
Proof.
  unfold GoInt.index. destruct (i <? 0); [done|].
  intros Hn. apply list_elem_of_In. by eapply nth_error_In.
Qed.

Lemma index_cons_succ {A} (x : A) l i :
  0 <= i -> GoInt.index (x :: l) (i + 1) = GoInt.index l i.
Proof.
  intros Hi. unfold GoInt.index.
  destruct (Z.ltb_spec (i + 1) 0), (Z.ltb_spec i 0); try lia.
  replace (Z.to_nat (i + 1)) with (S (Z.to_nat i)) by lia. done.
Qed.

(** ** The library models on sample inputs *)

Example parse_0800 : parseTimeToMinutes "08:00" = 480.
Proof. reflexivity. Qed.

Example parse_placeholder : parseTimeToMinutes "??:??" = -1.
Proof. reflexivity. Qed.

Example parse_9900 : parseTimeToMinutes "99:00" = 5940.
Proof. reflexivity. Qed.

Example parse_signed : parseTimeToMinutes "-8:00" = -480.
Proof. reflexivity. Qed.

Example parse_trailing_input : parseTimeToMinutes "08:05 PST" = 485.
Proof. reflexivity. Qed.

Example parse_overflow :
  parseTimeToMinutes "08:9223372036854775807" = -9223372036854775329.
Proof. reflexivity. Qed.

Example parse_full :
  GoTime.Parse "2006-01-02 15:04:05" "2025-01-01 07:58:00"
  = Some (GoTime.mkTime 1735718280 0).
Proof. reflexivity. Qed.

Example parse_bad_day : GoTime.Parse "2006-01-02 15:04:05" "2025-02-30 07:58:00" = None.
Proof. reflexivity. Qed.

Example parse_fraction :
  GoTime.Parse "2006-01-02T15:04:05Z" "2025-01-01T07:58:00.25Z"
  = Some (GoTime.mkTime 1735718280 0).
Proof. reflexivity. Qed.

Example parse_short_hour :
  option_map (GoTime.Format "15:04") (GoTime.Parse "15:04" "7:05") = Some "07:05"%string.
Proof. reflexivity. Qed.

Example format_date :
  GoTime.Format "2006-01-02" (GoTime.In (GoTime.FixedZone (-8 * 60 * 60)) (GoTime.mkTime 1735718280 0))
  = "2024-12-31"%string.
Proof. reflexivity. Qed.

Example extract_full : extractTimeHHMM "2025-11-19 07:50:12" "" = "07:50"%string.
Proof. reflexivity. Qed.

Example extract_raw : extractTimeHHMM "zz:zz:zz" "" = "zz:zz"%string.
Proof. reflexivity. Qed.

Example extract_path :
  extractTimeHHMM "" "/logs/tmo/19_09:15:02_drp-srcf-cmp001:teb0.log" = "09:15"%string.
Proof. reflexivity. Qed.

Example extract_none : extractTimeHHMM "" "teb0.log" = EmptyString.
Proof. reflexivity. Qed.

Example scenario_two_groups :
  let a := sampleError 1 "07:50:01" "teb0" "E" "timeout" in
  let b := sampleError 2 "07:50:40" "teb0" "C" "timeout" in
  let c := sampleError 3 "09:15:00" "drp1" "E" "lost" in
  buildGroups [c; a; b]
  = [ErrorGroup.mk "07:50" "teb0" [a; b]; ErrorGroup.mk "09:15" "drp1" [c]].
Proof. vm_compute. reflexivity. Qed.

Example bucket_new_year :
  utcTimestampToPacificDate fixedPST "2025-01-01 07:58:00" = "2024-12-31"%string.
Proof. reflexivity. Qed.

Example bucket_after_midnight :
  utcTimestampToPacificDate fixedPST "2025-01-01 08:00:00" = "2025-01-01"%string.
Proof. reflexivity. Qed.

Example dates_new_year :
  GetDatesWithErrors fixedPST
    [mkFileRow 7 "2025-01-01 09:00:00" 4; mkFileRow 8 "2025-01-01 07:58:00" 3;
     mkFileRow 9 "2024-12-31 23:00:00" 2; mkFileRow 9 "not a time" 5]
  = [mkDateSummary "2025-01-01" 1 4; mkDateSummary "2024-12-31" 2 5].
Proof. vm_compute. reflexivity. Qed.

(** The later revision of db.go shows the time of day in Pacific time; a
    time without a date takes the date of the error's log file, and the
    clock [now] only when that is missing. *)
Example pacific_time_of_day (now : GoTime.Time) :
  Pacific.extractTimeHHMM fixedPST now "2025-01-01 07:58:00" "" "" = "23:58"%string.
Proof. reflexivity. Qed.

Example pacific_time_from_path (now : GoTime.Time) :
  Pacific.extractTimeHHMM fixedPST now ""
    "/logs/tmo/19_09:15:02_drp-srcf-cmp001:teb0.log" "2025-01-19" = "01:15"%string.
Proof. vm_compute. reflexivity. Qed.

Example pacific_sort_time_unknown (now : GoTime.Time) :
  Pacific.getErrorSortTime fixedPST now (sampleError 1 "" "teb0" "E" "m")
  = "99:99:99"%string.
Proof. reflexivity. Qed.

(** ** Order of byte strings *)

Lemma ascii_compare_trans a b c :
  Ascii.compare a b = Lt -> Ascii.compare b c = Lt -> Ascii.compare a c = Lt.
Proof.
  unfold Ascii.compare. rewrite !N.compare_lt_iff. lia.
Qed.

Lemma ascii_compare_refl a : Ascii.compare a a = Eq.
Proof. unfold Ascii.compare. apply N.compare_refl. Qed.

Lemma string_compare_refl s : String.compare s s = Eq.
Proof. induction s as [|a s IH]; simpl; [done|]. by rewrite ascii_compare_refl. Qed.

Lemma string_compare_trans s1 : forall s2 s3,
  String.compare s1 s2 = Lt -> String.compare s2 s3 = Lt -> String.compare s1 s3 = Lt.
Proof.
  induction s1 as [|a s1 IH]; intros [|b s2] [|c s3]; simpl; try done.
  destruct (Ascii.compare a b) eqn:Eab; try done;
  destruct (Ascii.compare b c) eqn:Ebc; try done; intros H1 H2.
  - apply Ascii.compare_eq_iff in Eab, Ebc. subst. rewrite ascii_compare_refl. eauto.
  - apply Ascii.compare_eq_iff in Eab. subst. by rewrite Ebc.
  - apply Ascii.compare_eq_iff in Ebc. subst. by rewrite Eab.
  - by rewrite (ascii_compare_trans _ _ _ Eab Ebc).
Qed.

Lemma ltb_irrefl s : String.ltb s s = false.
Proof. unfold String.ltb. by rewrite string_compare_refl. Qed.

Lemma ltb_trans s1 s2 s3 :
  String.ltb s1 s2 = true -> String.ltb s2 s3 = true -> String.ltb s1 s3 = true.
Proof.
  unfold String.ltb.
  destruct (String.compare s1 s2) eqn:E1; try done.
  destruct (String.compare s2 s3) eqn:E2; try done.
  by rewrite (string_compare_trans _ _ _ E1 E2).
Qed.

Lemma ltb_asym s1 s2 : String.ltb s1 s2 = true -> String.ltb s2 s1 = false.
Proof.
  unfold String.ltb. rewrite (String.compare_antisym s2 s1).
  by destruct (String.compare s1 s2).
Qed.

Lemma ltb_false_leb s1 s2 : String.ltb s1 s2 = false -> String.leb s2 s1 = true.
Proof.
  unfold String.ltb, String.leb. rewrite (String.compare_antisym s2 s1).
  by destruct (String.compare s1 s2).
Qed.

Lemma leb_refl s : String.leb s s = true.
Proof. unfold String.leb. by rewrite string_compare_refl. Qed.

Lemma ltb_total s1 s2 : s1 <> s2 -> String.ltb s1 s2 = true \/ String.ltb s2 s1 = true.
Proof.
  intros Hne. unfold String.ltb. rewrite (String.compare_antisym s2 s1).
  destruct (String.compare s1 s2) eqn:E; simpl; auto.
  apply String.compare_eq_iff in E. done.
Qed.

(** ** [sortSlice] sorts *)

Section SortSlice.

Context {A : Type} (less : A -> A -> bool).

Lemma insertSlice_Permutation x l : insertSlice less x l ≡ₚ x :: l.
Proof.
  induction l as [|y l IH]; simpl; [done|].
  destruct (less x y); [done|].
  rewrite IH. apply Permutation_swap.
Qed.

Lemma sortSlice_Permutation l : sortSlice less l ≡ₚ l.
Proof.
  induction l as [|x l IH]; simpl; [done|].
  rewrite insertSlice_Permutation. by rewrite IH.
Qed.

Lemma sortSlice_length l : length (sortSlice less l) = length l.
Proof. apply Permutation_length, sortSlice_Permutation. Qed.

Lemma sortSlice_elem_of x l : x ∈ sortSlice less l ↔ x ∈ l.
Proof. by rewrite sortSlice_Permutation. Qed.

Hypothesis less_asym : forall a b, less a b = true -> less b a = false.
Hypothesis less_trans :
  forall a b c, less a b = true -> less b c = true -> less a c = true.

Lemma insertSlice_sorted x l :
  StronglySorted (notAfter less) l -> StronglySorted (notAfter less) (insertSlice less x l).
Proof.
  induction l as [|y l IH]; simpl; intros Hs.
  - repeat constructor.
  - apply StronglySorted_inv in Hs as [Hl Hy].
    destruct (less x y) eqn:Exy.
    + constructor; [by constructor|].
      constructor; [by apply less_asym|].
      rewrite Forall_forall in Hy |- *. intros z Hz.
      specialize (Hy z Hz). unfold notAfter in *.
      destruct (less z x) eqn:Ezx; [|done].
      by rewrite (less_trans _ _ _ Ezx Exy) in Hy.
    + constructor; [by apply IH|].
      rewrite Forall_forall. intros z Hz.
      rewrite insertSlice_Permutation in Hz.
      apply elem_of_cons in Hz as [->|Hz]; [done|].
      rewrite Forall_forall in Hy. by apply Hy.
Qed.

Lemma sortSlice_sorted l : StronglySorted (notAfter less) (sortSlice less l).
Proof.
  induction l as [|x l IH]; simpl; [constructor|].
  by apply insertSlice_sorted.
Qed.

(** On a slice whose elements are pairwise ordered there is one sorted
    arrangement: whatever algorithm [sort.Slice] runs, it returns what
    [sortSlice] returns. *)
Lemma sorted_unique l1 : forall l2,
  (forall a b, a ∈ l1 -> b ∈ l1 -> a = b \/ less a b = true \/ less b a = true) ->
  l1 ≡ₚ l2 ->
  StronglySorted (notAfter less) l1 -> StronglySorted (notAfter less) l2 ->
  l1 = l2.
Proof.
  induction l1 as [|a l1 IH]; intros l2 Htot Hp H1 H2.
  - by apply Permutation_nil in Hp.
  - destruct l2 as [|b l2]; [by apply Permutation_sym, Permutation_nil in Hp|].
    apply StronglySorted_inv in H1 as [H1 Ha].
    apply StronglySorted_inv in H2 as [H2 Hb].
    rewrite Forall_forall in Ha, Hb.
    assert (a = b) as ->.
    { assert (a ∈ b :: l2) as Ha2 by (rewrite <- Hp; left).
      assert (b ∈ a :: l1) as Hb1 by (rewrite Hp; left).
      apply elem_of_cons in Ha2 as [->|Ha2]; [done|].
      pose proof Hb1 as Hb1'.
      apply elem_of_cons in Hb1 as [->|Hb1]; [done|].
      apply Hb in Ha2. apply Ha in Hb1.
      unfold notAfter in *.
      destruct (Htot a b) as [?|[?|?]]; [left|done|done|congruence|congruence]. }
    f_equal. apply IH; [|by apply Permutation_cons_inv in Hp|done|done].
    intros x y Hx Hy. apply Htot; by right.
Qed.

Lemma sortSlice_unique l l' :
  (forall a b, a ∈ l -> b ∈ l -> a = b \/ less a b = true \/ less b a = true) ->
  l' ≡ₚ l -> StronglySorted (notAfter less) l' -> l' = sortSlice less l.
Proof.
  intros Htot Hp Hs. apply sorted_unique; [| |done|apply sortSlice_sorted].
  - intros a b Ha Hb. apply Htot; by rewrite <- Hp.
  - by rewrite sortSlice_Permutation.
Qed.

End SortSlice.

(** ** The comparison of [buildGroups] is a strict order *)

Lemma groupLess_spec a b :
  groupLess a b = true <->
  String.ltb (ErrorGroup.Time a) (ErrorGroup.Time b) = true \/
  (ErrorGroup.Time a = ErrorGroup.Time b /\
   String.ltb (ErrorGroup.Component a) (ErrorGroup.Component b) = true).
Proof.
  unfold groupLess.
  destruct (String.eqb_spec (ErrorGroup.Time a) (ErrorGroup.Time b)) as [->|Hne]; simpl.
  - rewrite ltb_irrefl. intuition congruence.
  - intuition congruence.
Qed.

Lemma groupLess_asym a b : groupLess a b = true -> groupLess b a = false.
Proof.
  intros Hab. apply not_true_is_false. intros Hba.
  apply groupLess_spec in Hab, Hba.
  destruct Hab as [Hab|[Et Hab]], Hba as [Hba|[Et' Hba]].
  - apply ltb_asym in Hab. congruence.
  - rewrite Et', ltb_irrefl in Hab. done.
  - rewrite Et, ltb_irrefl in Hba. done.
  - apply ltb_asym in Hab. congruence.
Qed.

Lemma groupLess_trans a b c :
  groupLess a b = true -> groupLess b c = true -> groupLess a c = true.
Proof.
  rewrite !groupLess_spec.
  intros [Hab|[Et Hab]] [Hbc|[Et' Hbc]].
  - left. eauto using ltb_trans.
  - left. by rewrite <- Et'.
  - left. by rewrite Et.
  - right. split; [congruence|]. eauto using ltb_trans.
Qed.

Lemma groupLess_total a b :
  (ErrorGroup.Time a, ErrorGroup.Component a) <> (ErrorGroup.Time b, ErrorGroup.Component b) ->
  groupLess a b = true \/ groupLess b a = true.
Proof.
  intros Hne. rewrite !groupLess_spec.
  destruct (decide (ErrorGroup.Time a = ErrorGroup.Time b)) as [Et|Et].
  - destruct (ltb_total (ErrorGroup.Component a) (ErrorGroup.Component b)); [congruence|..];
      eauto.
  - destruct (ltb_total _ _ Et); eauto.
Qed.

(** ** The grouping loop *)

Lemma append_inj_length s1 : forall s2 r1 r2,
  String.length s1 = String.length s2 ->
  s1 +:+ r1 = s2 +:+ r2 -> s1 = s2 /\ r1 = r2.
Proof.
  induction s1 as [|a s1 IH]; intros [|b s2] r1 r2 Hlen Heq; simpl in *; try done.
  injection Heq as -> Heq. injection Hlen as Hlen.
  destruct (IH _ _ _ Hlen Heq) as [-> ->]. done.
Qed.

(** A permutation of the groups permutes the errors in them. *)
Lemma concat_Permutation {A} (l1 l2 : list (list A)) :
  l1 ≡ₚ l2 -> concat l1 ≡ₚ concat l2.
Proof.
  induction 1; simpl; [done| |by rewrite !app_assoc, (Permutation_app_comm x y)|by etrans].
  by apply Permutation_app_head.
Qed.

Lemma filter_none {A} (P : A -> Prop) `{forall x, Decision (P x)} (l : list A) :
  (forall x, x ∈ l -> ~ P x) -> filter P l = [].
Proof.
  induction l as [|x l IH]; intros Hn; [done|].
  rewrite filter_cons_False by (apply Hn; left).
  apply IH. intros y Hy. apply Hn. by right.
Qed.

(** Filing the elements of [l] under their keys, key by key, rearranges
    [l]. *)
Lemma concat_filter_keys {A} (key : A -> string) (l : list A) : forall ks,
  NoDup ks -> (forall x, x ∈ l -> key x ∈ ks) ->
  concat ((fun k => filter (fun x => key x = k) l) <$> ks) ≡ₚ l.
Proof.
  induction l as [|x l IH]; intros ks Hnd Hin.
  - clear. induction ks as [|k ks IHk]; simpl; done.
  - assert (key x ∈ ks) as Hk by (apply Hin; left).
    apply list_elem_of_split in Hk as (k1 & k2 & ->).
    apply NoDup_app in Hnd as (Hnd1 & Hdisj & Hnd2).
    apply NoDup_cons in Hnd2 as [Hnotin2 Hnd2].
    assert (key x ∉ k1) as Hnotin1.
    { intros Hin1. apply (Hdisj _ Hin1). left. }
    rewrite fmap_app, fmap_cons, concat_app. simpl.
    rewrite filter_cons_True by done.
    assert (forall ks' : list string, key x ∉ ks' ->
      (fun k => filter (fun y => key y = k) (x :: l)) <$> ks'
      = (fun k => filter (fun y => key y = k) l) <$> ks') as Hsame.
    { intros ks' Hn. apply list_fmap_ext. intros i k Hk.
      apply filter_cons_False. intros <-. apply Hn. eapply list_elem_of_lookup_2; eauto. }
    rewrite (Hsame k1 Hnotin1), (Hsame k2 Hnotin2).
    rewrite <- app_comm_cons, <- Permutation_middle. constructor.
    specialize (IH (k1 ++ key x :: k2)).
    rewrite fmap_app, fmap_cons, concat_app in IH. simpl in IH. apply IH.
    + apply NoDup_app. split_and!; [done|done|by apply NoDup_cons].
    + intros y Hy. apply Hin. by right.
Qed.

Section Grouping.

Variable timeOf : Error -> string.

(** A time is five bytes ("HH:MM") or missing. *)
Hypothesis timeOf_length :
  forall e, timeOf e = EmptyString \/ String.length (timeOf e) = 5%nat.

Lemma groupTime_length e : String.length (groupTime timeOf e) = 5%nat.
Proof.
  unfold groupTime. destruct (String.eqb_spec (timeOf e) EmptyString) as [E|E]; [done|].
  by destruct (timeOf_length e).
Qed.

Lemma groupKey_inj e1 e2 :
  groupKey timeOf e1 = groupKey timeOf e2 <->
  groupTime timeOf e1 = groupTime timeOf e2 /\ Component e1 = Component e2.
Proof.
  unfold groupKey. split.
  - intros Heq. apply append_inj_length in Heq as [? Heq].
    + by injection Heq.
    + by rewrite !groupTime_length.
  - by intros [-> ->].
Qed.

Lemma groupInv_init : groupInv timeOf [] (∅, []).
Proof.
  split_and!; simpl.
  - constructor.
  - intros k. rewrite lookup_empty. split; [by intros ?%elem_of_nil|by intros [? ?]].
  - intros k g. by rewrite lookup_empty.
  - by intros e ?%elem_of_nil.
Qed.

Lemma groupInv_step processed st e :
  groupInv timeOf processed st -> groupInv timeOf (processed ++ [e]) (groupStep timeOf st e).
Proof.
  destruct st as [gm order]. intros (Hnd & Hdom & Hgrp & Hcov). simpl in *.
  unfold groupStep. fold (groupKey timeOf e).
  destruct (gm !! groupKey timeOf e) as [g|] eqn:Hlook.
  - split_and!; simpl.
    + done.
    + intros k. rewrite Hdom. destruct (decide (k = groupKey timeOf e)) as [->|Hne].
      * rewrite lookup_insert_eq, Hlook. split; eauto.
      * by rewrite lookup_insert_ne.
    + intros k g'. destruct (decide (k = groupKey timeOf e)) as [->|Hne].
      * rewrite lookup_insert_eq. intros [= <-]. simpl.
        destruct (Hgrp _ _ Hlook) as (HE & e0 & He0 & Hk & Ht & Hc).
        split.
        -- rewrite filter_app, filter_cons_True, filter_nil by done. by rewrite HE.
        -- exists e0. split_and!; try done. apply elem_of_app. by left.
      * rewrite lookup_insert_ne by done. intros Hg.
        destruct (Hgrp _ _ Hg) as (HE & e0 & He0 & Hk & Ht & Hc).
        split.
        -- rewrite filter_app, filter_cons_False, filter_nil, app_nil_r by done. done.
        -- exists e0. split_and!; try done. apply elem_of_app. by left.
    + intros e' [He'|He']%elem_of_app; [by apply Hcov|].
      apply list_elem_of_singleton in He' as ->. apply Hdom. eauto.
  - assert (groupKey timeOf e ∉ order) as Hfresh.
    { rewrite Hdom, Hlook. by intros [? ?]. }
    split_and!; simpl.
    + apply NoDup_app. split_and!; [done| |apply NoDup_singleton].
      intros k Hk Hk'. apply list_elem_of_singleton in Hk' as ->. done.
    + intros k. rewrite elem_of_app, list_elem_of_singleton, Hdom.
      destruct (decide (k = groupKey timeOf e)) as [->|Hne].
      * rewrite lookup_insert_eq. split; eauto.
      * rewrite lookup_insert_ne by done. tauto.
    + intros k g'. destruct (decide (k = groupKey timeOf e)) as [->|Hne].
      * rewrite lookup_insert_eq. intros [= <-]. simpl. split.
        -- rewrite filter_app, filter_cons_True, filter_nil by done.
           assert (filter (fun e0 => groupKey timeOf e0 = groupKey timeOf e) processed = [])
             as ->; [|done].
           apply filter_none. intros e' He' Hk'.
           apply Hfresh. rewrite <- Hk'. by apply Hcov.
        -- exists e. split_and!; try done. apply elem_of_app. right. by left.
      * rewrite lookup_insert_ne by done. intros Hg.
        destruct (Hgrp _ _ Hg) as (HE & e0 & He0 & Hk & Ht & Hc).
        split.
        -- rewrite filter_app, filter_cons_False, filter_nil, app_nil_r by done. done.
        -- exists e0. split_and!; try done. apply elem_of_app. by left.
    + intros e' [He'|He']%elem_of_app.
      * apply elem_of_app. left. by apply Hcov.
      * apply list_elem_of_singleton in He' as ->. apply elem_of_app. right. by left.
Qed.

Lemma groupInv_fold l : forall processed st,
  groupInv timeOf processed st ->
  groupInv timeOf (processed ++ l) (fold_left (groupStep timeOf) l st).
Proof.
  induction l as [|e l IH]; intros processed st Hinv; simpl.
  - by rewrite app_nil_r.
  - rewrite (cons_middle e), app_assoc. apply IH. by apply groupInv_step.
Qed.

Lemma buildGroupsWith_unsorted fe :
  buildGroupsWith timeOf fe = sortSlice groupLess (unsortedGroups timeOf fe).
Proof.
  unfold buildGroupsWith, unsortedGroups. destruct fe as [|e fe]; [done|].
  by destruct (fold_left (groupStep timeOf) (e :: fe) (∅, [])).
Qed.

Lemma buildGroupsWith_Permutation fe :
  buildGroupsWith timeOf fe ≡ₚ unsortedGroups timeOf fe.
Proof. rewrite buildGroupsWith_unsorted. apply sortSlice_Permutation. Qed.

(** Each group in the slice is the value of one key of the map. *)
Lemma unsortedGroups_spec fe :
  exists (gm : gmap string ErrorGroup) (order : list string),
    groupInv timeOf fe (gm, order) /\
    unsortedGroups timeOf fe = (fun key => gm !!! key) <$> order /\
    forall k, k ∈ order -> gm !! k = Some (gm !!! k).
Proof.
  unfold unsortedGroups.
  pose proof (groupInv_fold fe [] (∅, []) groupInv_init) as Hinv. simpl in Hinv.
  destruct (fold_left (groupStep timeOf) fe (∅, [])) as [gm order].
  exists gm, order. split_and!; [done|done|].
  intros k Hk. destruct Hinv as (_ & Hdom & _). apply Hdom in Hk as [g Hg].
  by rewrite (lookup_total_correct _ _ _ Hg).
Qed.

Lemma unsortedGroups_group fe g :
  g ∈ unsortedGroups timeOf fe ->
  exists e0, e0 ∈ fe /\
    ErrorGroup.Time g = groupTime timeOf e0 /\
    ErrorGroup.Component g = Component e0 /\
    ErrorGroup.Errors g = filter (fun e => groupKey timeOf e = groupKey timeOf e0) fe.
Proof.
  destruct (unsortedGroups_spec fe) as (gm & order & Hinv & -> & Hval).
  intros (k & -> & Hk)%list_elem_of_fmap.
  destruct Hinv as (_ & _ & Hgrp & _).
  destruct (Hgrp _ _ (Hval _ Hk)) as (HE & e0 & He0 & <- & Ht & Hc).
  exists e0. by split_and!.
Qed.

Lemma unsortedGroups_errors fe :
  concat (groupErrors <$> unsortedGroups timeOf fe) ≡ₚ fe.
Proof.
  destruct (unsortedGroups_spec fe) as (gm & order & Hinv & -> & Hval).
  destruct Hinv as (Hnd & _ & Hgrp & Hcov). simpl in *.
  etrans; [|apply (concat_filter_keys (groupKey timeOf) fe order Hnd Hcov)].
  rewrite <- list_fmap_compose.
  assert (groupErrors ∘ (fun key => gm !!! key) <$> order
          = (fun k => filter (fun x => groupKey timeOf x = k) fe) <$> order) as ->; [|done].
  apply list_fmap_ext. intros i k Hk. simpl.
  apply list_elem_of_lookup_2 in Hk.
  destruct (Hgrp _ _ (Hval _ Hk)) as [HE _]. exact HE.
Qed.

Lemma unsortedGroups_NoDup fe : NoDup (groupPair <$> unsortedGroups timeOf fe).
Proof.
  destruct (unsortedGroups_spec fe) as (gm & order & Hinv & -> & Hval).
  destruct Hinv as (Hnd & _ & Hgrp & _). simpl in *.
  apply (NoDup_fmap_1 (fun p : string * string => p.1 +:+ "|" +:+ p.2)).
  rewrite <- !list_fmap_compose.
  assert ((fun p : string * string => p.1 +:+ "|" +:+ p.2) ∘ groupPair
            ∘ (fun key => gm !!! key) <$> order = order) as ->; [|done].
  rewrite <- (list_fmap_id order) at 2.
  apply list_fmap_ext. intros i k Hk. simpl.
  apply list_elem_of_lookup_2 in Hk.
  destruct (Hgrp _ _ (Hval _ Hk)) as (_ & e0 & _ & <- & -> & ->). done.
Qed.

End Grouping.

(** ** The time of an error is five bytes or missing *)

Lemma substring_length s : forall n m,
  (n + m <= String.length s)%nat -> String.length (String.substring n m s) = m.
Proof.
  induction s as [|c s IH]; intros [|n] [|m] Hle; simpl in *; try done; try lia.
  - rewrite (IH 0%nat m) by lia. done.
  - apply IH. lia.
  - apply IH. lia.
Qed.

Lemma slice_length a b s :
  (a <= b <= String.length s)%nat -> String.length (slice a b s) = (b - a)%nat.
Proof. intros Hle. unfold slice. apply substring_length. lia. Qed.

Lemma digitChar_isDigit k : 0 <= k <= 9 -> isDigit (GoTime.digitChar k) = true.
Proof.
  intros Hk.
  assert (k = 0 \/ k = 1 \/ k = 2 \/ k = 3 \/ k = 4 \/ k = 5 \/ k = 6 \/ k = 7 \/ k = 8 \/ k = 9)
    as Hcases by lia.
  repeat (destruct Hcases as [->|Hcases]; [reflexivity|]). by subst.
Qed.

Lemma appendInt_two n :
  0 <= n < 100 ->
  GoTime.appendInt n 2
  = String (GoTime.digitChar (n / 10)) (String (GoTime.digitChar (n mod 10)) EmptyString).
Proof.
  intros Hn. unfold GoTime.appendInt.
  rewrite Z.abs_eq by lia.
  destruct (Z.ltb_spec n 0); [lia|].
  change (GoTime.utoa 20 n EmptyString)
    with (if n <? 10 then String (GoTime.digitChar (n mod 10)) EmptyString
          else GoTime.utoa 19 (n / 10) (String (GoTime.digitChar (n mod 10)) EmptyString)).
  destruct (Z.ltb_spec n 10).
  - rewrite (Z.div_small n 10) by lia. reflexivity.
  - change (GoTime.utoa 19 (n / 10) ?acc)
      with (if n / 10 <? 10 then String (GoTime.digitChar ((n / 10) mod 10)) acc
            else GoTime.utoa 18 (n / 10 / 10) (String (GoTime.digitChar ((n / 10) mod 10)) acc)).
    destruct (Z.ltb_spec (n / 10) 10) as [Hq|Hq].
    + rewrite (Z.mod_small (n / 10) 10) by (split; [apply Z.div_pos; lia|done]). reflexivity.
    + exfalso. assert (n / 10 < 10) by (apply Z.div_lt_upper_bound; lia). lia.
Qed.

Lemma hour_range t : 0 <= GoTime.hour t < 24.
Proof.
  unfold GoTime.hour.
  pose proof (Z.mod_pos_bound (GoTime.localSec t) 86400 ltac:(lia)).
  split; [apply Z.div_pos; lia|apply Z.div_lt_upper_bound; lia].
Qed.

Lemma minute_range t : 0 <= GoTime.minute t < 60.
Proof.
  unfold GoTime.minute.
  pose proof (Z.mod_pos_bound (GoTime.localSec t) 3600 ltac:(lia)).
  split; [apply Z.div_pos; lia|apply Z.div_lt_upper_bound; lia].
Qed.

Lemma Format_HHMM t :
  GoTime.Format "15:04" t
  = String (GoTime.digitChar (GoTime.hour t / 10))
      (String (GoTime.digitChar (GoTime.hour t mod 10))
         (String ":"
            (String (GoTime.digitChar (GoTime.minute t / 10))
               (String (GoTime.digitChar (GoTime.minute t mod 10)) EmptyString)))).
Proof.
  change (GoTime.Format "15:04" t)
    with (GoTime.appendInt (GoTime.hour t) 2
          +:+ ":" +:+ GoTime.appendInt (GoTime.minute t) 2 +:+ EmptyString).
  rewrite !appendInt_two by (pose proof (hour_range t); pose proof (minute_range t); lia).
  reflexivity.
Qed.

Lemma Format_isHHMM t : isHHMM (GoTime.Format "15:04" t) = true.
Proof.
  rewrite Format_HHMM. unfold isHHMM.
  pose proof (hour_range t) as Hh. pose proof (minute_range t) as Hm.
  rewrite !digitChar_isDigit; [done|..].
  - pose proof (Z.mod_pos_bound (GoTime.minute t) 10 ltac:(lia)). lia.
  - split; [apply Z.div_pos; lia|]. assert (GoTime.minute t / 10 < 10); [|lia].
    apply Z.div_lt_upper_bound; lia.
  - pose proof (Z.mod_pos_bound (GoTime.hour t) 10 ltac:(lia)). lia.
  - split; [apply Z.div_pos; lia|]. assert (GoTime.hour t / 10 < 10); [|lia].
    apply Z.div_lt_upper_bound; lia.
Qed.

Lemma isHHMM_length s : isHHMM s = true -> String.length s = 5%nat.
Proof. by destruct s as [|a [|b [|c [|d [|e [|f s]]]]]]. Qed.

Lemma extractTimeFromPath_length path :
  extractTimeFromPath path = EmptyString \/
  String.length (extractTimeFromPath path) = 8%nat.
Proof.
  unfold extractTimeFromPath. destruct (last (SplitSlash path)) as [filename|]; [|by left].
  destruct (Nat.ltb_spec 11 (String.length filename)); simpl; [|by left].
  destruct (byteAt 2 filename "_" && byteAt 5 filename ":" && byteAt 8 filename ":");
    [|by left].
  right. rewrite slice_length; [done|lia].
Qed.

Lemma extractTimeHHMM_length timestamp filepath :
  extractTimeHHMM timestamp filepath = EmptyString \/
  String.length (extractTimeHHMM timestamp filepath) = 5%nat.
Proof.
  unfold extractTimeHHMM.
  assert (forall s, (if (5 <=? String.length s)%nat then slice 0 5 s else EmptyString)
                    = EmptyString \/
                    String.length (if (5 <=? String.length s)%nat then slice 0 5 s
                                   else EmptyString) = 5%nat) as Hslice.
  { intros s. destruct (Nat.leb_spec 5 (String.length s)); [|by left].
    right. rewrite slice_length; [done|lia]. }
  destruct (negb (String.eqb timestamp EmptyString)); [|apply Hslice].
  destruct (firstParse _ timestamp) as [t|].
  - right. apply isHHMM_length, Format_isHHMM.
  - destruct (Nat.leb_spec 5 (String.length timestamp)); simpl; [|apply Hslice].
    destruct (byteAt 2 timestamp ":"); [|apply Hslice].
    right. rewrite slice_length; [done|lia].
Qed.

Lemma timeOfError_length e :
  timeOfError e = EmptyString \/ String.length (timeOfError e) = 5%nat.
Proof. apply extractTimeHHMM_length. Qed.

(** ** The same for the later revision of db.go *)

Lemma append_length (s1 s2 : string) :
  String.length (s1 +:+ s2) = (String.length s1 + String.length s2)%nat.
Proof. induction s1 as [|c s1 IH]; simpl; [done|by rewrite IH]. Qed.

Lemma second_range t : 0 <= GoTime.second t < 60.
Proof. unfold GoTime.second. apply Z.mod_pos_bound. lia. Qed.

Lemma Format_HHMMSS t :
  GoTime.Format "15:04:05" t
  = String (GoTime.digitChar (GoTime.hour t / 10))
      (String (GoTime.digitChar (GoTime.hour t mod 10))
         (String ":"
            (String (GoTime.digitChar (GoTime.minute t / 10))
               (String (GoTime.digitChar (GoTime.minute t mod 10))
                  (String ":"
                     (String (GoTime.digitChar (GoTime.second t / 10))
                        (String (GoTime.digitChar (GoTime.second t mod 10))
                           EmptyString))))))).
Proof.
  change (GoTime.Format "15:04:05" t)
    with (GoTime.appendInt (GoTime.hour t) 2
          +:+ ":" +:+ GoTime.appendInt (GoTime.minute t) 2
          +:+ ":" +:+ GoTime.appendInt (GoTime.second t) 2 +:+ EmptyString).
  rewrite !appendInt_two
    by (pose proof (hour_range t); pose proof (minute_range t);
        pose proof (second_range t); lia).
  reflexivity.
Qed.

Lemma Format_HHMMSS_length t : String.length (GoTime.Format "15:04:05" t) = 8%nat.
Proof. by rewrite Format_HHMMSS. Qed.

(** A clock time sorts before the "99:99:99" of an unknown time. *)
Lemma Format_HHMMSS_before_sentinel t :
  String.ltb (GoTime.Format "15:04:05" t) "99:99:99" = true.
Proof.
  rewrite Format_HHMMSS.
  pose proof (hour_range t) as Hh.
  assert (0 <= GoTime.hour t / 10 <= 2) as Hd.
  { split; [apply Z.div_pos; lia|]. assert (GoTime.hour t / 10 < 3); [|lia].
    apply Z.div_lt_upper_bound; lia. }
  assert (GoTime.hour t / 10 = 0 \/ GoTime.hour t / 10 = 1 \/ GoTime.hour t / 10 = 2)
    as [-> | [-> | ->]] by lia; reflexivity.
Qed.

Section PacificTimes.

Variable pacificLoc : GoTime.Location.
Variable now : GoTime.Time.

Lemma convertTimeWithDate_length timeStr dateRef :
  (5 <= String.length timeStr)%nat ->
  String.length (Pacific.convertTimeWithDate pacificLoc now timeStr dateRef) = 5%nat.
Proof.
  intros Hlen. unfold Pacific.convertTimeWithDate.
  destruct (Nat.ltb_spec (String.length timeStr) 5); [lia|].
  destruct (GoTime.Parse _ _) as [t|].
  - apply isHHMM_length, Format_isHHMM.
  - rewrite slice_length; [done|].
    destruct (Nat.eqb_spec (String.length timeStr) 5); [|lia].
    rewrite append_length. lia.
Qed.

Lemma Pacific_extractTimeHHMM_length timestamp filepath dateRef :
  Pacific.extractTimeHHMM pacificLoc now timestamp filepath dateRef = EmptyString \/
  String.length (Pacific.extractTimeHHMM pacificLoc now timestamp filepath dateRef) = 5%nat.
Proof.
  unfold Pacific.extractTimeHHMM.
  set (fromPath := if negb (String.eqb (extractTimeFromPath filepath) EmptyString)
                   then _ else _).
  assert (fromPath = EmptyString \/ String.length fromPath = 5%nat) as Hpath.
  { subst fromPath.
    destruct (String.eqb_spec (extractTimeFromPath filepath) EmptyString) as [|Hne];
      simpl; [by left|].
    right. apply convertTimeWithDate_length.
    destruct (extractTimeFromPath_length filepath) as [Hz|Hz]; [done|rewrite Hz; lia]. }
  destruct (negb (String.eqb timestamp EmptyString)); [|done].
  destruct (GoTime.Parse _ timestamp) as [t|].
  { right. apply isHHMM_length, Format_isHHMM. }
  destruct (firstParse _ timestamp) as [t|].
  { right. apply convertTimeWithDate_length. rewrite Format_HHMMSS_length. lia. }
  destruct (Nat.leb_spec 5 (String.length timestamp)); simpl; [|done].
  destruct (byteAt 2 timestamp ":"); [|done].
  right. apply convertTimeWithDate_length.
  rewrite slice_length; [lia|].
  destruct (Nat.ltb_spec (String.length timestamp) 8); [|lia].
  rewrite append_length, slice_length; simpl; lia.
Qed.

Lemma Pacific_timeOfError_length e :
  Pacific.timeOfError pacificLoc now e = EmptyString \/
  String.length (Pacific.timeOfError pacificLoc now e) = 5%nat.
Proof. apply Pacific_extractTimeHHMM_length. Qed.

(** The sort key of an error is the sentinel, a clock time, which sorts
    before the sentinel, or the time of the file name as it stands. *)
Lemma getErrorSortTime_cases e :
  Pacific.getErrorSortTime pacificLoc now e = "99:99:99"%string \/
  (exists t, Pacific.getErrorSortTime pacificLoc now e = GoTime.Format "15:04:05" t) \/
  (Pacific.getErrorSortTime pacificLoc now e = extractTimeFromPath (FilePath e) /\
   extractTimeFromPath (FilePath e) <> EmptyString).
Proof.
  assert (forall s d, Pacific.convertTimeWithDateHHMMSS pacificLoc now s d = EmptyString \/
                      exists t, Pacific.convertTimeWithDateHHMMSS pacificLoc now s d
                                = GoTime.Format "15:04:05" t) as Hconv.
  { intros s d. unfold Pacific.convertTimeWithDateHHMMSS.
    destruct (String.length s <? 8)%nat; [by left|].
    destruct (GoTime.Parse _ _) as [t|]; [right; eauto|by left]. }
  unfold Pacific.getErrorSortTime.
  set (fromTimestamp := if negb (String.eqb (Timestamp e) EmptyString) && _ && _ && _
                        then _ else _).
  assert (fromTimestamp = "99:99:99"%string \/
          exists t, fromTimestamp = GoTime.Format "15:04:05" t) as Hts.
  { subst fromTimestamp. destruct (_ && _ && _ && _); [|by left].
    destruct (Hconv (slice 0 8 (Timestamp e)) (DateRef e)) as [->|[t Ht]]; [by left|].
    destruct (String.eqb_spec (Pacific.convertTimeWithDateHHMMSS pacificLoc now
                (slice 0 8 (Timestamp e)) (DateRef e)) EmptyString); simpl;
      [by left|right; eauto]. }
  set (fromPath := if negb (String.eqb (extractTimeFromPath (FilePath e)) EmptyString)
                   then _ else _).
  assert (fromPath = "99:99:99"%string \/
          (exists t, fromPath = GoTime.Format "15:04:05" t) \/
          (fromPath = extractTimeFromPath (FilePath e) /\
           extractTimeFromPath (FilePath e) <> EmptyString)) as Hpath.
  { subst fromPath.
    destruct (String.eqb_spec (extractTimeFromPath (FilePath e)) EmptyString) as [|Hne];
      simpl; [tauto|].
    destruct (Hconv (extractTimeFromPath (FilePath e)) (DateRef e)) as [->|[t Ht]];
      [by right; right|].
    destruct (String.eqb_spec (Pacific.convertTimeWithDateHHMMSS pacificLoc now
                (extractTimeFromPath (FilePath e)) (DateRef e)) EmptyString); simpl;
      [by right; right|right; left; eauto]. }
  destruct (negb (String.eqb (Timestamp e) EmptyString)); [|done].
  destruct (firstParse _ (Timestamp e)) as [t|]; [right; left; eauto|done].
Qed.

End PacificTimes.

(** ** A time that resolves sorts before the placeholder *)

Lemma space3_colon a b : Scan.space3 a b 58 = false.
Proof.
  unfold Scan.space3.
  destruct (a =? 225)%N, (a =? 226)%N, (a =? 227)%N, (b =? 154)%N, (b =? 128)%N,
    (b =? 129)%N; reflexivity.
Qed.

Lemma SkipSpace_colon r : Scan.SkipSpace (String ":" r) = Some (String ":" r).
Proof. destruct r as [|b [|c r]]; reflexivity. Qed.

Lemma scanInt_colon r : Scan.scanInt (String ":" r) = None.
Proof. unfold Scan.scanInt. rewrite SkipSpace_colon. reflexivity. Qed.

Lemma ascii_eqb_byte a c : Ascii.eqb a c = true -> byte a = byte c.
Proof. by intros ->%Ascii.eqb_eq. Qed.

(** A string the scanner reads two numbers from starts with a space, a
    sign or a digit: a byte below [?]. *)
Lemma Sscanf_first_byte a b r :
  (63 <= byte a)%N -> Scan.Sscanf_d_colon_d (String a (String b (String ":" r))) = None.
Proof.
  intros Ha. unfold Scan.Sscanf_d_colon_d.
  assert (Scan.scanInt (String a (String b (String ":" r))) = None) as ->; [|done].
  unfold Scan.scanInt.
  assert (Scan.SkipSpace (String a (String b (String ":" r)))
          = Some (String a (String b (String ":" r))) \/
          Scan.SkipSpace (String a (String b (String ":" r))) = Some (String ":" r))
    as [->| ->].
  { simpl. destruct (N.eqb_spec (byte a) 10); [lia|].
    assert (Scan.space1 (byte a) = false) as ->.
    { unfold Scan.space1. destruct (N.leb_spec 9 (byte a)), (N.leb_spec (byte a) 13),
        (N.eqb_spec (byte a) 32); simpl; try done; lia. }
    destruct (Scan.space2 (byte a) (byte b)).
    - right. fold (Scan.SkipSpace (String ":" r)). apply SkipSpace_colon.
    - left. change (byte ":") with 58%N. by rewrite space3_colon. }
  - simpl.
    destruct (Ascii.eqb a "-") eqn:E1; [apply ascii_eqb_byte in E1; change (byte "-") with 45%N in E1; lia|].
    destruct (Ascii.eqb a "+") eqn:E2; [apply ascii_eqb_byte in E2; change (byte "+") with 43%N in E2; lia|].
    simpl.
    assert (isDigit a = false) as Hd.
    { unfold isDigit. destruct (N.leb_spec (byte a) 57); [lia|]. by rewrite andb_false_r. }
    by rewrite Hd.
  - reflexivity.
Qed.

Lemma parseTimeToMinutes_first_byte t :
  0 <= parseTimeToMinutes t -> exists a r, t = String a r /\ (byte a < 63)%N.
Proof.
  unfold parseTimeToMinutes. intros Hp.
  destruct t as [|a [|b [|c r]]]; try (simpl in Hp; lia).
  destruct (Nat.ltb_spec (String.length (String a (String b (String c r)))) 5);
    simpl in Hp; [lia|].
  unfold byteAt in Hp. simpl in Hp.
  destruct (Ascii.eqb_spec c ":") as [->|Hc]; simpl in Hp; [|lia].
  exists a, (String b (String ":" r)). split; [done|].
  destruct (N.lt_ge_cases (byte a) 63) as [|Hge]; [done|].
  rewrite (Sscanf_first_byte a b r Hge) in Hp. lia.
Qed.

Lemma isHHMM_first_byte t :
  isHHMM t = true -> exists a r, t = String a r /\ (byte a < 63)%N.
Proof.
  destruct t as [|a r]; [done|]. intros Ht. exists a, r. split; [done|].
  destruct r as [|b [|c [|d [|e [|f r]]]]]; try done. simpl in Ht.
  unfold isDigit in Ht at 1.
  destruct (N.leb_spec (byte a) 57); [lia|]. by rewrite andb_false_r in Ht.
Qed.

Lemma resolvable_before_placeholder t :
  resolvable t -> String.ltb t placeholder = true.
Proof.
  intros Hr.
  assert (exists a r, t = String a r /\ (byte a < 63)%N) as (a & r & -> & Ha).
  { destruct Hr; [by apply isHHMM_first_byte|by apply parseTimeToMinutes_first_byte]. }
  unfold String.ltb, placeholder. simpl. unfold Ascii.compare.
  change (N_of_ascii a) with (byte a). change (N_of_ascii "?") with 63%N.
  by apply N.compare_lt_iff in Ha as ->.
Qed.

(** ** [buildGroups]: the groups partition the filtered set *)

Lemma NoDup_fmap_eq {A B} (f : A -> B) (l : list A) x y :
  NoDup (f <$> l) -> x ∈ l -> y ∈ l -> f x = f y -> x = y.
Proof.
  induction l as [|a l IH]; intros Hnd Hx Hy Hf; [by apply elem_of_nil in Hx|].
  rewrite fmap_cons in Hnd. apply NoDup_cons in Hnd as [Hnotin Hnd].
  apply elem_of_cons in Hx as [->|Hx], Hy as [->|Hy]; try done.
  - exfalso. apply Hnotin. rewrite Hf. by apply list_elem_of_fmap_2.
  - exfalso. apply Hnotin. rewrite <- Hf. by apply list_elem_of_fmap_2.
  - by apply IH.
Qed.

Lemma elem_of_concat {A} (x : A) (ls : list (list A)) :
  x ∈ concat ls <-> exists l, l ∈ ls /\ x ∈ l.
Proof.
  rewrite list_elem_of_In, in_concat. split; intros (l & Hl & Hx); exists l.
  - by rewrite !list_elem_of_In.
  - by rewrite <- !list_elem_of_In.
Qed.

Lemma StronglySorted_lookup {A} (R : A -> A -> Prop) (l : list A) :
  StronglySorted R l ->
  forall i j a b, l !! i = Some a -> l !! j = Some b -> (i < j)%nat -> R a b.
Proof.
  induction 1 as [|x l Hs IH Hall]; intros i j a b Hi Hj Hlt; [done|].
  destruct j as [|j]; [lia|]. simpl in Hj.
  destruct i as [|i]; simpl in Hi.
  - injection Hi as <-. rewrite Forall_forall in Hall.
    apply Hall. by eapply list_elem_of_lookup_2.
  - eapply IH; eauto. lia.
Qed.

Lemma totalErrorsInGroups_sum gs : forall acc,
  0 <= acc ->
  acc + GoInt.len (concat (groupErrors <$> gs)) < 2 ^ 63 ->
  fold_left (fun total g => GoInt.add total (GoInt.len (ErrorGroup.Errors g))) gs acc
  = acc + GoInt.len (concat (groupErrors <$> gs)).
Proof.
  unfold GoInt.len.
  induction gs as [|g gs IH]; intros acc Hacc Hlt; [simpl; lia|].
  rewrite fmap_cons in *. cbn [concat fold_left] in *.
  rewrite length_app, Nat2Z.inj_add in *. unfold groupErrors in Hlt at 1.
  assert (GoInt.add acc (Z.of_nat (length (ErrorGroup.Errors g)))
          = acc + Z.of_nat (length (ErrorGroup.Errors g))) as ->.
  { apply wrap_id. unfold GoInt.inRange. lia. }
  rewrite IH by lia. unfold groupErrors at 2. lia.
Qed.

Section Partition.

Variable timeOf : Error -> string.
Hypothesis timeOf_length :
  forall e, timeOf e = EmptyString \/ String.length (timeOf e) = 5%nat.

Lemma buildGroupsWith_elem_of g fe :
  g ∈ buildGroupsWith timeOf fe <-> g ∈ unsortedGroups timeOf fe.
Proof. by rewrite buildGroupsWith_Permutation. Qed.

Lemma buildGroupsWith_errors fe :
  concat (groupErrors <$> buildGroupsWith timeOf fe) ≡ₚ fe.
Proof.
  rewrite <- (unsortedGroups_errors timeOf fe) at 2.
  apply concat_Permutation, fmap_Permutation, buildGroupsWith_Permutation.
Qed.

Lemma buildGroupsWith_NoDup fe : NoDup (groupPair <$> buildGroupsWith timeOf fe).
Proof.
  rewrite buildGroupsWith_Permutation. apply unsortedGroups_NoDup.
Qed.

Lemma buildGroupsWith_group fe g :
  g ∈ buildGroupsWith timeOf fe ->
  ErrorGroup.Errors g <> [] /\ ErrorGroup.Errors g = filter (sharesKey timeOf g) fe.
Proof.
  intros Hg. apply buildGroupsWith_elem_of, unsortedGroups_group in Hg
    as (e0 & He0 & Ht & Hc & HE).
  assert (ErrorGroup.Errors g = filter (sharesKey timeOf g) fe) as HE'.
  { rewrite HE. apply list_filter_iff. intros e. unfold sharesKey.
    rewrite (groupKey_inj timeOf timeOf_length), Ht, Hc. done. }
  split; [|done]. intros Hnil.
  assert (e0 ∈ ErrorGroup.Errors g) as Hin; [|by rewrite Hnil in Hin; apply elem_of_nil in Hin].
  rewrite HE'. apply list_elem_of_filter. by split.
Qed.

Lemma buildGroupsWith_exactly_one fe e :
  e ∈ fe ->
  exists g, g ∈ buildGroupsWith timeOf fe /\ e ∈ ErrorGroup.Errors g /\
    forall g', g' ∈ buildGroupsWith timeOf fe -> e ∈ ErrorGroup.Errors g' -> g' = g.
Proof.
  intros He.
  assert (e ∈ concat (groupErrors <$> buildGroupsWith timeOf fe)) as Hin
    by by rewrite buildGroupsWith_errors.
  apply elem_of_concat in Hin as (es & Hin & Hes).
  apply list_elem_of_fmap in Hin as (g & -> & Hg).
  exists g. split_and!; [done|done|]. intros g' Hg' He'.
  apply (NoDup_fmap_eq groupPair (buildGroupsWith timeOf fe)); [|done|done|].
  - apply buildGroupsWith_NoDup.
  - destruct (buildGroupsWith_group _ _ Hg) as [_ HE].
    destruct (buildGroupsWith_group _ _ Hg') as [_ HE'].
    unfold groupErrors in Hes. rewrite HE in Hes. rewrite HE' in He'.
    apply list_elem_of_filter in Hes as [[Ht Hc] _].
    apply list_elem_of_filter in He' as [[Ht' Hc'] _].
    unfold groupPair. congruence.
Qed.

Lemma buildGroupsWith_total fe :
  GoInt.len fe < 2 ^ 63 ->
  totalErrorsInGroups (buildGroupsWith timeOf fe) = GoInt.len fe.
Proof.
  intros Hlen. unfold totalErrorsInGroups.
  assert (GoInt.len (concat (groupErrors <$> buildGroupsWith timeOf fe)) = GoInt.len fe)
    as Hsum.
  { unfold GoInt.len. f_equal. apply Permutation_length, buildGroupsWith_errors. }
  rewrite totalErrorsInGroups_sum; lia.
Qed.

(** *** [buildGroups]: the groups are sorted *)

Lemma buildGroupsWith_sorted fe :
  StronglySorted (notAfter groupLess) (buildGroupsWith timeOf fe).
Proof.
  rewrite buildGroupsWith_unsorted.
  apply sortSlice_sorted; [apply groupLess_asym|apply groupLess_trans].
Qed.

(** Another sorting algorithm in the place of [sort.Slice] gives the
    same groups. *)
Lemma buildGroupsWith_any_sort fe gs :
  gs ≡ₚ unsortedGroups timeOf fe -> StronglySorted (notAfter groupLess) gs ->
  gs = buildGroupsWith timeOf fe.
Proof.
  intros Hp Hs. rewrite buildGroupsWith_unsorted.
  apply sortSlice_unique; [apply groupLess_asym|apply groupLess_trans| |done|done].
  intros a b Ha Hb.
  destruct (decide (groupPair a = groupPair b)) as [Heq|Hne].
  - left. eapply NoDup_fmap_eq; [apply unsortedGroups_NoDup|done|done|done].
  - right. by apply groupLess_total.
Qed.

Lemma buildGroupsWith_adjacent fe i g h :
  buildGroupsWith timeOf fe !! i = Some g ->
  buildGroupsWith timeOf fe !! S i = Some h ->
  String.leb (ErrorGroup.Time g) (ErrorGroup.Time h) = true /\
  (ErrorGroup.Time g = ErrorGroup.Time h ->
   String.leb (ErrorGroup.Component g) (ErrorGroup.Component h) = true).
Proof.
  intros Hg Hh.
  pose proof (StronglySorted_lookup _ _ (buildGroupsWith_sorted fe) i (S i) g h Hg Hh
                ltac:(lia)) as Hle.
  unfold notAfter, groupLess in Hle.
  destruct (String.eqb_spec (ErrorGroup.Time h) (ErrorGroup.Time g)) as [Et|Et];
    simpl in Hle.
  - rewrite Et. split; [apply leb_refl|]. intros _. by apply ltb_false_leb.
  - split; [by apply ltb_false_leb|]. intros Et'. by rewrite Et' in Et.
Qed.

Lemma buildGroupsWith_placeholder_last fe i j g h :
  buildGroupsWith timeOf fe !! i = Some g ->
  buildGroupsWith timeOf fe !! j = Some h ->
  ErrorGroup.Time g = placeholder ->
  resolvable (ErrorGroup.Time h) ->
  (j < i)%nat.
Proof.
  intros Hg Hh Ht Hr.
  apply resolvable_before_placeholder in Hr. rewrite <- Ht in Hr.
  assert (groupLess h g = true) as Hless by (apply groupLess_spec; by left).
  destruct (Nat.lt_trichotomy i j) as [Hlt|[->|Hlt]]; [|..|done].
  - pose proof (StronglySorted_lookup _ _ (buildGroupsWith_sorted fe) i j g h Hg Hh Hlt)
      as Hle. unfold notAfter in Hle. congruence.
  - rewrite Hg in Hh. injection Hh as <-. by rewrite ltb_irrefl in Hr.
Qed.

(** Where an error is filed: in a group under its time, or under the
    placeholder when it has none. *)
Lemma buildGroupsWith_filed fe e :
  e ∈ fe ->
  exists i g, buildGroupsWith timeOf fe !! i = Some g /\ e ∈ ErrorGroup.Errors g /\
    ErrorGroup.Time g
    = (if String.eqb (timeOf e) EmptyString then placeholder else timeOf e) /\
    ErrorGroup.Component g = Component e.
Proof.
  intros He. destruct (buildGroupsWith_exactly_one fe e He) as (g & Hg & Hin & _).
  pose proof Hg as Hlook. apply list_elem_of_lookup in Hlook as [i Hi].
  exists i, g. split_and!; [done|done|..].
  - destruct (buildGroupsWith_group _ _ Hg) as [_ HE]. rewrite HE in Hin.
    apply list_elem_of_filter in Hin as [[Ht _] _]. by rewrite <- Ht.
  - destruct (buildGroupsWith_group _ _ Hg) as [_ HE]. rewrite HE in Hin.
    apply list_elem_of_filter in Hin as [[_ Hc] _]. by rewrite <- Hc.
Qed.

Lemma buildGroupsWith_timeless_last fe e :
  e ∈ fe -> timeOf e = EmptyString ->
  exists i g, buildGroupsWith timeOf fe !! i = Some g /\ e ∈ ErrorGroup.Errors g /\
    ErrorGroup.Time g = placeholder /\
    forall j h, buildGroupsWith timeOf fe !! j = Some h ->
      resolvable (ErrorGroup.Time h) -> (j < i)%nat.
Proof.
  intros He Ht. destruct (buildGroupsWith_filed fe e He) as (i & g & Hi & Hin & Hg & _).
  rewrite Ht in Hg. simpl in Hg.
  exists i, g. split_and!; [done..|].
  intros j h Hj Hr. by eapply buildGroupsWith_placeholder_last.
Qed.

End Partition.

(** C3.  For every filtered error set, the groups [buildGroups] builds
    partition it: the group sizes add up to the size of the set
    ([totalErrorsInGroups]), the errors of the groups together are a
    rearrangement of the set (nothing lost, nothing twice), no two groups
    have the same (time, component) pair, each group holds exactly the
    errors of the set that share its pair, in their order, and is not
    empty, and every error of the set is in one group and no other.  The
    length bound is the one every Go slice meets. *)
Theorem buildGroups_partitions_filtered_set (filteredErrors : list Error) :
  GoInt.len filteredErrors < 2 ^ 63 ->
  let groups := buildGroups filteredErrors in
  totalErrorsInGroups groups = GoInt.len filteredErrors /\
  concat (groupErrors <$> groups) ≡ₚ filteredErrors /\
  NoDup (groupPair <$> groups) /\
  (forall g, g ∈ groups ->
     ErrorGroup.Errors g <> [] /\
     ErrorGroup.Errors g = filter (sharesKey timeOfError g) filteredErrors) /\
  (forall e, e ∈ filteredErrors ->
     exists g, g ∈ groups /\ e ∈ ErrorGroup.Errors g /\
       forall g', g' ∈ groups -> e ∈ ErrorGroup.Errors g' -> g' = g).
Proof.
  intros Hlen groups. subst groups. unfold buildGroups. split_and!.
  - by apply buildGroupsWith_total.
  - apply buildGroupsWith_errors.
  - apply buildGroupsWith_NoDup.
  - intros g. apply buildGroupsWith_group, timeOfError_length.
  - intros e. apply buildGroupsWith_exactly_one, timeOfError_length.
Qed.

Lemma buildGroups_partitions_filtered_set_witness :
  GoInt.len scenarioErrors < 2 ^ 63 /\
  totalErrorsInGroups (buildGroups scenarioErrors) = GoInt.len scenarioErrors.
Proof.
  split; [reflexivity|].
  apply (buildGroups_partitions_filtered_set scenarioErrors). reflexivity.
Defined.

(** C4.  After [buildGroups] the group list is sorted: of two adjacent
    groups the first has the smaller or equal time string and, when the
    times are equal, the smaller or equal component; a group filed under
    the placeholder "??:??" stands after every group whose time resolves
    (a time of the shape HH:MM, or one [parseTimeToMinutes] reads minutes
    from).  Every error is in a group under its own component and its own
    time, [extractTimeHHMM] of its timestamp and file path, or under the
    placeholder when that time is empty; so an error with no time is in a
    placeholder group, after every group whose time resolves. *)
Theorem buildGroups_sorted (filteredErrors : list Error) :
  let groups := buildGroups filteredErrors in
  (forall i g h,
     groups !! i = Some g -> groups !! S i = Some h ->
     String.leb (ErrorGroup.Time g) (ErrorGroup.Time h) = true /\
     (ErrorGroup.Time g = ErrorGroup.Time h ->
      String.leb (ErrorGroup.Component g) (ErrorGroup.Component h) = true)) /\
  (forall i j g h,
     groups !! i = Some g -> groups !! j = Some h ->
     ErrorGroup.Time g = placeholder -> resolvable (ErrorGroup.Time h) ->
     (j < i)%nat) /\
  (forall e, e ∈ filteredErrors ->
     exists i g, groups !! i = Some g /\ e ∈ ErrorGroup.Errors g /\
       ErrorGroup.Component g = Component e /\
       ErrorGroup.Time g
       = (if String.eqb (extractTimeHHMM (Timestamp e) (FilePath e)) EmptyString
          then "??:??"%string else extractTimeHHMM (Timestamp e) (FilePath e))) /\
  (forall e, e ∈ filteredErrors ->
     extractTimeHHMM (Timestamp e) (FilePath e) = EmptyString ->
     exists i g, groups !! i = Some g /\ e ∈ ErrorGroup.Errors g /\
       ErrorGroup.Time g = "??:??"%string /\
       forall j h, groups !! j = Some h -> resolvable (ErrorGroup.Time h) -> (j < i)%nat).
Proof.
  intros groups. subst groups. unfold buildGroups. split_and!.
  - apply buildGroupsWith_adjacent.
  - apply buildGroupsWith_placeholder_last.
  - intros e He.
    destruct (buildGroupsWith_filed timeOfError timeOfError_length filteredErrors e He)
      as (i & g & Hi & Hin & Ht & Hc).
    exists i, g. by split_and!.
  - intros e He Ht.
    by apply (buildGroupsWith_timeless_last timeOfError timeOfError_length).
Qed.

(** On a day with an error without a time between two with one, the
    error without a time is in the last group, the placeholder's. *)
Example timeless_error_sorts_last :
  (fun g => (ErrorGroup.Time g, ID <$> ErrorGroup.Errors g)) <$> buildGroups
    [sampleError 1 "" "teb0" "E" "m"; sampleError 2 "09:15:00" "teb0" "E" "m";
     sampleError 3 "07:50:00" "drp1" "E" "m"]
  = [("07:50", [3]); ("09:15", [2]); ("??:??", [1])]%string.
Proof. vm_compute. reflexivity. Qed.

(** The placeholder is what a group gets when no time resolves, and a
    time copied from a malformed timestamp is not one that resolves: it
    may sort after the placeholder. *)
Example placeholder_and_malformed_time :
  ErrorGroup.Time <$> buildGroups
    [sampleError 1 "zz:zz:zz" "teb0" "E" "m"; sampleError 2 "" "teb0" "E" "m";
     sampleError 3 "07:50:00" "teb0" "E" "m"]
  = ["07:50"; "??:??"; "zz:zz"]%string.
Proof. vm_compute. reflexivity. Qed.

(** ** The later revision of db.go

    Compiled against the three-argument [extractTimeHHMM], which shows
    times in Pacific time, [buildGroups] partitions and sorts in the same
    way: both properties rest on the time of an error being five bytes or
    missing, whatever the zone and the clock. *)

Section PacificGroups.

Variable pacificLoc : GoTime.Location.
Variable now : GoTime.Time.

Lemma Pacific_buildGroups_partitions (filteredErrors : list Error) :
  GoInt.len filteredErrors < 2 ^ 63 ->
  let timeOf := Pacific.timeOfError pacificLoc now in
  let groups := Pacific.buildGroups pacificLoc now filteredErrors in
  totalErrorsInGroups groups = GoInt.len filteredErrors /\
  concat (groupErrors <$> groups) ≡ₚ filteredErrors /\
  NoDup (groupPair <$> groups) /\
  (forall g, g ∈ groups ->
     ErrorGroup.Errors g <> [] /\
     ErrorGroup.Errors g = filter (sharesKey timeOf g) filteredErrors) /\
  (forall e, e ∈ filteredErrors ->
     exists g, g ∈ groups /\ e ∈ ErrorGroup.Errors g /\
       forall g', g' ∈ groups -> e ∈ ErrorGroup.Errors g' -> g' = g).
Proof.
  intros Hlen timeOf groups. subst timeOf groups. unfold Pacific.buildGroups.
  split_and!.
  - by apply buildGroupsWith_total.
  - apply buildGroupsWith_errors.
  - apply buildGroupsWith_NoDup.
  - intros g. apply buildGroupsWith_group, Pacific_timeOfError_length.
  - intros e. apply buildGroupsWith_exactly_one, Pacific_timeOfError_length.
Qed.

Lemma Pacific_buildGroups_sorted (filteredErrors : list Error) :
  let timeOf := Pacific.timeOfError pacificLoc now in
  let groups := Pacific.buildGroups pacificLoc now filteredErrors in
  (forall i g h,
     groups !! i = Some g -> groups !! S i = Some h ->
     String.leb (ErrorGroup.Time g) (ErrorGroup.Time h) = true /\
     (ErrorGroup.Time g = ErrorGroup.Time h ->
      String.leb (ErrorGroup.Component g) (ErrorGroup.Component h) = true)) /\
  (forall i j g h,
     groups !! i = Some g -> groups !! j = Some h ->
     ErrorGroup.Time g = placeholder -> resolvable (ErrorGroup.Time h) ->
     (j < i)%nat) /\
  (forall e, e ∈ filteredErrors ->
     exists i g, groups !! i = Some g /\ e ∈ ErrorGroup.Errors g /\
       ErrorGroup.Component g = Component e /\
       ErrorGroup.Time g
       = (if String.eqb (timeOf e) EmptyString then "??:??"%string else timeOf e)) /\
  (forall e, e ∈ filteredErrors -> timeOf e = EmptyString ->
     exists i g, groups !! i = Some g /\ e ∈ ErrorGroup.Errors g /\
       ErrorGroup.Time g = "??:??"%string /\
       forall j h, groups !! j = Some h -> resolvable (ErrorGroup.Time h) -> (j < i)%nat).
Proof.
  intros timeOf groups. subst timeOf groups. unfold Pacific.buildGroups. split_and!.
  - apply buildGroupsWith_adjacent.
  - apply buildGroupsWith_placeholder_last.
  - intros e He.
    destruct (buildGroupsWith_filed _ (Pacific_timeOfError_length pacificLoc now)
                filteredErrors e He) as (i & g & Hi & Hin & Ht & Hc).
    exists i, g. by split_and!.
  - intros e He Ht.
    by apply (buildGroupsWith_timeless_last _ (Pacific_timeOfError_length pacificLoc now)).
Qed.

End PacificGroups.

(** ** The engine: what [updateContextPane] leaves alone *)

Section EngineFacts.

Context `{CaseFold}.

(** [getFilteredGroupErrors] reads the groups, the group cursor and the
    message filter only. *)
Lemma getFilteredGroupErrors_ext m m' :
  groups m' = groups m -> groupCursor m' = groupCursor m ->
  messageFilter m' = messageFilter m ->
  getFilteredGroupErrors m' = getFilteredGroupErrors m.
Proof. unfold getFilteredGroupErrors. by intros -> -> ->. Qed.

Lemma getFilteredGroupErrors_ok m :
  0 <= groupCursor m -> exists errors, getFilteredGroupErrors m = Some errors.
Proof.
  intros Hc. unfold getFilteredGroupErrors.
  destruct (Z.geb_spec (groupCursor m) (GoInt.len (groups m))) as [Hge|Hlt]; [eauto|].
  destruct (index_lt (groups m) (groupCursor m)) as [g ->]; [lia|]. simpl.
  destruct (String.eqb _ _); eauto.
Qed.

(** [updateContextPane] changes the viewport at most, and does not panic
    when the cursors are not negative. *)
Lemma updateContextPane_viewport m m' :
  updateContextPane m = Some m' -> exists v, m' = set_viewport v m.
Proof.
  unfold updateContextPane. intros Hu.
  assert (m = set_viewport (viewport m) m) as Hm by by destruct m.
  destruct (negb _ || _); [injection Hu as <-; eauto|].
  destruct (getFilteredGroupErrors m) as [errors|]; [simpl in Hu|done].
  destruct (_ || _); [injection Hu as <-; eauto|].
  destruct (GoInt.index errors (errorCursor m)) as [e|]; [simpl in Hu|done].
  injection Hu as <-. eauto.
Qed.

Lemma updateContextPane_ok m :
  0 <= groupCursor m -> 0 <= errorCursor m ->
  exists v, updateContextPane m = Some (set_viewport v m).
Proof.
  intros Hg He. unfold updateContextPane.
  assert (m = set_viewport (viewport m) m) as Hm by by destruct m.
  destruct (negb _ || _); [exists (viewport m); congruence|].
  destruct (getFilteredGroupErrors_ok m Hg) as [errors ->]. simpl.
  destruct (Z.eqb_spec (GoInt.len errors) 0); simpl; [exists (viewport m); congruence|].
  destruct (Z.geb_spec (errorCursor m) (GoInt.len errors)); [exists (viewport m); congruence|].
  destruct (index_lt errors (errorCursor m)) as [e ->]; [lia|]. simpl. eauto.
Qed.

(** ** C8: a jump to an unparseable time *)

(** C8.  For every input string on which the HH:MM parse fails
    ([parseTimeToMinutes] is negative), [jumpToTime] returns without a
    panic and leaves the whole state as it was: group cursor, error
    cursor, group offset and error offset included. *)
Theorem jumpToTime_parse_failure_is_noop (timeStr : string) (m : Model) :
  parseTimeToMinutes timeStr < 0 ->
  jumpToTime timeStr m = Some m.
Proof.
  intros Hp. unfold jumpToTime.
  destruct (GoInt.len (groups m) =? 0); [done|].
  by destruct (Z.ltb_spec (parseTimeToMinutes timeStr) 0); [|lia].
Qed.

(** ** C9: a jump when no group has a time *)

Lemma nearestGroup_unresolvable target gs : forall i bestIdx bestDiff,
  Forall (fun g => parseTimeToMinutes (ErrorGroup.Time g) < 0) gs ->
  nearestGroup target gs i bestIdx bestDiff = bestIdx.
Proof.
  induction gs as [|g gs IH]; intros i bestIdx bestDiff Hall; [done|].
  apply Forall_cons in Hall as [Hg Hall]. simpl.
  destruct (Z.ltb_spec (parseTimeToMinutes (ErrorGroup.Time g)) 0); [|lia].
  by apply IH.
Qed.

(** C9.  On a non-empty group list in which no group's time parses, a
    jump to a valid target does not leave the selection where it was: the
    group cursor becomes 0, the initial best candidate, and the error
    cursor and error offset become 0 (the group offset too).  The page
    size is the field [NewModel] sets to 15 and nothing changes; a zero
    there would make the division panic. *)
Theorem jumpToTime_no_resolvable_group (timeStr : string) (m : Model) :
  groups m <> [] ->
  Forall (fun g => parseTimeToMinutes (ErrorGroup.Time g) < 0) (groups m) ->
  0 <= parseTimeToMinutes timeStr ->
  pageSize m <> 0 ->
  exists m', jumpToTime timeStr m = Some m' /\
    groupCursor m' = 0 /\ errorCursor m' = 0 /\ errorOffset m' = 0 /\
    groupOffset m' = 0.
Proof.
  intros Hne Hall Hp Hps. unfold jumpToTime.
  destruct (Z.eqb_spec (GoInt.len (groups m)) 0) as [Hz|_];
    [by apply len_zero_iff in Hz|].
  destruct (Z.ltb_spec (parseTimeToMinutes timeStr) 0); [lia|].
  rewrite nearestGroup_unresolvable by done. simpl.
  unfold GoInt.div. destruct (Z.eqb_spec (pageSize m) 0); [done|]. simpl.
  match goal with |- context [updateContextPane ?m1] =>
    destruct (updateContextPane_ok m1) as [v ->]; [simpl; lia|simpl; lia|] end.
  eexists. split; [done|]. simpl. by split_and!.
Qed.

End EngineFacts.

Example scenarioDay_groups :
  (ErrorGroup.Time <$> groups scenarioDay, groupCursor scenarioDay, errorCursor scenarioDay)
  = (["07:50"; "09:15"]%string, 0, 0).
Proof. vm_compute. reflexivity. Qed.

Example timelessDay_cursor :
  (ErrorGroup.Time <$> groups timelessDay, groupCursor timelessDay)
  = (["??:??"; "??:??"; "??:??"]%string, 2).
Proof. vm_compute. reflexivity. Qed.

Lemma jumpToTime_parse_failure_is_noop_witness :
  parseTimeToMinutes "8am" < 0 /\
  jumpToTime (H := asciiToLower) "8am" scenarioDay = Some scenarioDay.
Proof.
  split; [reflexivity|].
  apply (jumpToTime_parse_failure_is_noop (H := asciiToLower) "8am" scenarioDay).
  reflexivity.
Defined.

Lemma jumpToTime_no_resolvable_group_witness :
  groupCursor timelessDay = 2 /\
  exists m', jumpToTime (H := asciiToLower) "08:00" timelessDay = Some m' /\
    groupCursor m' = 0 /\ errorCursor m' = 0 /\ errorOffset m' = 0 /\
    groupOffset m' = 0.
Proof.
  split; [reflexivity|].
  apply (jumpToTime_no_resolvable_group (H := asciiToLower) "08:00" timelessDay).
  - discriminate.
  - repeat constructor.
  - vm_compute. discriminate.
  - discriminate.
Defined.

Section GroupPanel.

Context `{CaseFold}.

Lemma panelPageSize_ge5 m : 5 <= panelPageSize m.
Proof.
  unfold panelPageSize. destruct (Z.ltb_spec (GoInt.sub (height m) 10) 5); lia.
Qed.

Lemma div_page c m : GoInt.div c (panelPageSize m)
                     = Some (GoInt.wrap (Z.quot c (panelPageSize m))).
Proof.
  unfold GoInt.div. pose proof (panelPageSize_ge5 m).
  by destruct (Z.eqb_spec (panelPageSize m) 0); [lia|].
Qed.

Lemma panelPageSize_set_groupCursor v m :
  panelPageSize (set_groupCursor v m) = panelPageSize m.
Proof. done. Qed.

(** ** C10: Home, PageUp and PageDown on the groups panel *)

(** C10.  With the groups panel focused, Home, PageUp and PageDown never
    panic, and each of them clears the message filter and puts the error
    cursor and the error offset at zero, whether or not the group cursor
    moves: in particular Home with the group cursor already at 0 leaves
    the same group selected and still clears the filter. *)
Theorem group_panel_jump_clears_message_filter (op : NavOp) (m : Model) :
  focusedPanel m = PanelGroups ->
  op = Home \/ op = PageUp \/ op = PageDown ->
  exists m', navigate op m = Some m' /\
    messageFilter m' = EmptyString /\ errorCursor m' = 0 /\ errorOffset m' = 0 /\
    (op = Home -> groupCursor m' = 0).
Proof.
  intros Hf Hop.
  assert (forall m1, 0 <= groupCursor m1 -> errorCursor m1 = 0 -> errorOffset m1 = 0 ->
            messageFilter m1 = EmptyString ->
            (op = Home -> groupCursor m1 = 0) ->
            exists m', updateContextPane m1 = Some m' /\
              messageFilter m' = EmptyString /\ errorCursor m' = 0 /\ errorOffset m' = 0 /\
              (op = Home -> groupCursor m' = 0)) as Hend.
  { intros m1 Hg He Ho Hm Hh.
    destruct (updateContextPane_ok m1) as [v ->]; [lia|lia|].
    eexists. split; [done|]. by destruct m1. }
  destruct Hop as [->|[->| ->]]; simpl.
  - unfold navigateHome. rewrite Hf, bool_decide_eq_true_2 by done.
    apply Hend; simpl; done.
  - unfold navigatePageUp. rewrite Hf, bool_decide_eq_true_2 by done. simpl.
    rewrite div_page. simpl. apply Hend; simpl; try done.
    destruct (Z.ltb_spec (GoInt.sub (groupCursor m) (panelPageSize m)) 0); simpl; lia.
  - unfold navigatePageDown. rewrite Hf, bool_decide_eq_true_2 by done. simpl.
    rewrite div_page. simpl. apply Hend; simpl; try done.
    match goal with |- 0 <= groupCursor (if groupCursor ?a <? 0 then _ else _) =>
      destruct (Z.ltb_spec (groupCursor a) 0); simpl; lia end.
Qed.

End GroupPanel.

Example scenarioWithMessageFilter_state :
  (focusedPanel scenarioWithMessageFilter, messageFilter scenarioWithMessageFilter,
   groupCursor scenarioWithMessageFilter)
  = (PanelGroups, "timeout"%string, 0).
Proof. vm_compute. reflexivity. Qed.

Lemma group_panel_jump_clears_message_filter_witness :
  focusedPanel scenarioWithMessageFilter = PanelGroups /\
  groupCursor scenarioWithMessageFilter = 0 /\
  messageFilter scenarioWithMessageFilter = "timeout"%string /\
  exists m', navigate (H := asciiToLower) Home scenarioWithMessageFilter = Some m' /\
    messageFilter m' = EmptyString /\ errorCursor m' = 0 /\ errorOffset m' = 0 /\
    (Home = Home -> groupCursor m' = 0).
Proof.
  split; [reflexivity|]. split; [reflexivity|]. split; [reflexivity|].
  apply (group_panel_jump_clears_message_filter (H := asciiToLower) Home
           scenarioWithMessageFilter); [reflexivity|by left].
Defined.

(** ** C1: [applyFilters] *)

Section ApplyFilters.

Context `{CaseFold}.

(** The level and component predicates of the loop. *)
Lemma passesFilters_spec m e :
  passesFilters m e = true <->
  (levelFilter m = EmptyString \/ LogLevel e = levelFilter m) /\
  (componentFilter m = EmptyString \/
   Contains (ToLower (Component e)) (ToLower (componentFilter m)) = true).
Proof.
  unfold passesFilters.
  destruct (String.eqb_spec (levelFilter m) EmptyString) as [El|El],
    (String.eqb_spec (LogLevel e) (levelFilter m)) as [Ee|Ee],
    (String.eqb_spec (componentFilter m) EmptyString) as [Ec|Ec],
    (Contains (ToLower (Component e)) (ToLower (componentFilter m))); simpl;
    intuition congruence.
Qed.

Lemma applyFilters_loop l : forall m,
  fold_left (fun m e =>
               if passesFilters m e
               then set_filteredErrors (filteredErrors m ++ [e]) m
               else m) l m
  = set_filteredErrors (filteredErrors m ++ List.filter (passesFilters m) l) m.
Proof.
  induction l as [|e l IH]; intros m; simpl.
  - rewrite app_nil_r. by destruct m.
  - destruct (passesFilters m e) eqn:Ep.
    + rewrite IH. simpl. rewrite <- app_assoc. simpl. done.
    + apply IH.
Qed.

(** What [applyFilters] does: the filtered set is the full set filtered
    by level and component, the groups are rebuilt from it, the two
    cursors and the two offsets are zero, and the message filter is left
    as it was. *)
Lemma applyFilters_spec m :
  exists v,
    applyFilters m
    = Some (set_viewport v
             (set_errorOffset 0 (set_groupOffset 0 (set_errorCursor 0 (set_groupCursor 0
               (set_groups (buildGroups (List.filter (passesFilters m) (allErrors m)))
                  (set_filteredErrors (List.filter (passesFilters m) (allErrors m)) m))))))).
Proof.
  unfold applyFilters. rewrite applyFilters_loop. simpl.
  match goal with |- context [updateContextPane ?m1] =>
    destruct (updateContextPane_ok m1) as [v ->]; [simpl; lia|simpl; lia|] end.
  by exists v.
Qed.

Lemma applyFilters_fields m m' :
  applyFilters m = Some m' ->
  filteredErrors m' = List.filter (passesFilters m) (allErrors m) /\
  groups m' = buildGroups (filteredErrors m') /\
  groupCursor m' = 0 /\ errorCursor m' = 0 /\ groupOffset m' = 0 /\ errorOffset m' = 0 /\
  messageFilter m' = messageFilter m /\
  levelFilter m' = levelFilter m /\ componentFilter m' = componentFilter m /\
  allErrors m' = allErrors m.
Proof.
  destruct (applyFilters_spec m) as [v ->]. intros [= <-]. by simpl.
Qed.

End ApplyFilters.

(** C1, on the code.  With the message filter "timeout" set, toggling the
    critical-only filter runs [applyFilters]: the filtered set becomes the
    one critical error, the groups are rebuilt from it and the cursors and
    offsets are zero, but the message filter is still "timeout". *)
Theorem applyFilters_keeps_message_filter :
  exists m',
    toggleCriticalOnly (H := asciiToLower) scenarioWithMessageFilter = Some m' /\
    ID <$> filteredErrors m' = [2] /\
    groups m' = buildGroups (filteredErrors m') /\
    (groupCursor m', errorCursor m', groupOffset m', errorOffset m') = (0, 0, 0, 0) /\
    messageFilter m' = "timeout"%string.
Proof. eexists. split; [vm_compute; reflexivity|]. vm_compute. by split_and!. Qed.

(** ** C2: [clearFilters] *)

Section Find.

Context `{CaseFold}.

Lemma findInErrors_Some errorID errors : forall ei0 ei,
  findInErrors errorID errors ei0 = Some ei ->
  ei0 <= ei < ei0 + GoInt.len errors /\
  exists e, GoInt.index errors (ei - ei0) = Some e /\ ID e = errorID.
Proof.
  unfold GoInt.len.
  induction errors as [|e errors IH]; intros ei0 ei Hf; [done|]. simpl in Hf.
  destruct (Z.eqb_spec (ID e) errorID) as [Heq|Hne].
  - injection Hf as <-. rewrite Z.sub_diag. simpl length. split; [lia|]. eauto.
  - apply IH in Hf as (Hr & e' & Hi & Hid). simpl length. split; [lia|].
    exists e'. split; [|done].
    replace (ei - ei0) with (ei - (ei0 + 1) + 1) by lia.
    rewrite index_cons_succ by lia. done.
Qed.

Lemma findInErrors_None errorID errors : forall ei0,
  findInErrors errorID errors ei0 = None -> forall e, e ∈ errors -> ID e <> errorID.
Proof.
  induction errors as [|e errors IH]; intros ei0 Hf e' He'; [by apply elem_of_nil in He'|].
  simpl in Hf. destruct (Z.eqb_spec (ID e) errorID) as [Heq|Hne]; [done|].
  apply elem_of_cons in He' as [->|He']; [done|]. by eapply IH.
Qed.

Lemma findInGroups_Some errorID gs : forall gi0 gi ei,
  findInGroups errorID gs gi0 = Some (gi, ei) ->
  gi0 <= gi < gi0 + GoInt.len gs /\
  exists g e, GoInt.index gs (gi - gi0) = Some g /\
    0 <= ei < GoInt.len (ErrorGroup.Errors g) /\
    GoInt.index (ErrorGroup.Errors g) ei = Some e /\ ID e = errorID.
Proof.
  unfold GoInt.len.
  induction gs as [|g gs IH]; intros gi0 gi ei Hf; [done|]. simpl in Hf.
  destruct (findInErrors errorID (ErrorGroup.Errors g) 0) as [ei'|] eqn:Hfe.
  - injection Hf as <- <-. apply findInErrors_Some in Hfe as (Hr & e & Hi & Hid).
    rewrite Z.sub_diag. simpl length. split; [lia|].
    exists g, e. rewrite Z.sub_0_r in Hi. unfold GoInt.len in Hr.
    split_and!; [done|lia|lia|done|done].
  - apply IH in Hf as (Hr & g' & e & Hi & Hei & Hie & Hid). simpl length. split; [lia|].
    exists g', e. split; [|split_and!; auto; lia].
    replace (gi - gi0) with (gi - (gi0 + 1) + 1) by lia.
    rewrite index_cons_succ by lia. done.
Qed.

Lemma findInGroups_None errorID gs : forall gi0,
  findInGroups errorID gs gi0 = None ->
  forall g e, g ∈ gs -> e ∈ ErrorGroup.Errors g -> ID e <> errorID.
Proof.
  induction gs as [|g gs IH]; intros gi0 Hf g' e Hg' He; [by apply elem_of_nil in Hg'|].
  simpl in Hf.
  destruct (findInErrors errorID (ErrorGroup.Errors g) 0) as [ei'|] eqn:Hfe; [done|].
  apply elem_of_cons in Hg' as [->|Hg']; [by eapply findInErrors_None|].
  by eapply IH.
Qed.

(** [selectedError] by cases on the error cursor. *)
Lemma selectedError_cases m errors :
  getFilteredGroupErrors m = Some errors -> 0 <= errorCursor m ->
  selectedError m
  = if errorCursor m <? GoInt.len errors
    then Some <$> GoInt.index errors (errorCursor m)
    else Some None.
Proof.
  intros Herr Hc. unfold selectedError. rewrite Herr. simpl.
  destruct (Z.ltb_spec (errorCursor m) (GoInt.len errors)) as [Hlt|Hge].
  - destruct (Z.eqb_spec (GoInt.len errors) 0); [lia|].
    destruct (Z.geb_spec (errorCursor m) (GoInt.len errors)); [lia|]. simpl.
    by destruct (GoInt.index errors (errorCursor m)).
  - destruct (Z.geb_spec (errorCursor m) (GoInt.len errors)); [|lia].
    by rewrite orb_true_r.
Qed.

(** The errors the middle panel shows are errors of a group. *)
Lemma getFilteredGroupErrors_elem_of m errors e :
  getFilteredGroupErrors m = Some errors -> e ∈ errors ->
  exists g, g ∈ groups m /\ e ∈ ErrorGroup.Errors g.
Proof.
  unfold getFilteredGroupErrors.
  destruct (groupCursor m >=? GoInt.len (groups m)).
  - intros [= <-] He. by apply elem_of_nil in He.
  - destruct (GoInt.index (groups m) (groupCursor m)) as [g|] eqn:Hg; [simpl|done].
    apply index_elem_of in Hg.
    destruct (String.eqb (messageFilter m) EmptyString); intros [= <-] He.
    + eauto.
    + exists g. split; [done|].
      apply list_elem_of_In, filter_In in He as [He _]. by apply list_elem_of_In.
Qed.

End Find.

Lemma buildGroups_elem_of g e fe :
  g ∈ buildGroups fe -> e ∈ ErrorGroup.Errors g -> e ∈ fe.
Proof.
  intros Hg He.
  destruct (buildGroupsWith_group timeOfError timeOfError_length fe g Hg) as [_ HE].
  rewrite HE in He. by apply list_elem_of_filter in He as [_ He].
Qed.

Lemma buildGroups_covers e fe :
  e ∈ fe -> exists g, g ∈ buildGroups fe /\ e ∈ ErrorGroup.Errors g.
Proof.
  intros He.
  destruct (buildGroupsWith_exactly_one timeOfError timeOfError_length fe e He)
    as (g & Hg & Hin & _). eauto.
Qed.

Lemma length_nonempty_groups gs :
  Forall (fun g => ErrorGroup.Errors g <> []) gs ->
  (length gs <= length (concat (groupErrors <$> gs)))%nat.
Proof.
  induction 1 as [|g gs Hg _ IH]; [done|].
  rewrite fmap_cons. cbn [concat length]. rewrite length_app. unfold groupErrors at 1.
  destruct (ErrorGroup.Errors g); [done|]. simpl. lia.
Qed.

(** There are no more groups than errors, and no group is larger than the
    set. *)
Lemma buildGroups_length fe : (length (buildGroups fe) <= length fe)%nat.
Proof.
  rewrite <- (Permutation_length (buildGroupsWith_errors timeOfError fe)).
  apply length_nonempty_groups. rewrite Forall_forall. intros g Hg.
  by destruct (buildGroupsWith_group timeOfError timeOfError_length fe g Hg).
Qed.

Lemma buildGroups_group_length fe g :
  g ∈ buildGroups fe -> (length (ErrorGroup.Errors g) <= length fe)%nat.
Proof.
  intros Hg.
  destruct (buildGroupsWith_group timeOfError timeOfError_length fe g Hg) as [_ ->].
  apply length_filter.
Qed.

(** The offset of the page a cursor is on. *)
Lemma page_align c ps :
  0 <= c < 2 ^ 63 -> 5 <= ps ->
  0 <= GoInt.mul (GoInt.wrap (Z.quot c ps)) ps <= c /\
  c < GoInt.mul (GoInt.wrap (Z.quot c ps)) ps + ps.
Proof.
  intros Hc Hps. rewrite Z.quot_div_nonneg by lia.
  pose proof (Z.div_mod c ps ltac:(lia)) as Hdm.
  pose proof (Z.mod_pos_bound c ps ltac:(lia)) as Hm.
  assert (0 <= c / ps) as Hq by (apply Z.div_pos; lia).
  assert (0 <= c / ps * ps <= c) as Hle by nia.
  unfold GoInt.mul.
  rewrite (wrap_id (c / ps)) by (unfold GoInt.inRange; nia).
  rewrite wrap_id by (unfold GoInt.inRange; lia). nia.
Qed.

(** The offset is the cursor rounded down to a multiple of the page. *)
Lemma page_offset c ps :
  0 <= c < 2 ^ 63 -> 5 <= ps ->
  GoInt.mul (GoInt.wrap (Z.quot c ps)) ps = c / ps * ps.
Proof.
  intros Hc Hps. rewrite Z.quot_div_nonneg by lia.
  pose proof (Z.div_mod c ps ltac:(lia)) as Hdm.
  pose proof (Z.mod_pos_bound c ps ltac:(lia)) as Hm.
  assert (0 <= c / ps) as Hq by (apply Z.div_pos; lia).
  assert (0 <= c / ps * ps <= c) as Hle by nia.
  unfold GoInt.mul.
  rewrite (wrap_id (c / ps)) by (unfold GoInt.inRange; nia).
  by rewrite wrap_id by (unfold GoInt.inRange; lia).
Qed.

Section ClearFilters.

Context `{CaseFold}.

(** One call of [clearFilters]. *)
Lemma clearFilters_selects (m : Model) :
  groups m = buildGroups (filteredErrors m) ->
  (forall e, e ∈ filteredErrors m -> e ∈ allErrors m) ->
  GoInt.len (allErrors m) < 2 ^ 63 ->
  0 <= groupCursor m -> 0 <= errorCursor m ->
  exists m', clearFilters m = Some m' /\
    (levelFilter m' = EmptyString /\ componentFilter m' = EmptyString /\
     messageFilter m' = EmptyString /\ filterInput m' = EmptyString) /\
    filteredErrors m' = allErrors m /\
    groups m' = buildGroups (allErrors m) /\
    match selectedError m with
    | Some (Some e) =>
        if ID e >? 0 then
          (exists e', selectedError m' = Some (Some e') /\ ID e' = ID e) /\
          findInGroups (ID e) (groups m') 0 = Some (groupCursor m', errorCursor m') /\
          groupOffset m' = groupCursor m' / panelPageSize m' * panelPageSize m' /\
          errorOffset m' = errorCursor m' / panelPageSize m' * panelPageSize m' /\
          visible (groupCursor m') (groupOffset m') (panelPageSize m') /\
          visible (errorCursor m') (errorOffset m') (panelPageSize m')
        else sameCursors m m'
    | _ => sameCursors m m'
    end.
Proof.
  intros Hgroups Hsub Hlen Hgc Hec. unfold clearFilters.
  destruct (getFilteredGroupErrors_ok m Hgc) as [errors Herr].
  rewrite Herr, (selectedError_cases m errors Herr Hec). simpl.
  remember (set_groups _ _) as m1 eqn:Hm1.
  assert (exists v, updateContextPane m1 = Some (set_viewport v m1)) as [v1 Hu1].
  { apply updateContextPane_ok; subst m1; simpl; lia. }
  destruct (Z.ltb_spec (errorCursor m) (GoInt.len errors)) as [Hlt|Hge]; simpl;
    [|rewrite Hu1; eexists; split; [done|]; subst m1; simpl; by split_and!].
  destruct (index_lt errors (errorCursor m)) as [e He]; [lia|].
  rewrite He. simpl.
  destruct (Z.gtb_spec (ID e) 0) as [Hid|Hid]; simpl;
    [|rewrite Hu1; eexists; split; [done|]; subst m1; simpl; by split_and!].
  (* the selected error is an error of the full set *)
  assert (e ∈ allErrors m) as Hall.
  { destruct (getFilteredGroupErrors_elem_of m errors e Herr (index_elem_of _ _ _ He))
      as (g & Hg & Hin).
    rewrite Hgroups in Hg. eauto using buildGroups_elem_of. }
  unfold findAndSelectError. subst m1. simpl.
  destruct (findInGroups (ID e) (buildGroups (allErrors m)) 0) as [[gi ei]|] eqn:Hfind.
  2:{ exfalso. destruct (buildGroups_covers e (allErrors m) Hall) as (g & Hg & Hin).
      by eapply findInGroups_None. }
  pose proof Hfind as Hpos.
  apply findInGroups_Some in Hpos as (Hgi & g & e' & Hig & Hei & Hie & Hide).
  rewrite Z.sub_0_r in Hig. simpl.
  rewrite !div_page. simpl.
  match goal with |- context [updateContextPane ?m2] =>
    destruct (updateContextPane_ok m2) as [v2 ->]; [simpl; lia|simpl; lia|] end.
  eexists. split; [done|]. simpl. split_and!; try done.
  - exists e'. split; [|done].
    unfold selectedError, getFilteredGroupErrors. simpl.
    destruct (Z.geb_spec gi (GoInt.len (buildGroups (allErrors m)))); [lia|].
    rewrite Hig. simpl.
    destruct (Z.eqb_spec (GoInt.len (ErrorGroup.Errors g)) 0); [lia|].
    destruct (Z.geb_spec ei (GoInt.len (ErrorGroup.Errors g))); [lia|]. simpl.
    by rewrite Hie.
  - unfold panelPageSize. simpl. fold (panelPageSize m).
    apply page_offset; [|apply panelPageSize_ge5].
    pose proof (buildGroups_length (allErrors m)). unfold GoInt.len in *. lia.
  - unfold panelPageSize. simpl. fold (panelPageSize m).
    apply page_offset; [|apply panelPageSize_ge5].
    assert (g ∈ buildGroups (allErrors m)) as Hg by by eapply index_elem_of.
    pose proof (buildGroups_group_length _ _ Hg). unfold GoInt.len in *. lia.
  - unfold visible, panelPageSize. simpl. fold (panelPageSize m).
    destruct (page_align gi (panelPageSize m)); [|apply panelPageSize_ge5|lia].
    pose proof (buildGroups_length (allErrors m)). unfold GoInt.len in *. lia.
  - unfold visible, panelPageSize. simpl. fold (panelPageSize m).
    destruct (page_align ei (panelPageSize m)); [|apply panelPageSize_ge5|lia].
    assert (g ∈ buildGroups (allErrors m)) as Hg by by eapply index_elem_of.
    pose proof (buildGroups_group_length _ _ Hg). unfold GoInt.len in *. lia.
Qed.

(** After [applyFilters] the first error the first group shows is
    selected. *)
Lemma applyFilters_selects_first m m1 :
  applyFilters m = Some m1 -> messageFilter m = EmptyString ->
  selectedError m1 = Some (g ← head (groups m1); head (ErrorGroup.Errors g)).
Proof.
  intros Ha Hmf.
  destruct (applyFilters_fields m m1 Ha)
    as (_ & _ & Hgc & Hec & _ & _ & Hmf1 & _).
  unfold selectedError, getFilteredGroupErrors. rewrite Hgc, Hec, Hmf1, Hmf.
  destruct (groups m1) as [|g gs]; [done|].
  destruct (Z.geb_spec 0 (GoInt.len (g :: gs))) as [Hge|_];
    [unfold GoInt.len in Hge; simpl in Hge; lia|].
  simpl. destruct (ErrorGroup.Errors g) as [|e es]; [done|].
  destruct (Z.geb_spec 0 (GoInt.len (e :: es))) as [Hge|_];
    [unfold GoInt.len in Hge; simpl in Hge; lia|].
  done.
Qed.

(** C2, as the code has it.  In a state of the error explorer (the
    groups are those of the filtered set, which is part of the full set,
    and the cursors are not negative), [clearFilters] does not panic; it
    empties the level, component and message filters, makes the full set
    the filtered set and rebuilds the groups from it.  When an error was
    selected and its id is positive, the cursors go to the first position
    of an error with that id, which exists, so the selected id is the
    same as before, and each offset is the cursor rounded down to a
    multiple of the visible rows, which shows the cursor.  When no error
    was selected, or its id is not positive, the cursors and offsets stay
    as they were: there is no fallback to zero.

    The round trip: [applyFilters] puts both cursors at zero, whatever
    was selected, so that with no message filter the first error of the
    first group of the filtered set is selected; [clearFilters] after it
    stays on the id of the error that is selected then. *)
Theorem clearFilters_reselects_current_error (m : Model) :
  groups m = buildGroups (filteredErrors m) ->
  (forall e, e ∈ filteredErrors m -> e ∈ allErrors m) ->
  GoInt.len (allErrors m) < 2 ^ 63 ->
  0 <= groupCursor m -> 0 <= errorCursor m ->
  (exists m', clearFilters m = Some m' /\
     (levelFilter m' = EmptyString /\ componentFilter m' = EmptyString /\
      messageFilter m' = EmptyString /\ filterInput m' = EmptyString) /\
     filteredErrors m' = allErrors m /\
     groups m' = buildGroups (allErrors m) /\
     match selectedError m with
     | Some (Some e) =>
         if ID e >? 0 then
           (exists e', selectedError m' = Some (Some e') /\ ID e' = ID e) /\
           findInGroups (ID e) (groups m') 0 = Some (groupCursor m', errorCursor m') /\
           groupOffset m' = groupCursor m' / panelPageSize m' * panelPageSize m' /\
           errorOffset m' = errorCursor m' / panelPageSize m' * panelPageSize m' /\
           visible (groupCursor m') (groupOffset m') (panelPageSize m') /\
           visible (errorCursor m') (errorOffset m') (panelPageSize m')
         else sameCursors m m'
     | _ => sameCursors m m'
     end) /\
  (exists m1 m2, applyFilters m = Some m1 /\ clearFilters m1 = Some m2 /\
     filteredErrors m1 = List.filter (passesFilters m) (allErrors m) /\
     groups m1 = buildGroups (filteredErrors m1) /\
     groupCursor m1 = 0 /\ errorCursor m1 = 0 /\
     (messageFilter m = EmptyString ->
      selectedError m1 = Some (g ← head (groups m1); head (ErrorGroup.Errors g))) /\
     (forall e, selectedError m1 = Some (Some e) -> 0 < ID e ->
        exists e', selectedError m2 = Some (Some e') /\ ID e' = ID e)).
Proof.
  intros Hgroups Hsub Hlen Hgc Hec. split.
  - by apply clearFilters_selects.
  - destruct (applyFilters_spec m) as [v Ha].
    destruct (applyFilters_fields m _ Ha)
      as (Hf1 & Hg1 & Hgc1 & Hec1 & _ & _ & _ & _ & _ & Hall1).
    remember (set_viewport v _) as m1 eqn:Hm1. clear Hm1.
    destruct (clearFilters_selects m1) as (m2 & Hc & _ & _ & _ & Hsel).
    + done.
    + intros e. rewrite Hf1, Hall1. intros He.
      apply list_elem_of_In, filter_In in He as [He _]. by apply list_elem_of_In.
    + by rewrite Hall1.
    + lia.
    + lia.
    + exists m1, m2. split_and!; try done.
      * by apply applyFilters_selects_first.
      * intros e He Hid. rewrite He in Hsel.
        destruct (Z.gtb_spec (ID e) 0); [|lia]. by destruct Hsel as [Hsel _].
Qed.

End ClearFilters.

(** C2 does not hold as stated: the round trip ends on another error.
    The error with id 2 is selected, the component filter keeps it, but
    [applyFilters] moves the selection to the first error of the filtered
    set (id 1), and that is the one [clearFilters] then stays on. *)
Lemma clearFilters_round_trip_changes_selection :
  (selectedID (H := asciiToLower) <$> roundTripSelected) = Some (Some (Some 2)) /\
  ((fun m => ID <$> filteredErrors m) <$> roundTripFiltered) = Some [1; 2] /\
  (selectedID (H := asciiToLower) <$> roundTripCleared) = Some (Some (Some 1)).
Proof. vm_compute. by split_and!. Qed.

Example clearFilters_without_selection :
  (selectedID (H := asciiToLower) <$> nothingSelected) = Some (Some None) /\
  (groupCursor <$> nothingSelected) = Some 1 /\
  (groupCursor <$> (m ← nothingSelected; clearFilters (H := asciiToLower) m)) = Some 1.
Proof. vm_compute. by split_and!. Qed.

Lemma clearFilters_reselects_current_error_witness :
  groups selectedUnderFilter = buildGroups (filteredErrors selectedUnderFilter) /\
  (forall e, e ∈ filteredErrors selectedUnderFilter -> e ∈ allErrors selectedUnderFilter) /\
  GoInt.len (allErrors selectedUnderFilter) < 2 ^ 63 /\
  0 <= groupCursor selectedUnderFilter /\ 0 <= errorCursor selectedUnderFilter /\
  selectedID (H := asciiToLower) selectedUnderFilter = Some (Some 2) /\
  exists m', clearFilters (H := asciiToLower) selectedUnderFilter = Some m' /\
    selectedID (H := asciiToLower) m' = Some (Some 2).
Proof.
  assert (forall e, e ∈ filteredErrors selectedUnderFilter ->
                    e ∈ allErrors selectedUnderFilter) as Hsub.
  { intros e He. vm_compute in He.
    apply elem_of_cons in He as [->|He]; [|apply elem_of_cons in He as [->|He]].
    - right. left.
    - right. right. left.
    - by apply elem_of_nil in He. }
  assert (groups selectedUnderFilter = buildGroups (filteredErrors selectedUnderFilter))
    as Hgroups by (vm_compute; reflexivity).
  assert (GoInt.len (allErrors selectedUnderFilter) < 2 ^ 63) as Hlen
    by (vm_compute; reflexivity).
  assert (0 <= groupCursor selectedUnderFilter) as Hgc by (vm_compute; discriminate).
  assert (0 <= errorCursor selectedUnderFilter) as Hec by (vm_compute; discriminate).
  split_and!;
    [exact Hgroups|exact Hsub|exact Hlen|exact Hgc|exact Hec|vm_compute; reflexivity|].
  destruct (clearFilters_reselects_current_error (H := asciiToLower) selectedUnderFilter
              Hgroups Hsub Hlen Hgc Hec)
    as [(m' & Hm' & _ & _ & _ & Hsel) _].
  exists m'. split; [exact Hm'|].
  assert (selectedError (H := asciiToLower) selectedUnderFilter
          = Some (Some (sampleError 2 "07:50:40" "teb0" "C" "timeout"))) as Hcur
    by (vm_compute; reflexivity).
  rewrite Hcur in Hsel. simpl in Hsel. destruct Hsel as ((e' & He' & Hid) & _).
  unfold selectedID. rewrite He'. simpl. by rewrite Hid.
Defined.

(** ** C7: the cursor invariant of the two list panels *)

Ltac unwrap :=
  repeat match goal with
    | |- context [GoInt.wrap ?z] =>
        rewrite (wrap_id z) by (unfold GoInt.inRange; lia)
    | Hw : context [GoInt.wrap ?z] |- _ =>
        rewrite (wrap_id z) in Hw by (unfold GoInt.inRange; lia)
    end.

Ltac no_branch t :=
  lazymatch t with
  | context [if _ then _ else _] => fail
  | _ => idtac
  end.

(** Case analysis on the comparisons of the goal, innermost first. *)
Ltac branches :=
  repeat (match goal with
          | |- context [if ?a <? ?b then _ else _] =>
              no_branch a; no_branch b; destruct (Z.ltb_spec a b)
          | |- context [if ?a >=? ?b then _ else _] =>
              no_branch a; no_branch b; destruct (Z.geb_spec a b)
          | |- context [if ?a >? ?b then _ else _] =>
              no_branch a; no_branch b; destruct (Z.gtb_spec a b)
          end; simpl).

Section Navigation.

Context `{CaseFold}.

Lemma panelPageSize_bound m :
  - 2 ^ 62 <= height m <= 2 ^ 62 -> 5 <= panelPageSize m <= 2 ^ 62 - 10.
Proof.
  intros Hh. unfold panelPageSize, GoInt.sub.
  rewrite wrap_id by (unfold GoInt.inRange; lia).
  destruct (Z.ltb_spec (height m - 10) 5); lia.
Qed.

Lemma filtered_length (errors : list Error) (f : Error -> bool) :
  GoInt.len (List.filter f errors) <= GoInt.len errors.
Proof.
  unfold GoInt.len. induction errors as [|e errors IH]; simpl; [lia|].
  destruct (f e); simpl; lia.
Qed.

(** The list of the errors panel is no longer than a group. *)
Lemma getFilteredGroupErrors_bound m errors :
  sizeBound m -> getFilteredGroupErrors m = Some errors ->
  0 <= GoInt.len errors <= 2 ^ 62.
Proof.
  intros (_ & _ & Hall). unfold getFilteredGroupErrors.
  pose proof (len_nonneg errors).
  destruct (groupCursor m >=? GoInt.len (groups m)); [intros [= <-]; unfold GoInt.len; simpl; lia|].
  destruct (GoInt.index (groups m) (groupCursor m)) as [g|] eqn:Hg; [simpl|done].
  apply index_elem_of in Hg. rewrite Forall_forall in Hall. specialize (Hall g Hg).
  destruct (String.eqb (messageFilter m) EmptyString); intros [= <-]; [lia|].
  pose proof (filtered_length (ErrorGroup.Errors g)
                (fun e => Contains (ToLower (Message e)) (ToLower (messageFilter m)))).
  lia.
Qed.

(** The invariant with the visible rows counted in for both panels, for
    none, or for one. *)
Lemma cursorInv_when m : cursorInv m <-> cursorInvWhen true true m.
Proof. done. Qed.

Lemma cursorRange_when m : cursorRange m <-> cursorInvWhen false false m.
Proof. done. Qed.

Lemma cursorInvWhen_groups ve m : cursorInvWhen true ve m -> groupsVisible m.
Proof. intros [(_ & _ & Hv) _]. exact Hv. Qed.

Lemma cursorInvWhen_errors vg m : cursorInvWhen vg true m -> errorsVisible m.
Proof.
  intros [_ (errors & He & _ & _ & Hv)] errors' He'.
  rewrite He in He'. injection He' as <-. exact Hv.
Qed.

Lemma cursorRange_groups ve m :
  cursorInvWhen false ve m -> groupsVisible m -> cursorInvWhen true ve m.
Proof. intros [(Hc & Ho & _) He] Hv. by split. Qed.

Lemma cursorRange_errors vg m :
  cursorInvWhen vg false m -> errorsVisible m -> cursorInvWhen vg true m.
Proof.
  intros [Hg (errors & He & Hc & Ho & _)] Hv. split; [done|].
  exists errors. split; [done|]. split; [done|]. split; [done|]. by apply Hv.
Qed.

(** An operation that keeps the invariant with the visible rows counted
    in or not keeps each part of it. *)
Lemma keeps_all (r : option Model) m :
  (forall vg ve, cursorInvWhen vg ve m ->
     exists m', r = Some m' /\ sizeBound m' /\ cursorInvWhen vg ve m') ->
  cursorRange m ->
  exists m', r = Some m' /\ sizeBound m' /\ cursorRange m' /\
    (groupsVisible m -> groupsVisible m') /\
    (errorsVisible m -> errorsVisible m') /\
    (cursorInv m -> cursorInv m').
Proof.
  intros Hkeep Hr. change (cursorInvWhen false false m) in Hr.
  destruct (Hkeep false false Hr) as (m' & Hm' & Hb' & Hr').
  exists m'. split_and!; [done..| | |].
  - intros Hv.
    destruct (Hkeep true false (cursorRange_groups _ _ Hr Hv)) as (m2 & Hm2 & _ & Hr2).
    rewrite Hm' in Hm2. injection Hm2 as <-. by eapply cursorInvWhen_groups.
  - intros Hv.
    destruct (Hkeep false true (cursorRange_errors _ _ Hr Hv)) as (m2 & Hm2 & _ & Hr2).
    rewrite Hm' in Hm2. injection Hm2 as <-. by eapply cursorInvWhen_errors.
  - intros Hinv.
    destruct (Hkeep true true Hinv) as (m2 & Hm2 & _ & Hr2).
    rewrite Hm' in Hm2. by injection Hm2 as <-.
Qed.

(** [updateContextPane] at the end of a move keeps what the move
    established. *)
Lemma finish_move_when vg ve m m1 :
  sizeBound m -> groups m1 = groups m -> height m1 = height m -> cursorInvWhen vg ve m1 ->
  exists m', updateContextPane m1 = Some m' /\ sizeBound m' /\ cursorInvWhen vg ve m'.
Proof.
  intros Hb Hg Hh Hinv.
  destruct (updateContextPane_ok m1) as [v ->].
  { destruct Hinv as [(? & _) _]. lia. }
  { destruct Hinv as [_ (? & _ & (? & _))]. lia. }
  eexists. split; [done|]. split.
  - unfold sizeBound in *. simpl. by rewrite Hg, Hh.
  - destruct Hinv as [Hgi (errors & He & Hei)]. split; [done|].
    exists errors. split; [|done]. by rewrite <- He.
Qed.

(** A move of the group cursor puts the errors panel at its top. *)
Lemma group_move_when vg ve m m1 :
  sizeBound m -> groups m1 = groups m -> height m1 = height m ->
  errorCursor m1 = 0 -> errorOffset m1 = 0 ->
  panelInvWhen vg (groupCursor m1) (groupOffset m1) (GoInt.len (groups m))
    (panelPageSize m) ->
  exists m', updateContextPane m1 = Some m' /\ sizeBound m' /\ cursorInvWhen vg ve m'.
Proof.
  intros Hb Hg Hh Hec Heo Hgi. apply (finish_move_when vg ve m); try done.
  assert (panelPageSize m1 = panelPageSize m) as Hps by (unfold panelPageSize; by rewrite Hh).
  split; [by rewrite Hg, Hps|].
  destruct (getFilteredGroupErrors_ok m1) as [errors He]; [destruct Hgi; lia|].
  exists errors. split; [done|]. rewrite Hec, Heo, Hps.
  pose proof (panelPageSize_bound m (proj1 Hb)). pose proof (len_nonneg errors).
  unfold panelInvWhen. destruct ve; lia.
Qed.

(** A move of the error cursor leaves the groups panel and the list of
    the errors panel as they are. *)
Lemma error_move_when vg ve m m1 errors :
  sizeBound m -> cursorInvWhen vg ve m -> getFilteredGroupErrors m = Some errors ->
  groups m1 = groups m -> height m1 = height m ->
  groupCursor m1 = groupCursor m -> groupOffset m1 = groupOffset m ->
  messageFilter m1 = messageFilter m ->
  panelInvWhen ve (errorCursor m1) (errorOffset m1) (GoInt.len errors) (panelPageSize m) ->
  exists m', updateContextPane m1 = Some m' /\ sizeBound m' /\ cursorInvWhen vg ve m'.
Proof.
  intros Hb [Hgi _] He Hg Hh Hgc Hgo Hmf Hei. apply (finish_move_when vg ve m); try done.
  assert (panelPageSize m1 = panelPageSize m) as Hps by (unfold panelPageSize; by rewrite Hh).
  split; [by rewrite Hg, Hgc, Hgo, Hps|].
  exists errors. split; [|by rewrite Hps].
  rewrite <- He. by apply getFilteredGroupErrors_ext.
Qed.

Lemma finish_move m m1 :
  sizeBound m -> groups m1 = groups m -> height m1 = height m -> cursorInv m1 ->
  exists m', updateContextPane m1 = Some m' /\ sizeBound m' /\ cursorInv m'.
Proof. apply (finish_move_when true true). Qed.

Lemma group_move m m1 :
  sizeBound m -> groups m1 = groups m -> height m1 = height m ->
  errorCursor m1 = 0 -> errorOffset m1 = 0 ->
  panelInv (groupCursor m1) (groupOffset m1) (GoInt.len (groups m)) (panelPageSize m) ->
  exists m', updateContextPane m1 = Some m' /\ sizeBound m' /\ cursorInv m'.
Proof. apply (group_move_when true true). Qed.

Lemma error_move m m1 errors :
  sizeBound m -> cursorInv m -> getFilteredGroupErrors m = Some errors ->
  groups m1 = groups m -> height m1 = height m ->
  groupCursor m1 = groupCursor m -> groupOffset m1 = groupOffset m ->
  messageFilter m1 = messageFilter m ->
  panelInv (errorCursor m1) (errorOffset m1) (GoInt.len errors) (panelPageSize m) ->
  exists m', updateContextPane m1 = Some m' /\ sizeBound m' /\ cursorInv m'.
Proof. apply (error_move_when true true). Qed.

#[local] Arguments panelPageSize : simpl never.
#[local] Arguments GoInt.wrap : simpl never.
#[local] Arguments GoInt.mul : simpl never.
#[local] Arguments updateContextPane : simpl never.
#[local] Arguments Z.max : simpl never.
#[local] Arguments Z.mul : simpl never.
#[local] Arguments Z.add : simpl never.
#[local] Arguments Z.sub : simpl never.
#[local] Arguments Z.quot : simpl never.

(** One navigation operation keeps the cursors in range and the offsets
    non-negative, and keeps the cursor of a panel among the visible rows
    if it was there. *)
Lemma navigate_keeps vg ve op m :
  sizeBound m -> cursorInvWhen vg ve m ->
  exists m', navigate op m = Some m' /\ sizeBound m' /\ cursorInvWhen vg ve m'.
Proof.
  intros Hb Hinv.
  pose proof (panelPageSize_bound m (proj1 Hb)) as Hps.
  pose proof Hinv as [Hgi (errors & He & Hei)].
  pose proof (getFilteredGroupErrors_bound m errors Hb He) as Hel.
  pose proof Hb as (Hh & Hgl & _).
  pose proof (len_nonneg (groups m)) as Hgl0.
  unfold panelInvWhen in Hgi, Hei.
  assert (forall c, 0 <= c < 2 ^ 63 ->
            0 <= GoInt.mul (GoInt.wrap (Z.quot c (panelPageSize m))) (panelPageSize m) <= c /\
            c < GoInt.mul (GoInt.wrap (Z.quot c (panelPageSize m))) (panelPageSize m)
                + panelPageSize m) as Hpage.
  { intros c Hc. apply page_align; lia. }
  destruct Hgi as (Hgc & Hgo & Hgv), Hei as (Hec & Heo & Hev).
  destruct vg, ve; cbn iota in Hgv, Hev;
    (destruct op; simpl;
     [unfold navigateUp|unfold navigateDown|unfold navigatePageUp
     |unfold navigatePageDown|unfold navigateHome|unfold navigateEnd];
     destruct (bool_decide (focusedPanel m = PanelGroups));
     rewrite ?He; simpl; rewrite ?div_page; simpl;
     unfold GoInt.add, GoInt.sub; unwrap; branches; simpl; unwrap;
     try (exists m; by split_and!)).
  all: try (apply (group_move_when _ _ m); simpl; try done; unfold panelInvWhen;
            cbn iota;
            try match goal with |- context [GoInt.mul (GoInt.wrap (Z.quot ?c _)) _] =>
                  pose proof (Hpage c ltac:(lia)) end; lia).
  all: try (apply (error_move_when _ _ m _ errors); simpl; try done; unfold panelInvWhen;
            cbn iota;
            try match goal with |- context [GoInt.mul (GoInt.wrap (Z.quot ?c _)) _] =>
                  pose proof (Hpage c ltac:(lia)) end; lia).
Qed.

Lemma navigate_preserves op m :
  sizeBound m -> cursorInv m ->
  exists m', navigate op m = Some m' /\ sizeBound m' /\ cursorInv m'.
Proof. apply (navigate_keeps true true). Qed.

Lemma navigateAll_keeps vg ve ops : forall m,
  sizeBound m -> cursorInvWhen vg ve m ->
  exists m', navigateAll ops m = Some m' /\ cursorInvWhen vg ve m'.
Proof.
  induction ops as [|op ops IH]; intros m Hb Hinv; simpl.
  - eauto.
  - destruct (navigate_keeps vg ve op m Hb Hinv) as (m1 & -> & Hb1 & Hinv1). simpl.
    by apply IH.
Qed.

(** C7, as the code has it.  From a state in which each cursor is an
    index of its list (0 when the list is empty) and each offset is not
    negative (and whose sizes are within the bound), every finite
    sequence of Up, Down, PageUp, PageDown, Home and End runs without a
    panic and ends in such a state.  If the cursor of the groups panel
    was among the visible rows from the offset on, it is so at the end,
    and likewise that of the errors panel; so the whole invariant holds
    at the end if it held at the start. *)
Theorem navigation_preserves_cursor_invariant (ops : list NavOp) (m : Model) :
  sizeBound m -> cursorRange m ->
  exists m', navigateAll ops m = Some m' /\ cursorRange m' /\
    (groupsVisible m -> groupsVisible m') /\
    (errorsVisible m -> errorsVisible m') /\
    (cursorInv m -> cursorInv m').
Proof.
  intros Hb Hr. change (cursorInvWhen false false m) in Hr.
  destruct (navigateAll_keeps false false ops m Hb Hr) as (m' & Hm' & Hr').
  exists m'. split_and!; [done|by apply cursorRange_when|..].
  - intros Hv.
    destruct (navigateAll_keeps true false ops m Hb (cursorRange_groups _ _ Hr Hv))
      as (m2 & Hm2 & Hr2).
    rewrite Hm' in Hm2. injection Hm2 as <-. by eapply cursorInvWhen_groups.
  - intros Hv.
    destruct (navigateAll_keeps false true ops m Hb (cursorRange_errors _ _ Hr Hv))
      as (m2 & Hm2 & Hr2).
    rewrite Hm' in Hm2. injection Hm2 as <-. by eapply cursorInvWhen_errors.
  - intros Hinv.
    destruct (navigateAll_keeps true true ops m Hb Hinv) as (m2 & Hm2 & Hr2).
    rewrite Hm' in Hm2. by injection Hm2 as <-.
Qed.

End Navigation.

(** C7 does not hold from every starting state.  [jumpToTime] pages the
    group offset by the fixed page size 15, not by the visible rows, so
    after the jump the cursor is on row 7 with the offset at 0 and five
    rows visible; Up moves the cursor to row 6 and leaves the offset, and
    the cursor is still outside the visible rows. *)
Lemma navigation_keeps_cursor_off_screen :
  (groupCursor afterJump, groupOffset afterJump, panelPageSize afterJump) = (7, 0, 5) /\
  exists m', navigateAll (H := asciiToLower) [Up] afterJump = Some m' /\
    (GoInt.len (groups m'), groupCursor m', groupOffset m', panelPageSize m') = (8, 6, 0, 5) /\
    ~ cursorInv (H := asciiToLower) m'.
Proof.
  split; [reflexivity|].
  eexists. split; [vm_compute; reflexivity|]. split; [reflexivity|].
  intros [(_ & _ & Hvis) _]. vm_compute in Hvis.
  destruct (Hvis eq_refl) as [_ Hlt]. discriminate Hlt.
Qed.

(** The bound on the offset of a list that is not empty is needed: with
    the largest [int] for the group offset, the sum that Down compares the
    cursor with overflows, and the offset Down then sets is negative. *)
Example navigation_offset_overflow :
  (fun m' => (groupCursor m', groupOffset m'))
    <$> navigateAll (H := asciiToLower) [Down]
          (set_groupCursor 0 (set_groupOffset (2 ^ 63 - 1) afterJump))
  = Some (1, -3).
Proof. vm_compute. reflexivity. Qed.

Lemma navigation_preserves_cursor_invariant_witness :
  sizeBound afterJump /\ cursorRange (H := asciiToLower) afterJump /\
  exists m',
    navigateAll (H := asciiToLower) [Up; PageDown; End_; Down; Home; PageUp] afterJump
    = Some m' /\ cursorRange (H := asciiToLower) m'.
Proof.
  assert (sizeBound afterJump) as Hb.
  { unfold sizeBound. split_and!; [vm_compute; discriminate|vm_compute; discriminate
                                   |vm_compute; discriminate|].
    repeat constructor; vm_compute; discriminate. }
  assert (cursorRange (H := asciiToLower) afterJump) as Hr.
  { split.
    - unfold panelRange. split; [split|split; [|intros _]];
        vm_compute; first [reflexivity|discriminate].
    - eexists. split; [vm_compute; reflexivity|].
      unfold panelRange. split; [split|split; [|intros _]];
        vm_compute; first [reflexivity|discriminate]. }
  split; [exact Hb|]. split; [exact Hr|].
  destruct (navigation_preserves_cursor_invariant (H := asciiToLower)
              [Up; PageDown; End_; Down; Home; PageUp] afterJump Hb Hr)
    as (m' & Hm' & Hr' & _).
  exists m'. by split.
Defined.

(** ** C6: the jump to the nearest group *)

Section Jump.

Context `{CaseFold}.

(** The loop from index [i] on: either no group with a time is nearer
    than [bestDiff] and the best index stays, or the result is the first
    of the nearest groups with a time, and that one is nearer than
    [bestDiff]. *)
Lemma nearestGroup_spec target gs : forall i bestIdx bestDiff,
  (nearestGroup target gs i bestIdx bestDiff = bestIdx /\
   forall j g, gs !! j = Some g -> 0 <= groupMinutes g -> bestDiff <= minutesFrom target g)
  \/
  (exists k g, gs !! k = Some g /\
     nearestGroup target gs i bestIdx bestDiff = i + Z.of_nat k /\
     0 <= groupMinutes g /\ minutesFrom target g < bestDiff /\
     (forall j g', gs !! j = Some g' -> 0 <= groupMinutes g' ->
                   minutesFrom target g <= minutesFrom target g') /\
     (forall j g', gs !! j = Some g' -> 0 <= groupMinutes g' -> (j < k)%nat ->
                   minutesFrom target g < minutesFrom target g')).
Proof.
  induction gs as [|g0 gs IH]; intros i bestIdx bestDiff; [left; by split|].
  simpl. fold (groupMinutes g0). fold (minutesFrom target g0).
  destruct (Z.ltb_spec (groupMinutes g0) 0) as [Hneg|Hpos].
  - destruct (IH (i + 1) bestIdx bestDiff)
      as [[-> Hall]|(k & g & Hk & -> & Hg & Hlt & Hmin & Hfirst)].
    + left. split; [done|]. intros [|j] g' Hj Hg'; simpl in Hj; [|by eapply Hall].
      injection Hj as <-. lia.
    + right. exists (S k), g. split_and!; try done; [lia|..].
      * intros [|j] g' Hj Hg'; simpl in Hj; [injection Hj as <-; lia|by eapply Hmin].
      * intros [|j] g' Hj Hg' Hjk; simpl in Hj; [injection Hj as <-; lia|].
        eapply Hfirst; eauto. lia.
  - destruct (Z.ltb_spec (minutesFrom target g0) bestDiff) as [Hnear|Hfar].
    + destruct (IH (i + 1) i (minutesFrom target g0))
        as [[-> Hall]|(k & g & Hk & -> & Hg & Hlt & Hmin & Hfirst)].
      * right. exists 0%nat, g0. split_and!; try done; [lia|..].
        -- intros [|j] g' Hj Hg'; simpl in Hj; [by injection Hj as <-|by eapply Hall].
        -- intros j g' _ _ Hj. lia.
      * right. exists (S k), g. split_and!; try done; [lia|lia|..].
        -- intros [|j] g' Hj Hg'; simpl in Hj; [injection Hj as <-; lia|by eapply Hmin].
        -- intros [|j] g' Hj Hg' Hjk; simpl in Hj; [injection Hj as <-; lia|].
           eapply Hfirst; eauto. lia.
    + destruct (IH (i + 1) bestIdx bestDiff)
        as [[-> Hall]|(k & g & Hk & -> & Hg & Hlt & Hmin & Hfirst)].
      * left. split; [done|]. intros [|j] g' Hj Hg'; simpl in Hj; [|by eapply Hall].
        by injection Hj as <-.
      * right. exists (S k), g. split_and!; try done; [lia|..].
        -- intros [|j] g' Hj Hg'; simpl in Hj; [injection Hj as <-; lia|by eapply Hmin].
        -- intros [|j] g' Hj Hg' Hjk; simpl in Hj; [injection Hj as <-; lia|].
           eapply Hfirst; eauto. lia.
Qed.

(** What [jumpToTime] does on a target that parses.  The candidates are
    the groups with a time less than 24*60 minutes from the target.
    With no candidate the group cursor goes to 0; otherwise it goes to
    the first of the nearest candidates.  The error cursor and error
    offset become 0 in either case. *)
Lemma jumpToTime_spec (timeStr : string) (m : Model) :
  groups m <> [] -> 0 <= parseTimeToMinutes timeStr -> pageSize m <> 0 ->
  let target := parseTimeToMinutes timeStr in
  exists m', jumpToTime timeStr m = Some m' /\
    errorCursor m' = 0 /\ errorOffset m' = 0 /\ groups m' = groups m /\
    ((groupCursor m' = 0 /\
      forall j g, groups m !! j = Some g -> 0 <= groupMinutes g ->
                  24 * 60 <= minutesFrom target g)
     \/
     (exists k g, groups m !! k = Some g /\ groupCursor m' = Z.of_nat k /\
        0 <= groupMinutes g /\ minutesFrom target g < 24 * 60 /\
        (forall j g', groups m !! j = Some g' -> 0 <= groupMinutes g' ->
                      minutesFrom target g <= minutesFrom target g') /\
        (forall j g', groups m !! j = Some g' -> 0 <= groupMinutes g' -> (j < k)%nat ->
                      minutesFrom target g < minutesFrom target g'))).
Proof.
  intros Hne Hp Hps target. unfold jumpToTime. fold target.
  destruct (Z.eqb_spec (GoInt.len (groups m)) 0) as [Hz|_];
    [by apply len_zero_iff in Hz|].
  destruct (Z.ltb_spec target 0); [lia|].
  change (GoInt.mul 24 60) with (24 * 60).
  remember (nearestGroup target (groups m) 0 0 (24 * 60)) as r eqn:Hr.
  assert (0 <= r) as Hr0.
  { destruct (nearestGroup_spec target (groups m) 0 0 (24 * 60))
      as [[Heq _]|(k & g & _ & Heq & _)]; lia. }
  simpl. unfold GoInt.div. destruct (Z.eqb_spec (pageSize m) 0); [done|]. simpl.
  match goal with |- context [updateContextPane ?m1] =>
    destruct (updateContextPane_ok m1) as [v ->]; [simpl; lia|simpl; lia|] end.
  eexists. split; [done|]. simpl. split_and!; try done.
  destruct (nearestGroup_spec target (groups m) 0 0 (24 * 60))
    as [[Heq Hall]|(k & g & Hk & Heq & Hg & Hlt & Hmin & Hfirst)].
  - left. split; [congruence|done].
  - right. exists k, g. split_and!; try done. lia.
Qed.

(** Within the day the cap does not bite: when the target and the times
    of the groups are minutes of a day, every group with a time is a
    candidate, and the jump goes to the first of the nearest groups that
    have a time. *)
Lemma jumpToTime_within_day (timeStr : string) (m : Model) :
  groups m <> [] -> pageSize m <> 0 ->
  0 <= parseTimeToMinutes timeStr < 24 * 60 ->
  Forall (fun g => groupMinutes g < 24 * 60) (groups m) ->
  (exists g, g ∈ groups m /\ 0 <= groupMinutes g) ->
  let target := parseTimeToMinutes timeStr in
  exists m' k g, jumpToTime timeStr m = Some m' /\
    errorCursor m' = 0 /\ errorOffset m' = 0 /\
    groups m !! k = Some g /\ groupCursor m' = Z.of_nat k /\ 0 <= groupMinutes g /\
    (forall j g', groups m !! j = Some g' -> 0 <= groupMinutes g' ->
                  minutesFrom target g <= minutesFrom target g') /\
    (forall j g', groups m !! j = Some g' -> 0 <= groupMinutes g' -> (j < k)%nat ->
                  minutesFrom target g < minutesFrom target g').
Proof.
  intros Hne Hps Ht Hday (g0 & Hg0 & Hm0) target.
  destruct (jumpToTime_spec timeStr m Hne (proj1 Ht) Hps)
    as (m' & Hj & Hec & Heo & _ & [[_ Hnone]|(k & g & Hk & Hc & Hg & _ & Hmin & Hfirst)]).
  - exfalso. apply list_elem_of_lookup in Hg0 as [j Hj0].
    specialize (Hnone j g0 Hj0 Hm0).
    rewrite Forall_forall in Hday. pose proof (Hday g0 (list_elem_of_lookup_2 _ _ _ Hj0)).
    unfold minutesFrom, abs, GoInt.sub, GoInt.neg in Hnone.
    rewrite wrap_id in Hnone by (unfold GoInt.inRange; lia).
    destruct (Z.ltb_spec (groupMinutes g0 - parseTimeToMinutes timeStr) 0).
    + rewrite wrap_id in Hnone by (unfold GoInt.inRange; lia). lia.
    + lia.
  - exists m', k, g. by split_and!.
Qed.

End Jump.

Example jumpToTime_0800 :
  ErrorGroup.Time <$> groups twoGroups = ["07:50"; "08:05"]%string /\
  (groupCursor <$> jumpToTime (H := asciiToLower) "08:00" twoGroups) = Some 1.
Proof. split; vm_compute; reflexivity. Qed.

(** C6, on the code.  "99:00" parses (to 5940 minutes), and of the groups
    at 07:50 and 08:05 the second is the nearer one (5455 against 5470
    minutes); but neither difference is below the initial best difference
    24*60, so no group is taken and the jump goes to index 0. *)
Theorem jumpToTime_far_target_goes_to_first_group :
  parseTimeToMinutes "99:00" = 5940 /\
  minutesFrom 5940 <$> groups twoGroups = [5470; 5455] /\
  exists m1 m2,
    jumpToTime (H := asciiToLower) "08:00" twoGroups = Some m1 /\ groupCursor m1 = 1 /\
    jumpToTime (H := asciiToLower) "99:00" m1 = Some m2 /\ groupCursor m2 = 0.
Proof.
  split; [reflexivity|]. split; [vm_compute; reflexivity|].
  eexists. eexists. split; [vm_compute; reflexivity|]. split; [reflexivity|].
  split; [vm_compute; reflexivity|reflexivity].
Qed.

(** ** C5: the calendar day of a record *)

Section PacificDay.

Variable pacificLoc : GoTime.Location.

(** The date is taken from the instant as shown in the Pacific zone. *)
Lemma utcTimestampToPacificDate_parsed timestamp t :
  timestamp <> EmptyString -> firstParse utcLayouts timestamp = Some t ->
  utcTimestampToPacificDate pacificLoc timestamp
  = GoTime.Format "2006-01-02" (GoTime.In pacificLoc t).
Proof.
  intros Hne Hp. unfold utcTimestampToPacificDate.
  destruct (String.eqb_spec timestamp EmptyString); [done|].
  fold utcLayouts. rewrite Hp. by destruct t.
Qed.

(** Eight hours behind UTC, an instant in the first eight hours of a UTC
    day is on the calendar day before, and a later one on the same
    day. *)
Lemma pacific_day_of_instant t :
  pacificLoc (GoTime.unixSec t) = -8 * 60 * 60 ->
  GoTime.civil (GoTime.In pacificLoc t)
  = GoTime.civilFromDays
      (if GoTime.unixSec t mod 86400 <? 8 * 60 * 60
       then GoTime.unixSec t / 86400 - 1
       else GoTime.unixSec t / 86400).
Proof.
  intros Hoff. unfold GoTime.civil, GoTime.localSec, GoTime.In. simpl. rewrite Hoff.
  f_equal.
  pose proof (Z.div_mod (GoTime.unixSec t) 86400 ltac:(lia)) as Hdm.
  pose proof (Z.mod_pos_bound (GoTime.unixSec t) 86400 ltac:(lia)) as Hm.
  destruct (Z.ltb_spec (GoTime.unixSec t mod 86400) (8 * 60 * 60)).
  - symmetry. apply (Z.div_unique _ _ _ (GoTime.unixSec t mod 86400 + 57600)); lia.
  - symmetry. apply (Z.div_unique _ _ _ (GoTime.unixSec t mod 86400 - 28800)); lia.
Qed.

(** C5.  The bucket date of a record is the calendar date of its stored
    UTC instant as shown in the Pacific zone: where that zone is eight
    hours behind UTC, an instant before 08:00 UTC falls on the day
    before its UTC date.  When the zone is eight hours behind at
    2025-01-01 07:58:00 UTC, that timestamp gives the date 2024-12-31,
    and [GetDatesWithErrors] counts a file with that start time, and its
    errors, under 2024-12-31. *)
Theorem bucket_date_is_pacific_date :
  pacificLoc 1735718280 = -8 * 60 * 60 ->
  (forall timestamp t,
     timestamp <> EmptyString -> firstParse utcLayouts timestamp = Some t ->
     utcTimestampToPacificDate pacificLoc timestamp
     = GoTime.Format "2006-01-02" (GoTime.In pacificLoc t)) /\
  (forall t,
     pacificLoc (GoTime.unixSec t) = -8 * 60 * 60 ->
     GoTime.unixSec t mod 86400 < 8 * 60 * 60 ->
     GoTime.civil (GoTime.In pacificLoc t)
     = GoTime.civilFromDays (GoTime.unixSec t / 86400 - 1)) /\
  utcTimestampToPacificDate pacificLoc "2025-01-01 07:58:00" = "2024-12-31"%string /\
  (forall id n,
     GetDatesWithErrors pacificLoc [mkFileRow id "2025-01-01 07:58:00" n]
     = [mkDateSummary "2024-12-31" 1 n]).
Proof.
  intros Hoff.
  assert (utcTimestampToPacificDate pacificLoc "2025-01-01 07:58:00"
          = "2024-12-31"%string) as Hdate.
  { rewrite (utcTimestampToPacificDate_parsed _ (GoTime.mkTime 1735718280 0));
      [|done|by vm_compute].
    unfold GoTime.In. simpl GoTime.unixSec. rewrite Hoff. by vm_compute. }
  split_and!.
  - apply utcTimestampToPacificDate_parsed.
  - intros t Ht Hm. rewrite pacific_day_of_instant by done.
    by destruct (Z.ltb_spec (GoTime.unixSec t mod 86400) (8 * 60 * 60)); [|lia].
  - exact Hdate.
  - intros id n. unfold GetDatesWithErrors. simpl fold_left. unfold dateStep.
    simpl timestampUTC. rewrite Hdate. simpl.
    rewrite lookup_empty, insert_empty, map_to_list_singleton. simpl.
    by rewrite map_size_singleton.
Qed.

End PacificDay.

Lemma bucket_date_is_pacific_date_witness :
  fixedPST 1735718280 = -8 * 60 * 60 /\
  utcTimestampToPacificDate fixedPST "2025-01-01 07:58:00" = "2024-12-31"%string.
Proof.
  split; [reflexivity|].
  apply (bucket_date_is_pacific_date fixedPST). reflexivity.
Defined.

(** * More of the code

    ** model.go, filter.go: text for the display *)

Lemma append_cons c (s t : string) : String c s +:+ t = String c (s +:+ t).
Proof. reflexivity. Qed.

Lemma append_nil (t : string) : EmptyString +:+ t = t.
Proof. reflexivity. Qed.

Lemma append_assoc (s1 s2 s3 : string) : (s1 +:+ s2) +:+ s3 = s1 +:+ (s2 +:+ s3).
Proof.
  induction s1 as [|c s1 IH]; [done|]. by rewrite !append_cons, IH.
Qed.

Lemma append_empty_r (s : string) : s +:+ EmptyString = s.
Proof. induction s as [|c s IH]; [done|]. by rewrite append_cons, IH. Qed.

Lemma substring_all s : String.substring 0 (String.length s) s = s.
Proof. induction s as [|c s IH]; simpl; [done|by rewrite IH]. Qed.

Lemma substring_split s : forall n : nat,
  (n <= String.length s)%nat ->
  String.substring 0 n s +:+ String.substring n (String.length s - n) s = s.
Proof.
  induction s as [|c s IH]; intros [|n] Hn; simpl in *; try done; try lia.
  - by rewrite substring_all.
  - rewrite append_cons. f_equal. apply IH. lia.
Qed.

Lemma slice_split (n : nat) s :
  (n <= String.length s)%nat ->
  slice 0 n s +:+ slice n (String.length s) s = s.
Proof.
  intros Hn. unfold slice. rewrite Nat.sub_0_r. by apply substring_split.
Qed.

Lemma TrimLeft_spec s :
  exists k, s = spaces k +:+ TrimLeft s " " /\ startsWithSpace (TrimLeft s " ") = false.
Proof.
  induction s as [|c s (k & Hk & Hs)]; [by exists 0%nat|]. simpl.
  destruct (Ascii.eqb_spec c " ") as [->|Hc].
  - exists (S k). split; [|done].
    change (spaces (S k)) with (String " " (spaces k)). rewrite append_cons. by f_equal.
  - exists 0%nat. split; [done|]. simpl. by apply Ascii.eqb_neq.
Qed.

Lemma breakPoint_range text i width :
  (Z.of_nat i < width) ->
  let bp := breakPoint text i width in
  bp = width \/ 1 <= bp <= Z.of_nat i.
Proof.
  intros Hi. induction i as [|i IH]; simpl; [by left|].
  destruct (byteAt (S i) text " "); [right; lia|].
  destruct IH as [->| ?]; [lia|by left|right; lia].
Qed.

Lemma strLen_append s1 s2 : strLen (s1 +:+ s2) = strLen s1 + strLen s2.
Proof. unfold strLen. rewrite append_length. lia. Qed.

Lemma spaces_length k : String.length (spaces k) = k.
Proof. induction k; simpl; [done|by f_equal]. Qed.

Lemma wrapLoop_spec width : 0 < width < 2 ^ 63 -> forall fuel text result,
  (String.length text <= fuel)%nat ->
  exists pieces last,
    wrapLoop fuel text width result = Some (result +:+ wrapped pieces last) /\
    text = unwrapped pieces last /\
    Forall (fun p => 1 <= strLen p.1 <= width) pieces /\
    strLen last <= width /\
    Forall (fun l => startsWithSpace l = false) (tail (wrapLines pieces last)).
Proof.
  intros Hw. induction fuel as [|fuel IH]; intros text result Hfuel.
  - exists [], text. simpl.
    destruct (Z.gtb_spec (strLen text) width) as [Hgt|Hle].
    { unfold strLen in Hgt. lia. }
    split_and!; done.
  - simpl. destruct (Z.gtb_spec (strLen text) width) as [Hgt|Hle].
    2:{ exists [], text. split_and!; done. }
    unfold GoInt.sub. rewrite wrap_id by (unfold GoInt.inRange; unfold strLen in Hgt; lia).
    set (bp := breakPoint text (Z.to_nat (width - 1)) width).
    assert (1 <= bp <= width) as Hbp.
    { pose proof (breakPoint_range text (Z.to_nat (width - 1)) width ltac:(lia)) as Hr.
      simpl in Hr. fold bp in Hr. lia. }
    assert (Z.to_nat bp <= String.length text)%nat as Hbl by (unfold strLen in Hgt; lia).
    pose proof (slice_split (Z.to_nat bp) text Hbl) as Hsplit.
    set (rest := slice (Z.to_nat bp) (String.length text) text) in *.
    assert (String.length (slice 0 (Z.to_nat bp) text) = Z.to_nat bp) as Hhead.
    { rewrite slice_length; lia. }
    destruct (TrimLeft_spec rest) as (k & Hk & Hns).
    assert (String.length (TrimLeft rest " ") <= fuel)%nat as Hfuel'.
    { assert (String.length text
              = (Z.to_nat bp + (k + String.length (TrimLeft rest " ")))%nat) as Hl.
      { rewrite <- Hsplit at 1. rewrite append_length, Hhead. f_equal.
        rewrite Hk at 1. by rewrite append_length, spaces_length. }
      lia. }
    destruct (IH (TrimLeft rest " ")
                ((result +:+ slice 0 (Z.to_nat bp) text) +:+ continuation) Hfuel')
      as (pieces & last & Hrun & Htext & Hpieces & Hlast & Hstart).
    exists ((slice 0 (Z.to_nat bp) text, k) :: pieces), last. split_and!.
    + rewrite Hrun. f_equal. simpl wrapped. by rewrite !append_assoc.
    + simpl unwrapped. rewrite <- Htext, <- Hk. by rewrite Hsplit.
    + constructor; [|done]. simpl. unfold strLen. rewrite Hhead. lia.
    + done.
    + simpl. destruct pieces as [|[s n] pieces]; simpl in *.
      * constructor; [|constructor]. by rewrite Htext in Hns.
      * constructor; [|done].
        rewrite Htext in Hns. simpl in Hns. destruct s as [|c s]; [|done].
        apply Forall_cons in Hpieces as [Hs _]. simpl in Hs. unfold strLen in Hs.
        simpl in Hs. lia.
Qed.

(** X1.  [wrapText] cuts the text into lines of at most [width] bytes
    and loses nothing but spaces at the cuts: for a width that is a
    positive [int], what it returns is the pieces of the text, each of 1
    to [width] bytes, joined by a newline and the indent, then a last line
    of at most [width] bytes; the text is the pieces with the spaces that
    followed each put back; and no line after the first starts with a
    space.  The loop always ends. *)
Theorem wrapText_cuts_at_spaces (text : string) (width : Z) :
  0 < width < 2 ^ 63 ->
  exists pieces last,
    wrapText text width = Some (wrapped pieces last) /\
    text = unwrapped pieces last /\
    Forall (fun p => 1 <= strLen p.1 <= width) pieces /\
    strLen last <= width /\
    Forall (fun l => startsWithSpace l = false) (tail (wrapLines pieces last)).
Proof.
  intros Hw. unfold wrapText.
  destruct (Z.leb_spec width 0); [lia|]. simpl.
  destruct (Z.leb_spec (strLen text) width).
  - exists [], text. split_and!; done.
  - destruct (wrapLoop_spec width Hw (String.length text) text EmptyString ltac:(lia))
      as (pieces & last & Hrun & Hrest).
    exists pieces, last. by split.
Qed.

Lemma wrapText_cuts_at_spaces_witness :
  0 < 10 < 2 ^ 63 /\
  wrapText "the quick brown fox jumps" 10
  = Some ("the quick" +:+ continuation +:+ "brown fox" +:+ continuation +:+ "jumps")%string.
Proof.
  split; [lia|].
  destruct (wrapText_cuts_at_spaces "the quick brown fox jumps" 10 ltac:(lia))
    as (pieces & last & Hrun & _).
  vm_compute. reflexivity.
Defined.



Lemma filter_length_all {A} (f : A -> bool) (l : list A) :
  length (List.filter f l) = length l <-> Forall (fun x => f x = true) l.
Proof.
  induction l as [|x l IH]; simpl; [by split|].
  pose proof (List.filter_length_le f l) as Hle.
  destruct (f x) eqn:Ex; simpl.
  - rewrite Forall_cons. split; [intros [= Hl]; split; [done|by apply IH]|].
    intros [_ Hall]. f_equal. by apply IH.
  - split; [lia|]. intros Hall. apply Forall_cons in Hall as [? _]. congruence.
Qed.

Section FilterCount.

Context `{CaseFold}.

(** X3.  After [applyFilters] the filter count is empty exactly when
    every error passes the level and component filters; otherwise it is
    "(shown/total)" with fewer errors shown than there are. *)
Theorem filterCount_after_applyFilters (m : Model) :
  exists m', applyFilters m = Some m' /\
    let shown := GoInt.len (List.filter (passesFilters m) (allErrors m)) in
    let total := GoInt.len (allErrors m) in
    (filterCount m' = EmptyString <->
     Forall (fun e => passesFilters m e = true) (allErrors m)) /\
    (filterCount m' <> EmptyString ->
     shown < total /\
     filterCount m' = "(" +:+ fmtInt shown +:+ "/" +:+ fmtInt total +:+ ")").
Proof.
  destruct (applyFilters_spec m) as [v Happ]. eexists. split; [exact Happ|].
  unfold filterCount. simpl.
  pose proof (List.filter_length_le (passesFilters m) (allErrors m)) as Hle.
  pose proof (filter_length_all (passesFilters m) (allErrors m)) as Hall.
  unfold GoInt.len.
  destruct (Z.eqb_spec (Z.of_nat (length (allErrors m))) 0) as [Hz|Hnz].
  { split; [|done]. split; [|done]. intros _.
    destruct (allErrors m); [constructor|simpl in Hz; lia]. }
  destruct (Z.eqb_spec (Z.of_nat (length (List.filter (passesFilters m) (allErrors m))))
              (Z.of_nat (length (allErrors m)))) as [He|Hne].
  { split; [|done]. split; [|done]. intros _. apply Hall. lia. }
  split.
  - split; [done|]. intros Hf. apply Hall in Hf. lia.
  - intros _. split; [lia|done].
Qed.

End FilterCount.

(** ** db.go: the error nearest to a time *)

Lemma nearestError_nearestGroup timeOf target errors : forall i bestIdx bestDiff,
  nearestError timeOf target errors i bestIdx bestDiff
  = nearestGroup target ((fun e => ErrorGroup.mk (timeOf e) (Component e) [e]) <$> errors)
      i bestIdx bestDiff.
Proof.
  induction errors as [|e errors IH]; intros i bestIdx bestDiff; [done|].
  simpl. rewrite !IH. done.
Qed.

Lemma nearestError_nearestIndex timeOf errors targetTime :
  errors <> [] -> 0 <= parseTimeToMinutes targetTime ->
  nearestIndex timeOf errors targetTime
    (nearestError timeOf (parseTimeToMinutes targetTime) errors 0 0 MaxInt32).
Proof.
  intros Hne Ht.
  set (target := parseTimeToMinutes targetTime) in *.
  set (gs := (fun e => ErrorGroup.mk (timeOf e) (Component e) [e]) <$> errors).
  assert (forall j g, gs !! j = Some g ->
            exists e, errors !! j = Some e /\ groupMinutes g = errorMinutes timeOf e /\
                      minutesFrom target g = errorDistance timeOf target e) as Hgs.
  { intros j g Hj. unfold gs in Hj. rewrite list_lookup_fmap in Hj.
    destruct (errors !! j) as [e|]; [|done]. injection Hj as <-. by exists e. }
  assert (forall j e, errors !! j = Some e ->
            exists g, gs !! j = Some g /\ groupMinutes g = errorMinutes timeOf e /\
                      minutesFrom target g = errorDistance timeOf target e) as Hes.
  { intros j e Hj. eexists. unfold gs. rewrite list_lookup_fmap, Hj. by split. }
  assert (0 < GoInt.len errors) as Hlen.
  { destruct errors; [done|]. unfold GoInt.len. simpl. lia. }
  rewrite nearestError_nearestGroup. fold gs. unfold nearestIndex. fold target.
  destruct (nearestGroup_spec target gs 0 0 MaxInt32)
    as [[-> Hall]|(k & g & Hk & -> & Hg & Hlt & Hmin & Hfirst)].
  - split; [lia|]. split; [done|]. intros _. left. split; [done|].
    intros j e Hj He. destruct (Hes j e Hj) as (g & Hgj & Hm & Hd).
    rewrite <- Hd. apply (Hall j g Hgj). by rewrite Hm.
  - destruct (Hgs k g Hk) as (e & Hek & Hm & Hd).
    assert (Z.of_nat k < GoInt.len errors).
    { apply lookup_lt_Some in Hek. unfold GoInt.len. lia. }
    split; [lia|]. split; [lia|]. intros _. right. exists k, e.
    split_and!; try done; try lia.
    + intros j e' Hj He'. destruct (Hes j e' Hj) as (g' & Hgj & Hm' & Hd').
      rewrite <- Hd, <- Hd'. apply (Hmin j g' Hgj). by rewrite Hm'.
    + intros j e' Hj He' Hjk. destruct (Hes j e' Hj) as (g' & Hgj & Hm' & Hd').
      rewrite <- Hd, <- Hd'. apply (Hfirst j g' Hgj); [by rewrite Hm'|done].
Qed.

Lemma nearestIndex_default timeOf errors targetTime :
  errors = [] \/ parseTimeToMinutes targetTime < 0 ->
  nearestIndex timeOf errors targetTime 0.
Proof.
  intros Hcase. unfold nearestIndex. pose proof (len_nonneg errors).
  split; [lia|]. split; [done|]. intros Ht. left. split; [done|].
  destruct Hcase as [->|?]; [|lia]. intros j e Hj. by rewrite lookup_nil in Hj.
Qed.

(** X4.  [FindNearestErrorIndex], in both revisions of db.go, returns an
    index of the slice (0 for an empty slice), 0 when the target time
    does not parse, and otherwise the first of the errors nearest to the
    target among those with a time less than [MaxInt32] minutes away, or
    0 when there is none. *)
Theorem FindNearestErrorIndex_nearest (errors : list Error) (targetTime : string) :
  nearestIndex timeOfError errors targetTime (FindNearestErrorIndex errors targetTime) /\
  forall pacificLoc now,
    nearestIndex (Pacific.timeOfError pacificLoc now) errors targetTime
      (Pacific.FindNearestErrorIndex pacificLoc now errors targetTime).
Proof.
  split; [|intros pacificLoc now];
    unfold FindNearestErrorIndex, Pacific.FindNearestErrorIndex.
  all: destruct (Z.eqb_spec (GoInt.len errors) 0) as [Hz|Hnz];
    [apply nearestIndex_default; left; by apply len_zero_iff|].
  all: destruct (Z.ltb_spec (parseTimeToMinutes targetTime) 0);
    [apply nearestIndex_default; by right|].
  all: apply nearestError_nearestIndex; [|done].
  all: intros ->; by apply Hnz.
Qed.

(** ** db.go: the dates with errors *)

Section Dates.

Variable pacificLoc : GoTime.Location.

#[local] Abbreviation dateOf row :=
  (utcTimestampToPacificDate pacificLoc (timestampUTC row)).

Lemma rowsOn_snoc d ps row :
  rowsOn pacificLoc d (ps ++ [row])
  = rowsOn pacificLoc d ps ++ (if decide (dateOf row = d) then [row] else []).
Proof.
  unfold rowsOn. by rewrite filter_app.
Qed.

Lemma sumCounts_app l1 l2 : sumCounts (l1 ++ l2) = sumCounts l1 + sumCounts l2.
Proof. unfold sumCounts. induction l1 as [|r l1 IH]; simpl; lia. Qed.

Lemma sumCounts_nonneg l :
  Forall (fun row => 0 <= rowErrorCount row) l -> 0 <= sumCounts l.
Proof.
  induction 1 as [|r l Hr _ IH]; simpl; [done|]. unfold sumCounts in *. simpl. lia.
Qed.

Lemma sumCounts_filter_le (P : FileRow -> Prop) `{!forall r, Decision (P r)} l :
  Forall (fun row => 0 <= rowErrorCount row) l ->
  sumCounts (filter P l) <= sumCounts l.
Proof.
  induction 1 as [|r l Hr _ IH]; [done|]. rewrite filter_cons.
  destruct (decide (P r)); unfold sumCounts in *; simpl; lia.
Qed.

Lemma dateInv_step ps row dateMap :
  Forall (fun row => 0 <= rowErrorCount row) (ps ++ [row]) ->
  sumCounts (ps ++ [row]) < 2 ^ 63 ->
  dateInv pacificLoc ps dateMap -> dateInv pacificLoc (ps ++ [row]) (dateStep pacificLoc dateMap row).
Proof.
  intros Hpos Hsum Hinv d. unfold dateStep.
  pose proof (Hinv d) as Hd. rewrite rowsOn_snoc.
  destruct (String.eqb_spec (dateOf row) EmptyString) as [He|Hne].
  { destruct (dateMap !! d) as [agg|] eqn:Hl.
    - destruct Hd as (Hdne & Hrows & Hcount & Hdom).
      destruct (decide (dateOf row = d)) as [Heq|_]; [congruence|].
      by rewrite app_nil_r.
    - destruct (decide (dateOf row = d)) as [Heq|_]; [left; congruence|].
      by rewrite app_nil_r. }
  assert (sumCounts (rowsOn pacificLoc (dateOf row) (ps ++ [row])) < 2 ^ 63) as Hbound.
  { eapply Z.le_lt_trans; [|exact Hsum]. by apply sumCounts_filter_le. }
  rewrite rowsOn_snoc in Hbound. rewrite decide_True in Hbound by done.
  assert (0 <= sumCounts (rowsOn pacificLoc (dateOf row) ps)) as Hpos1.
  { apply sumCounts_nonneg. apply Forall_app in Hpos as [Hps _].
    unfold rowsOn. rewrite Forall_forall in Hps. apply Forall_forall.
    intros r Hr. apply Hps. by apply list_elem_of_filter in Hr as [_ ?]. }
  assert (0 <= rowErrorCount row) as Hpos2.
  { apply Forall_app in Hpos as [_ Hr]. inversion Hr; subst. lia. }
  rewrite sumCounts_app in Hbound. unfold sumCounts at 2 in Hbound. simpl in Hbound.
  destruct (decide (dateOf row = d)) as [Heq|Hneq].
  - subst d. pose proof (Hinv (dateOf row)) as Hr.
    destruct (dateMap !! dateOf row) as [agg|] eqn:Hl.
    + destruct Hr as (_ & Hrows & Hcount & Hdom).
      rewrite lookup_insert_eq. split_and!; [done|by destruct (rowsOn _ _ ps)|..]; simpl.
      * rewrite sumCounts_app, Hcount. unfold sumCounts at 3. simpl.
        unfold GoInt.add. rewrite wrap_id by (unfold GoInt.inRange; lia). lia.
      * rewrite fmap_app, list_to_set_app_L, <- Hdom.
        change (list_to_set (fileID <$> [row])) with ({[fileID row]} ∪ (∅ : gset Z)).
        rewrite union_empty_r_L.
        destruct (fileIDs agg !! fileID row) as [b|] eqn:Hid; simpl.
        -- assert (fileID row ∈ dom (fileIDs agg)) as Hin by (apply elem_of_dom; eauto).
           assert (dom (fileIDs agg) ∪ {[fileID row]} = dom (fileIDs agg)) as Hsame.
           { rewrite (union_comm_L (dom (fileIDs agg))).
             apply subseteq_union_1_L. by apply singleton_subseteq_l. }
           destruct b; simpl; [by rewrite Hsame|].
           rewrite dom_insert_L. apply union_comm_L.
        -- rewrite dom_insert_L. apply union_comm_L.
    + destruct Hr as [?|Hnil]; [done|]. rewrite Hnil.
      rewrite lookup_insert_eq. split_and!; [done|done|..]; simpl.
      * unfold sumCounts. simpl. lia.
      * rewrite dom_singleton_L.
        change (list_to_set (fileID <$> [] ++ [row]))
          with ({[fileID row]} ∪ (∅ : gset Z)).
        by rewrite union_empty_r_L.
  - rewrite app_nil_r.
    destruct (dateMap !! dateOf row) as [agg|]; by rewrite lookup_insert_ne.
Qed.

Lemma dateInv_fold rest : forall ps dateMap,
  Forall (fun row => 0 <= rowErrorCount row) (ps ++ rest) ->
  sumCounts (ps ++ rest) < 2 ^ 63 ->
  dateInv pacificLoc ps dateMap ->
  dateInv pacificLoc (ps ++ rest) (fold_left (dateStep pacificLoc) rest dateMap).
Proof.
  induction rest as [|row rest IH]; intros ps dateMap Hpos Hsum Hinv; simpl.
  - by rewrite app_nil_r.
  - replace (ps ++ row :: rest) with ((ps ++ [row]) ++ rest) in *
      by (by rewrite <- app_assoc).
    apply IH; [done|done|]. apply dateInv_step; [..|done].
    + by apply Forall_app in Hpos as [? _].
    + rewrite sumCounts_app in Hsum.
      assert (0 <= sumCounts rest); [|lia].
      apply sumCounts_nonneg. by apply Forall_app in Hpos as [_ ?].
Qed.

Lemma dateInv_all rows :
  Forall (fun row => 0 <= rowErrorCount row) rows ->
  sumCounts rows < 2 ^ 63 ->
  dateInv pacificLoc rows (fold_left (dateStep pacificLoc) rows ∅).
Proof.
  intros Hpos Hsum. apply (dateInv_fold rows [] ∅); [done|done|].
  intros d. rewrite lookup_empty. by right.
Qed.

(** The dates in the map are the Pacific dates of the rows. *)
Lemma dateStep_keys ps row dateMap :
  (forall d, is_Some (dateMap !! d) <-> d <> EmptyString /\ rowsOn pacificLoc d ps <> []) ->
  forall d, is_Some (dateStep pacificLoc dateMap row !! d)
            <-> d <> EmptyString /\ rowsOn pacificLoc d (ps ++ [row]) <> [].
Proof.
  intros Hinv d. unfold dateStep. rewrite rowsOn_snoc.
  destruct (String.eqb_spec (dateOf row) EmptyString) as [He|Hne].
  { destruct (decide (dateOf row = d)) as [Heq|_].
    - rewrite Hinv. split; intros [? _]; congruence.
    - by rewrite app_nil_r. }
  destruct (decide (dateOf row = d)) as [Heq|Hneq].
  - subst d. split; [intros _; split; [done|by destruct (rowsOn _ _ ps)]|intros _].
    destruct (dateMap !! dateOf row); by rewrite lookup_insert_eq.
  - rewrite app_nil_r, <- Hinv.
    destruct (dateMap !! dateOf row); by rewrite lookup_insert_ne.
Qed.

Lemma dateFold_keys rest : forall ps dateMap,
  (forall d, is_Some (dateMap !! d) <-> d <> EmptyString /\ rowsOn pacificLoc d ps <> []) ->
  forall d, is_Some (fold_left (dateStep pacificLoc) rest dateMap !! d)
            <-> d <> EmptyString /\ rowsOn pacificLoc d (ps ++ rest) <> [].
Proof.
  induction rest as [|row rest IH]; intros ps dateMap Hinv d; simpl.
  - by rewrite app_nil_r.
  - replace (ps ++ row :: rest) with ((ps ++ [row]) ++ rest)
      by (by rewrite <- app_assoc).
    apply IH. by apply dateStep_keys.
Qed.

Lemma dates_keys rows d :
  is_Some (fold_left (dateStep pacificLoc) rows ∅ !! d)
  <-> d <> EmptyString /\ rowsOn pacificLoc d rows <> [].
Proof.
  apply (dateFold_keys rows [] ∅). intros d'. rewrite lookup_empty. split.
  - by intros [? ?].
  - by intros [_ ?].
Qed.

Lemma GetDatesWithErrors_take rows :
  GetDatesWithErrors pacificLoc rows = take 60 (allDates pacificLoc rows).
Proof.
  unfold GetDatesWithErrors. fold (allDates pacificLoc rows).
  destruct (Z.gtb_spec (GoInt.len (allDates pacificLoc rows)) 60) as [Hgt|Hle]; [done|].
  rewrite take_ge; [done|]. unfold GoInt.len in Hle. lia.
Qed.

Lemma allDates_elem_of rows s :
  s ∈ allDates pacificLoc rows <->
  exists agg, fold_left (dateStep pacificLoc) rows ∅ !! Date s = Some agg /\
              FileCount s = Z.of_nat (size (fileIDs agg)) /\
              ErrorCount s = errorCount agg.
Proof.
  unfold allDates. rewrite sortSlice_elem_of, list_elem_of_fmap. split.
  - intros ([date agg] & -> & Hin). apply elem_of_map_to_list in Hin.
    exists agg. by simpl.
  - intros (agg & Hl & Hf & He). exists (Date s, agg). split.
    + destruct s. simpl in *. by rewrite Hf, He.
    + by apply elem_of_map_to_list.
Qed.

Lemma allDates_NoDup rows : NoDup (Date <$> allDates pacificLoc rows).
Proof.
  unfold allDates. rewrite sortSlice_Permutation.
  rewrite <- list_fmap_compose.
  erewrite list_fmap_ext; [apply (NoDup_fst_map_to_list
    (fold_left (dateStep pacificLoc) rows ∅))|].
  by intros _ [date agg] _.
Qed.

Lemma allDates_sorted rows i j a b :
  allDates pacificLoc rows !! i = Some a -> allDates pacificLoc rows !! j = Some b -> (i < j)%nat ->
  String.ltb (Date b) (Date a) = true.
Proof.
  intros Hi Hj Hlt.
  assert (StronglySorted (notAfter (fun di dj => String.ltb (Date dj) (Date di)))
            (allDates pacificLoc rows)) as Hs.
  { apply sortSlice_sorted.
    - intros x y. apply ltb_asym.
    - intros x y z Hxy Hyz. by eapply ltb_trans. }
  pose proof (StronglySorted_lookup _ _ Hs i j a b Hi Hj Hlt) as Hab.
  unfold notAfter in Hab.
  destruct (ltb_total (Date a) (Date b)) as [Hc|Hc]; [|congruence|done].
  intros Heq. pose proof (allDates_NoDup rows) as Hnd.
  rewrite NoDup_alt in Hnd. specialize (Hnd i j (Date a)).
  rewrite !list_lookup_fmap, Hi, Hj in Hnd. simpl in Hnd.
  specialize (Hnd eq_refl (f_equal Some (eq_sym Heq))). lia.
Qed.

(** X5.  Every entry of [GetDatesWithErrors] is the Pacific date of at
    least one row, its file count is the number of distinct file ids of
    the rows on that date and its error count the sum of their error
    counts; the counts are not negative and their sum fits an [int]. *)
Theorem GetDatesWithErrors_counts (rows : list FileRow) :
  Forall (fun row => 0 <= rowErrorCount row) rows ->
  sumCounts rows < 2 ^ 63 ->
  forall s, s ∈ GetDatesWithErrors pacificLoc rows ->
    Date s <> EmptyString /\
    rowsOn pacificLoc (Date s) rows <> [] /\
    FileCount s = distinctFiles (rowsOn pacificLoc (Date s) rows) /\
    ErrorCount s = sumCounts (rowsOn pacificLoc (Date s) rows).
Proof.
  intros Hpos Hsum s Hs. rewrite GetDatesWithErrors_take in Hs.
  apply subseteq_take in Hs. apply allDates_elem_of in Hs as (agg & Hl & Hf & He).
  pose proof (dateInv_all rows Hpos Hsum (Date s)) as Hinv. rewrite Hl in Hinv.
  destruct Hinv as (Hne & Hrows & Hcount & Hdom). split_and!; try done.
  - rewrite Hf. unfold distinctFiles. by rewrite <- Hdom, size_dom.
  - by rewrite He.
Qed.

(** X6.  [GetDatesWithErrors] lists at most 60 dates, each once, newest
    first, and leaves out a date some row falls on only when 60 later
    dates are listed. *)
Theorem GetDatesWithErrors_newest_first (rows : list FileRow) :
  let dates := GetDatesWithErrors pacificLoc rows in
  GoInt.len dates <= 60 /\
  (forall i j a b, dates !! i = Some a -> dates !! j = Some b -> (i < j)%nat ->
                   String.ltb (Date b) (Date a) = true) /\
  (forall row, row ∈ rows -> dateOf row <> EmptyString ->
     (exists s, s ∈ dates /\ Date s = dateOf row) \/
     (GoInt.len dates = 60 /\
      forall s, s ∈ dates -> String.ltb (dateOf row) (Date s) = true)).
Proof.
  intros dates. subst dates. rewrite GetDatesWithErrors_take. split_and!.
  - unfold GoInt.len. rewrite length_take. lia.
  - intros i j a b Hi Hj Hlt.
    apply lookup_take_Some in Hi as [Hi _]. apply lookup_take_Some in Hj as [Hj _].
    by eapply allDates_sorted.
  - intros row Hrow Hne.
    assert (is_Some (fold_left (dateStep pacificLoc) rows ∅ !! dateOf row)) as [agg Hagg].
    { apply dates_keys. split; [done|]. intros Hnil.
      assert (row ∈ rowsOn pacificLoc (dateOf row) rows) as Hin
        by (by apply list_elem_of_filter).
      rewrite Hnil in Hin. by apply elem_of_nil in Hin. }
    assert (mkDateSummary (dateOf row) (Z.of_nat (size (fileIDs agg))) (errorCount agg)
              ∈ allDates pacificLoc rows) as Hin.
    { apply allDates_elem_of. exists agg. by simpl. }
    apply list_elem_of_lookup in Hin as [k Hk].
    destruct (Nat.lt_ge_cases k 60) as [Hlt|Hge].
    + left.
      exists (mkDateSummary (dateOf row) (Z.of_nat (size (fileIDs agg))) (errorCount agg)).
      split; [|done].
      apply (list_elem_of_lookup_2 _ k). apply lookup_take_Some. by split.
    + right. split.
      * unfold GoInt.len. rewrite length_take. apply lookup_lt_Some in Hk. lia.
      * intros s Hs. apply list_elem_of_lookup in Hs as [i Hi].
        apply lookup_take_Some in Hi as [Hi Hi60].
        change (dateOf row) with (Date (mkDateSummary (dateOf row)
                   (Z.of_nat (size (fileIDs agg))) (errorCount agg))).
        eapply allDates_sorted; [exact Hi|exact Hk|lia].
Qed.

End Dates.

Lemma GetDatesWithErrors_counts_witness :
  let rows := [mkFileRow 7 "2025-01-01 09:00:00" 4; mkFileRow 8 "2025-01-01 07:58:00" 3;
               mkFileRow 9 "2024-12-31 23:00:00" 2; mkFileRow 9 "not a time" 5] in
  Forall (fun row => 0 <= rowErrorCount row) rows /\
  sumCounts rows < 2 ^ 63 /\
  mkDateSummary "2024-12-31" 2 5 ∈ GetDatesWithErrors fixedPST rows /\
  distinctFiles (rowsOn fixedPST "2024-12-31" rows) = 2 /\
  sumCounts (rowsOn fixedPST "2024-12-31" rows) = 5.
Proof.
  intros rows.
  assert (Forall (fun row => 0 <= rowErrorCount row) rows) as Hpos.
  { repeat constructor; vm_compute; discriminate. }
  assert (sumCounts rows < 2 ^ 63) as Hsum by (vm_compute; reflexivity).
  assert (mkDateSummary "2024-12-31" 2 5 ∈ GetDatesWithErrors fixedPST rows) as Hin.
  { replace (GetDatesWithErrors fixedPST rows)
      with [mkDateSummary "2025-01-01" 1 4; mkDateSummary "2024-12-31" 2 5]
      by (vm_compute; reflexivity).
    apply elem_of_cons. right. apply elem_of_cons. by left. }
  split; [exact Hpos|]. split; [exact Hsum|]. split; [exact Hin|].
  destruct (GetDatesWithErrors_counts fixedPST rows Hpos Hsum _ Hin) as (_ & _ & Hf & He).
  split; [exact (eq_sym Hf)|exact (eq_sym He)].
Defined.

(** ** The cursor invariant under the other operations *)

Section Screen.

Context `{CaseFold}.

#[local] Arguments panelPageSize : simpl never.
#[local] Arguments updateContextPane : simpl never.

(** With both cursors and both offsets at zero the invariant holds, on
    any list. *)
Lemma top_of_lists m1 :
  groupCursor m1 = 0 -> groupOffset m1 = 0 -> errorCursor m1 = 0 -> errorOffset m1 = 0 ->
  exists v, updateContextPane m1 = Some (set_viewport v m1) /\
            cursorInv (set_viewport v m1).
Proof.
  intros Hgc Hgo Hec Heo.
  destruct (updateContextPane_ok m1) as [v Hv]; [lia|lia|].
  exists v. split; [done|].
  pose proof (panelPageSize_ge5 m1) as Hps.
  pose proof (len_nonneg (groups m1)).
  split.
  - simpl. rewrite Hgc, Hgo. unfold panelInv.
    change (panelPageSize (set_viewport v m1)) with (panelPageSize m1). lia.
  - destruct (getFilteredGroupErrors_ok m1) as [errors He]; [lia|].
    exists errors. split; [by rewrite <- He|]. simpl. rewrite Hec, Heo.
    pose proof (len_nonneg errors). unfold panelInv.
    change (panelPageSize (set_viewport v m1)) with (panelPageSize m1). lia.
Qed.

Lemma sizeBound_buildGroups fe :
  GoInt.len fe <= 2 ^ 62 ->
  GoInt.len (buildGroups fe) <= 2 ^ 62 /\
  Forall (fun g => GoInt.len (ErrorGroup.Errors g) <= 2 ^ 62) (buildGroups fe).
Proof.
  intros Hfe. unfold GoInt.len in *. split.
  - pose proof (buildGroups_length fe). lia.
  - apply Forall_forall. intros g Hg. pose proof (buildGroups_group_length fe g Hg).
    simpl. unfold GoInt.len. lia.
Qed.

Lemma applyFilters_inv m :
  exists m', applyFilters m = Some m' /\ cursorInv m' /\
    (GoInt.len (allErrors m) <= 2 ^ 62 -> - 2 ^ 62 <= height m <= 2 ^ 62 ->
     sizeBound m').
Proof.
  unfold applyFilters. rewrite applyFilters_loop. simpl.
  match goal with |- context [updateContextPane ?m1] =>
    destruct (top_of_lists m1) as (v & -> & Hinv); try done end.
  eexists. split; [done|]. split; [done|]. intros Hlen Hh.
  unfold sizeBound. simpl. split; [done|].
  apply sizeBound_buildGroups.
  pose proof (filtered_length (allErrors m) (passesFilters (set_filteredErrors [] m))).
  lia.
Qed.

(** X7.  Every operation that rebuilds the groups leaves a state that
    satisfies the cursor invariant, whatever the state before: opening
    a day, [applyFilters], the critical-only key and entering a
    component filter put both cursors and both offsets at zero.  The
    state is within the size bound when the errors and the terminal
    height are. *)
Theorem rebuild_establishes_cursor_invariant :
  (forall errors m, exists m', openDay errors m = Some m' /\ cursorInv m' /\
     (GoInt.len errors <= 2 ^ 62 -> - 2 ^ 62 <= height m <= 2 ^ 62 -> sizeBound m')) /\
  (forall m, exists m', applyFilters m = Some m' /\ cursorInv m' /\
     (GoInt.len (allErrors m) <= 2 ^ 62 -> - 2 ^ 62 <= height m <= 2 ^ 62 ->
      sizeBound m')) /\
  (forall m, exists m', toggleCriticalOnly m = Some m' /\ cursorInv m' /\
     (GoInt.len (allErrors m) <= 2 ^ 62 -> - 2 ^ 62 <= height m <= 2 ^ 62 ->
      sizeBound m')) /\
  (forall value m, exists m', enterComponentFilter value m = Some m' /\ cursorInv m' /\
     (GoInt.len (allErrors m) <= 2 ^ 62 -> - 2 ^ 62 <= height m <= 2 ^ 62 ->
      sizeBound m')).
Proof.
  split_and!.
  - intros errors m. unfold openDay. simpl.
    match goal with |- context [updateContextPane ?m1] =>
      destruct (top_of_lists m1) as (v & -> & Hinv); try done end.
    eexists. split; [done|]. split; [done|]. intros Hlen Hh.
    unfold sizeBound. simpl. split; [done|]. by apply sizeBound_buildGroups.
  - apply applyFilters_inv.
  - intros m. unfold toggleCriticalOnly.
    destruct (String.eqb (levelFilter m) "C").
    + apply (applyFilters_inv (set_levelFilter EmptyString m)).
    + apply (applyFilters_inv (set_levelFilter "C" m)).
  - intros value m. apply (applyFilters_inv (set_componentFilter value m)).
Qed.

Lemma enterMessageFilter_keeps vg ve ve' value m :
  sizeBound m -> cursorInvWhen vg ve m ->
  exists m', enterMessageFilter value m = Some m' /\ sizeBound m' /\
             cursorInvWhen vg ve' m'.
Proof.
  intros Hb [Hgi _]. unfold enterMessageFilter, applyMessageFilter.
  by apply (group_move_when vg ve' m).
Qed.

Lemma enterGroup_keeps vg ve m :
  sizeBound m -> cursorInvWhen vg ve m ->
  sizeBound (enterGroup m) /\ cursorInvWhen vg ve (enterGroup m).
Proof.
  intros Hb Hinv. pose proof Hinv as [Hgi (errors & He & Hei)].
  unfold enterGroup. destruct (bool_decide (focusedPanel m = PanelGroups)); [|done].
  split; [done|]. split; [done|]. exists errors. split; [by rewrite <- He|]. simpl.
  pose proof (panelPageSize_ge5 m). pose proof (len_nonneg errors).
  change (panelPageSize _) with (panelPageSize m). unfold panelInvWhen.
  destruct ve; lia.
Qed.

(** X8.  Entering a message filter and drilling into a group with Enter
    put the errors panel at its top and leave the groups panel alone.
    From a state in which the cursors are indices of their lists and the
    offsets are not negative they do not panic and leave such a state;
    the cursor of the groups panel is among the visible rows after them
    if it was before; that of the errors panel is after a message filter
    is entered, and after Enter if it was before.  So the cursor
    invariant holds after them if it held before. *)
Theorem errors_panel_reset_keeps_cursor_invariant (m : Model) :
  sizeBound m -> cursorRange m ->
  (forall value, exists m',
     enterMessageFilter value m = Some m' /\ sizeBound m' /\ cursorRange m' /\
     errorsVisible m' /\
     (groupsVisible m -> groupsVisible m') /\
     (cursorInv m -> cursorInv m')) /\
  sizeBound (enterGroup m) /\ cursorRange (enterGroup m) /\
  (groupsVisible m -> groupsVisible (enterGroup m)) /\
  (errorsVisible m -> errorsVisible (enterGroup m)) /\
  (cursorInv m -> cursorInv (enterGroup m)).
Proof.
  intros Hb Hr. split.
  - intros value.
    destruct (keeps_all (enterMessageFilter value m) m)
      as (m' & Hm' & Hb' & Hr' & Hg & _ & Hi); [|done|].
    { intros vg ve Hinv. by apply (enterMessageFilter_keeps vg ve ve). }
    exists m'. split_and!; [done..| |done|done].
    change (cursorInvWhen false false m) in Hr.
    destruct (enterMessageFilter_keeps false false true value m Hb Hr)
      as (m2 & Hm2 & _ & Hinv2).
    rewrite Hm' in Hm2. injection Hm2 as <-. by eapply cursorInvWhen_errors.
  - destruct (keeps_all (Some (enterGroup m)) m)
      as (m' & Hm' & Hb' & Hr' & Hg & He & Hi); [|done|].
    { intros vg ve Hinv. exists (enterGroup m). split; [done|].
      by apply enterGroup_keeps. }
    injection Hm' as <-. by split_and!.
Qed.

Lemma cursorInv_focus p m : cursorInv m -> cursorInv (set_focusedPanel p m).
Proof. intros [Hgi (errors & He & Hei)]. split; [done|]. by exists errors. Qed.

#[local] Arguments GoInt.wrap : simpl never.
#[local] Arguments GoInt.mul : simpl never.
#[local] Arguments Z.max : simpl never.
#[local] Arguments Z.mul : simpl never.
#[local] Arguments Z.add : simpl never.
#[local] Arguments Z.sub : simpl never.
#[local] Arguments Z.quot : simpl never.

Lemma cursorInvWhen_focus vg ve p m :
  cursorInvWhen vg ve m -> cursorInvWhen vg ve (set_focusedPanel p m).
Proof. intros [Hgi (errors & He & Hei)]. split; [done|]. by exists errors. Qed.

Lemma handleMouseErrorList_keeps vg ve width msg m :
  sizeBound m -> cursorInvWhen vg ve m ->
  exists m', handleMouseErrorList width msg m = Some m' /\ sizeBound m' /\
             cursorInvWhen vg ve m'.
Proof.
  intros Hb Hinv. unfold handleMouseErrorList.
  unfold GoInt.div at 1. simpl.
  pose proof (panelPageSize_bound m (proj1 Hb)) as Hps.
  pose proof Hinv as [Hgi (errors & He & Hei)].
  pose proof (getFilteredGroupErrors_bound m errors Hb He) as Hel.
  pose proof Hb as (Hh & Hgl & _).
  pose proof (len_nonneg (groups m)) as Hgl0.
  set (visibleRows := if GoInt.sub (height m) 10 <? 1 then 1 else GoInt.sub (height m) 10).
  assert (visibleRows <= panelPageSize m) as Hvis.
  { unfold visibleRows, panelPageSize.
    destruct (Z.ltb_spec (GoInt.sub (height m) 10) 1),
      (Z.ltb_spec (GoInt.sub (height m) 10) 5); lia. }
  set (clickedPanel := if X msg <? _ then PanelGroups else _).
  destruct (Button msg); try (exists m; by split_and!).
  - (* left button *)
    destruct (bool_decide (Action msg = MouseActionPress)); simpl;
      [|exists m; by split_and!].
    pose proof (cursorInvWhen_focus vg ve clickedPanel m Hinv) as Hinv0.
    assert (sizeBound (set_focusedPanel clickedPanel m)) as Hb0 by done.
    set (clickedRow := GoInt.sub (Y msg) 3).
    destruct (Z.geb_spec clickedRow 0) as [Hr0|Hr0]; simpl;
      [|eexists; by split_and!].
    destruct (Z.ltb_spec clickedRow visibleRows) as [Hr1|Hr1]; simpl;
      [|eexists; by split_and!].
    destruct clickedPanel; [..|eexists; by split_and!].
    + (* groups panel *)
      unfold panelInvWhen in Hgi.
      destruct (Z.geb_spec (GoInt.add (groupOffset m) clickedRow) 0) as [Hn0|Hn0];
        simpl; [|eexists; by split_and!].
      destruct (Z.ltb_spec (GoInt.add (groupOffset m) clickedRow)
                  (GoInt.len (groups m))) as [Hn1|Hn1];
        simpl; [|eexists; by split_and!].
      assert (0 < GoInt.len (groups m)) as Hpos by lia.
      assert (GoInt.add (groupOffset m) clickedRow = groupOffset m + clickedRow) as Hadd.
      { unfold GoInt.add. apply wrap_id. unfold GoInt.inRange. destruct vg; lia. }
      rewrite Hadd in *.
      apply (group_move_when vg ve m); simpl; try done. unfold panelInvWhen.
      destruct vg; lia.
    + (* errors panel *)
      change (getFilteredGroupErrors (set_focusedPanel PanelErrors m))
        with (getFilteredGroupErrors m). rewrite He. simpl.
      unfold panelInvWhen in Hei.
      destruct (Z.geb_spec (GoInt.add (errorOffset m) clickedRow) 0) as [Hn0|Hn0];
        simpl; [|eexists; by split_and!].
      destruct (Z.ltb_spec (GoInt.add (errorOffset m) clickedRow)
                  (GoInt.len errors)) as [Hn1|Hn1];
        simpl; [|eexists; by split_and!].
      assert (0 < GoInt.len errors) as Hpos by lia.
      assert (GoInt.add (errorOffset m) clickedRow = errorOffset m + clickedRow) as Hadd.
      { unfold GoInt.add. apply wrap_id. unfold GoInt.inRange. destruct ve; lia. }
      rewrite Hadd in *.
      apply (error_move_when vg ve m _ errors); simpl; try done. unfold panelInvWhen.
      destruct ve; lia.
  - (* wheel up *)
    destruct (focusedPanel m); try (exists m; by split_and!);
      apply (navigate_keeps vg ve Up m Hb Hinv).
  - (* wheel down *)
    destruct (focusedPanel m); try (exists m; by split_and!);
      apply (navigate_keeps vg ve Down m Hb Hinv).
Qed.

(** X9.  The mouse keeps the cursors where navigation does: from a
    state in which the cursors are indices of their lists and the
    offsets are not negative, [handleMouseErrorList] does not panic and
    leaves such a state, for every terminal width and every mouse
    message; the cursor of a panel is among the visible rows after it if
    it was before, so the cursor invariant holds after it if it held
    before.  A click selects a row only if the row is one of the visible
    rows of an existing group or error. *)
Theorem handleMouseErrorList_keeps_cursor_invariant
    (width : Z) (msg : MouseMsg) (m : Model) :
  sizeBound m -> cursorRange m ->
  exists m', handleMouseErrorList width msg m = Some m' /\ sizeBound m' /\
    cursorRange m' /\
    (groupsVisible m -> groupsVisible m') /\
    (errorsVisible m -> errorsVisible m') /\
    (cursorInv m -> cursorInv m').
Proof.
  intros Hb Hr. apply keeps_all; [|done].
  intros vg ve Hinv. by apply handleMouseErrorList_keeps.
Qed.

Lemma page_align_pos c ps :
  0 <= c < 2 ^ 62 -> 0 < ps <= 2 ^ 62 ->
  0 <= GoInt.mul (GoInt.wrap (Z.quot c ps)) ps <= c /\
  c < GoInt.mul (GoInt.wrap (Z.quot c ps)) ps + ps.
Proof.
  intros Hc Hps. rewrite Z.quot_div_nonneg by lia.
  pose proof (Z.div_mod c ps ltac:(lia)) as Hdm.
  pose proof (Z.mod_pos_bound c ps ltac:(lia)) as Hm.
  assert (0 <= c / ps) as Hq by (apply Z.div_pos; lia).
  assert (0 <= c / ps * ps <= c) as Hle by nia.
  unfold GoInt.mul.
  rewrite (wrap_id (c / ps)) by (unfold GoInt.inRange; nia).
  rewrite wrap_id by (unfold GoInt.inRange; lia). nia.
Qed.

(** The index the loop of [jumpToTime] returns is one of the list. *)
Lemma nearestGroup_index target gs bestDiff :
  0 <= nearestGroup target gs 0 0 bestDiff < Z.max 1 (GoInt.len gs).
Proof.
  pose proof (len_nonneg gs).
  destruct (nearestGroup_spec target gs 0 0 bestDiff)
    as [[-> _]|(k & g & Hk & -> & _)]; [lia|].
  apply lookup_lt_Some in Hk. unfold GoInt.len. lia.
Qed.

Lemma jumpToTime_keeps vg ve timeStr m :
  sizeBound m -> cursorInvWhen vg ve m -> 0 < pageSize m <= 2 ^ 62 ->
  (vg = true -> pageSize m <= panelPageSize m) ->
  exists m', jumpToTime timeStr m = Some m' /\ sizeBound m' /\ cursorInvWhen vg ve m' /\
    (groups m' , filteredErrors m', messageFilter m')
    = (groups m, filteredErrors m, messageFilter m).
Proof.
  intros Hb Hinv Hps Hvg. unfold jumpToTime.
  destruct (GoInt.len (groups m) =? 0); [by exists m|].
  destruct (parseTimeToMinutes timeStr <? 0); [by exists m|].
  pose proof (nearestGroup_index (parseTimeToMinutes timeStr) (groups m)
                (GoInt.mul 24 60)) as Hidx.
  set (bestIdx := nearestGroup _ _ _ _ _) in *.
  pose proof (panelPageSize_bound m (proj1 Hb)) as Hpps.
  pose proof Hb as (Hh & Hgl & _).
  simpl. unfold GoInt.div. destruct (Z.eqb_spec (pageSize m) 0); [lia|]. simpl.
  pose proof (page_align_pos bestIdx (pageSize m) ltac:(lia) ltac:(lia)) as Hpage.
  match goal with |- context [updateContextPane ?m1] =>
    destruct (group_move_when vg ve m m1) as (m' & Hu & Hb' & Hinv'); simpl; try done end.
  { unfold panelInvWhen. destruct vg; [specialize (Hvg eq_refl)|]; lia. }
  exists m'. split; [done|]. split; [done|]. split; [done|].
  apply updateContextPane_viewport in Hu as [v ->]. done.
Qed.

(** X10.  [jumpToTime] pages the group offset by the field [pageSize],
    not by the visible rows.  From a state in which the cursors are
    indices of their lists and the offsets are not negative, with a
    positive [pageSize], it does not panic, whatever the time typed,
    leaves such a state, and leaves the groups, the filtered set and the
    message filter as they are; the cursor of the errors panel is among
    the visible rows after it if it was before.  When the panels show
    at least [pageSize] rows (a terminal of 25 rows for the 15 of
    [NewModel]) that holds of the groups panel too, and the cursor
    invariant holds after the jump if it held before. *)
Theorem jumpToTime_keeps_cursor_on_screen (timeStr : string) (m : Model) :
  sizeBound m -> cursorRange m -> 0 < pageSize m <= 2 ^ 62 ->
  exists m', jumpToTime timeStr m = Some m' /\ sizeBound m' /\ cursorRange m' /\
    (groups m' , filteredErrors m', messageFilter m')
    = (groups m, filteredErrors m, messageFilter m) /\
    (errorsVisible m -> errorsVisible m') /\
    (pageSize m <= panelPageSize m ->
     (groupsVisible m -> groupsVisible m') /\ (cursorInv m -> cursorInv m')).
Proof.
  intros Hb Hr Hps. change (cursorInvWhen false false m) in Hr.
  destruct (jumpToTime_keeps false false timeStr m Hb Hr Hps ltac:(done))
    as (m' & Hm' & Hb' & Hr' & Hsame).
  exists m'. split_and!; [done..| |].
  - intros Hv.
    destruct (jumpToTime_keeps false true timeStr m Hb (cursorRange_errors _ _ Hr Hv) Hps
                ltac:(done)) as (m2 & Hm2 & _ & Hr2 & _).
    rewrite Hm' in Hm2. injection Hm2 as <-. by eapply cursorInvWhen_errors.
  - intros Hle. split.
    + intros Hv.
      destruct (jumpToTime_keeps true false timeStr m Hb (cursorRange_groups _ _ Hr Hv) Hps
                  ltac:(done)) as (m2 & Hm2 & _ & Hr2 & _).
      rewrite Hm' in Hm2. injection Hm2 as <-. by eapply cursorInvWhen_groups.
    + intros Hinv.
      destruct (jumpToTime_keeps true true timeStr m Hb Hinv Hps ltac:(done))
        as (m2 & Hm2 & _ & Hr2 & _).
      rewrite Hm' in Hm2. by injection Hm2 as <-.
Qed.

End Screen.

Lemma scenarioDay_sizeBound : sizeBound scenarioDay.
Proof.
  unfold sizeBound. split_and!; [vm_compute; discriminate|vm_compute; discriminate
                                 |vm_compute; discriminate|].
  repeat constructor; vm_compute; discriminate.
Qed.

Lemma scenarioDay_cursorInv : cursorInv (H := asciiToLower) scenarioDay.
Proof.
  split.
  - unfold panelInv. split_and!; try (vm_compute; first [reflexivity|discriminate]).
    intros _. split; vm_compute; first [reflexivity|discriminate].
  - eexists. split; [vm_compute; reflexivity|].
    unfold panelInv. split_and!; try (vm_compute; first [reflexivity|discriminate]).
    intros _. split; vm_compute; first [reflexivity|discriminate].
Qed.

Lemma scenarioDay_cursorRange : cursorRange (H := asciiToLower) scenarioDay.
Proof.
  split.
  - unfold panelRange. split; [split|split; [|intros _]];
      vm_compute; first [reflexivity|discriminate].
  - eexists. split; [vm_compute; reflexivity|].
    unfold panelRange. split; [split|split; [|intros _]];
      vm_compute; first [reflexivity|discriminate].
Qed.

Lemma errors_panel_reset_keeps_cursor_invariant_witness :
  sizeBound scenarioDay /\ cursorRange (H := asciiToLower) scenarioDay /\
  exists m', enterMessageFilter (H := asciiToLower) "timeout" scenarioDay = Some m' /\
             sizeBound m' /\ cursorRange (H := asciiToLower) m' /\
             errorsVisible (H := asciiToLower) m'.
Proof.
  split; [exact scenarioDay_sizeBound|]. split; [exact scenarioDay_cursorRange|].
  destruct (proj1 (errors_panel_reset_keeps_cursor_invariant (H := asciiToLower) scenarioDay
                     scenarioDay_sizeBound scenarioDay_cursorRange) "timeout"%string)
    as (m' & Hm' & Hb' & Hr' & Hv' & _).
  exists m'. by split_and!.
Defined.

Lemma handleMouseErrorList_keeps_cursor_invariant_witness :
  sizeBound scenarioDay /\ cursorRange (H := asciiToLower) scenarioDay /\
  exists m',
    handleMouseErrorList (H := asciiToLower) 120
      (mkMouseMsg 5 4 MouseButtonLeft MouseActionPress) scenarioDay = Some m' /\
    sizeBound m' /\ cursorRange (H := asciiToLower) m'.
Proof.
  split; [exact scenarioDay_sizeBound|]. split; [exact scenarioDay_cursorRange|].
  destruct (handleMouseErrorList_keeps_cursor_invariant (H := asciiToLower) 120
              (mkMouseMsg 5 4 MouseButtonLeft MouseActionPress) scenarioDay
              scenarioDay_sizeBound scenarioDay_cursorRange)
    as (m' & Hm' & Hb' & Hr' & _).
  exists m'. by split_and!.
Defined.

Example click_second_group :
  (fun m' => (focusedPanel m', groupCursor m', errorCursor m', messageFilter m'))
    <$> handleMouseErrorList (H := asciiToLower) 120
          (mkMouseMsg 5 4 MouseButtonLeft MouseActionPress) scenarioWithMessageFilter
  = Some (PanelGroups, 1, 0, EmptyString).
Proof. vm_compute. reflexivity. Qed.

Lemma jumpToTime_keeps_cursor_on_screen_witness :
  sizeBound scenarioDay /\ cursorRange (H := asciiToLower) scenarioDay /\
  0 < pageSize scenarioDay <= 2 ^ 62 /\
  exists m', jumpToTime (H := asciiToLower) "09:00" scenarioDay = Some m' /\
    sizeBound m' /\ cursorRange (H := asciiToLower) m' /\
    (groups m' , filteredErrors m', messageFilter m')
    = (groups scenarioDay, filteredErrors scenarioDay, messageFilter scenarioDay).
Proof.
  assert (0 < pageSize scenarioDay <= 2 ^ 62) as Hps.
  { split; vm_compute; first [reflexivity|discriminate]. }
  split; [exact scenarioDay_sizeBound|]. split; [exact scenarioDay_cursorRange|].
  split; [exact Hps|].
  destruct (jumpToTime_keeps_cursor_on_screen (H := asciiToLower) "09:00" scenarioDay
              scenarioDay_sizeBound scenarioDay_cursorRange Hps)
    as (m' & Hm' & Hb' & Hr' & Hsame & _).
  exists m'. by split_and!.
Defined.

(** ** The context pane *)

Section ContextPane.

Context `{CaseFold}.

(** [updateContextPane] leaves the context pane on the selected error. *)
Lemma updateContextPane_shown m m' :
  mode m = ModeErrorList -> updateContextPane m = Some m' -> contextShown m'.
Proof.
  intros Hmode Hu e. unfold updateContextPane in Hu. rewrite Hmode in Hu. simpl in Hu.
  unfold selectedError.
  destruct (Z.eqb_spec (GoInt.len (groups m)) 0) as [Hz|Hnz]; simpl in Hu.
  { injection Hu as <-. unfold getFilteredGroupErrors.
    apply len_zero_iff in Hz. rewrite Hz.
    destruct (Z.geb_spec (groupCursor m) (GoInt.len (@nil ErrorGroup))) as [|Hlt];
      [done|].
    unfold GoInt.index. destruct (groupCursor m <? 0); [done|].
    by destruct (Z.to_nat (groupCursor m)). }
  destruct (getFilteredGroupErrors m) as [errors|] eqn:He; [simpl in Hu|done].
  destruct ((GoInt.len errors =? 0) || (errorCursor m >=? GoInt.len errors)) eqn:Hc.
  { injection Hu as <-. rewrite He. simpl. by rewrite Hc. }
  destruct (GoInt.index errors (errorCursor m)) as [e0|] eqn:Hi; [simpl in Hu|done].
  injection Hu as <-.
  change (getFilteredGroupErrors (set_viewport (Some e0) m))
    with (getFilteredGroupErrors m).
  rewrite He. simpl. rewrite Hc, Hi. simpl. by intros [= <-].
Qed.

Lemma ends_same m : endsInUpdate m (Some m).
Proof. right. left. exists (focusedPanel m). by destruct m. Qed.

Lemma ends_focus p m : endsInUpdate m (Some (set_focusedPanel p m)).
Proof. right. left. by exists p. Qed.

Lemma ends_update m m1 : mode m1 = mode m -> endsInUpdate m (updateContextPane m1).
Proof. intros Hm. right. right. by exists m1. Qed.

Lemma ends_none m : endsInUpdate m None.
Proof. by left. Qed.

Ltac ends :=
  repeat first
    [ progress cbn beta iota zeta delta [mbind option_bind]
    | match goal with
      | |- endsInUpdate ?m (Some ?m) => exact (ends_same m)
      | |- endsInUpdate ?m (Some (set_focusedPanel ?p ?m)) => exact (ends_focus p m)
      | |- endsInUpdate ?m None => exact (ends_none m)
      | |- endsInUpdate ?m (updateContextPane ?x) =>
          lazymatch x with
          | context [if _ then _ else _] => fail
          | _ => refine (ends_update m x _); reflexivity
          end
      | |- context [if ?c then _ else _] =>
          lazymatch c with
          | true => fail
          | false => fail
          | _ => destruct c
          end
      | |- endsInUpdate ?m ((?o ≫= _) ≫= _) => destruct o as [?|]
      | |- endsInUpdate ?m (?o ≫= _) => destruct o as [?|]
      | |- endsInUpdate _ (match ?o with Some _ => _ | None => _ end) =>
          destruct o as [[? ?]|]
      end ].

Lemma applyFilters_ends m :
  exists m1, mode m1 = mode m /\ applyFilters m = updateContextPane m1.
Proof.
  unfold applyFilters. rewrite applyFilters_loop. eexists. split; [|reflexivity].
  reflexivity.
Qed.

Lemma navigate_ends op m : endsInUpdate m (navigate op m).
Proof.
  destruct op; unfold navigate, navigateUp, navigateDown, navigatePageUp,
    navigatePageDown, navigateHome, navigateEnd; ends.
Qed.

Lemma clearFilters_ends m : endsInUpdate m (clearFilters m).
Proof.
  unfold clearFilters.
  destruct (getFilteredGroupErrors m) as [errors|]; [|exact (ends_none m)].
  cbn beta iota zeta delta [mbind option_bind].
  destruct (if errorCursor m <? GoInt.len errors
            then ID <$> GoInt.index errors (errorCursor m) else Some 0)
    as [currentErrorID|]; [|exact (ends_none m)].
  cbn beta iota zeta delta [mbind option_bind].
  destruct (currentErrorID >? 0); [|ends].
  unfold findAndSelectError.
  match goal with |- context [findInGroups ?a ?b ?c] =>
    destruct (findInGroups a b c) as [[gi ei]|] end; ends.
Qed.

Lemma jumpToTime_ends timeStr m : endsInUpdate m (jumpToTime timeStr m).
Proof. unfold jumpToTime. ends. Qed.

Lemma handleMouseErrorList_ends width msg m :
  endsInUpdate m (handleMouseErrorList width msg m).
Proof.
  unfold handleMouseErrorList.
  destruct (GoInt.div (GoInt.sub width 6) 3) as [panelWidth|]; [|exact (ends_none m)].
  cbn beta iota zeta delta [mbind option_bind].
  destruct (Button msg); try exact (ends_same m).
  - destruct (negb (bool_decide (Action msg = MouseActionPress))); [exact (ends_same m)|].
    destruct ((GoInt.sub (Y msg) 3 >=? 0) && _); [|ends].
    destruct (X msg <? GoInt.add panelWidth 2).
    { ends. }
    destruct (X msg <? GoInt.add (GoInt.mul panelWidth 2) 4); ends.
  - destruct (focusedPanel m); try exact (ends_same m); apply (navigate_ends Up).
  - destruct (focusedPanel m); try exact (ends_same m); apply (navigate_ends Down).
Qed.

(** Every operation panics, leaves the state as it is, the focus apart,
    or ends in [updateContextPane]. *)
Lemma perform_ends op m : endsInUpdate m (perform op m).
Proof.
  destruct op as [op| | | | | |]; simpl.
  - apply navigate_ends.
  - unfold toggleCriticalOnly.
    destruct (String.eqb (levelFilter m) "C").
    + destruct (applyFilters_ends (set_levelFilter EmptyString m)) as (m1 & Hm & ->).
      by apply ends_update.
    + destruct (applyFilters_ends (set_levelFilter "C" m)) as (m1 & Hm & ->).
      by apply ends_update.
  - unfold enterComponentFilter.
    destruct (applyFilters_ends (set_componentFilter value m)) as (m1 & Hm & ->).
    by apply ends_update.
  - unfold enterMessageFilter, applyMessageFilter. ends.
  - apply clearFilters_ends.
  - apply jumpToTime_ends.
  - apply handleMouseErrorList_ends.
Qed.

Lemma contextShown_focus p m : contextShown m -> contextShown (set_focusedPanel p m).
Proof. intros Hs e. apply (Hs e). Qed.

Lemma openDay_ends errors m :
  exists m1, mode m1 = ModeErrorList /\ openDay errors m = updateContextPane m1.
Proof. unfold openDay. eexists. split; [|reflexivity]. reflexivity. Qed.


End ContextPane.

(** ** How the filter operations compose *)

Section Compose.

Context `{CaseFold}.

Lemma applyFilters_refiltered m : applyFilters m = updateContextPane (refiltered m).
Proof. unfold applyFilters. rewrite applyFilters_loop. reflexivity. Qed.

(** Neither the viewport nor what [applyFilters] overwrites matters to
    it. *)
Lemma refiltered_again v m : refiltered (set_viewport v (refiltered m))
                             = set_viewport v (refiltered m).
Proof. destruct m. reflexivity. Qed.

Lemma updateContextPane_idempotent m m' :
  updateContextPane m = Some m' -> updateContextPane m' = Some m'.
Proof.
  unfold updateContextPane. intros Hu.
  destruct (negb (bool_decide (mode m = ModeErrorList)) || (GoInt.len (groups m) =? 0))
    eqn:Hc; [injection Hu as <-; by rewrite Hc|].
  destruct (getFilteredGroupErrors m) as [errors|] eqn:He; [simpl in Hu|done].
  destruct ((GoInt.len errors =? 0) || (errorCursor m >=? GoInt.len errors)) eqn:Hc2.
  { injection Hu as <-. rewrite Hc, He. simpl. by rewrite Hc2. }
  destruct (GoInt.index errors (errorCursor m)) as [e|] eqn:Hi; [simpl in Hu|done].
  injection Hu as <-.
  change (mode (set_viewport (Some e) m)) with (mode m).
  change (groups (set_viewport (Some e) m)) with (groups m).
  change (getFilteredGroupErrors (set_viewport (Some e) m))
    with (getFilteredGroupErrors m).
  change (errorCursor (set_viewport (Some e) m)) with (errorCursor m).
  rewrite Hc, He. simpl. rewrite Hc2, Hi. simpl. by destruct m.
Qed.

(** X12.  [applyFilters] is idempotent: it does not panic, and run again
    on its own result it returns that result unchanged. *)
Theorem applyFilters_idempotent (m : Model) :
  exists m', applyFilters m = Some m' /\ applyFilters m' = Some m'.
Proof.
  destruct (applyFilters_spec m) as [v Happ]. eexists. split; [exact Happ|].
  rewrite applyFilters_refiltered in Happ.
  fold (refiltered m) in Happ |- *.
  rewrite applyFilters_refiltered, refiltered_again.
  by apply (updateContextPane_idempotent (refiltered m)).
Qed.

Lemma applyFilters_viewport m :
  exists v, applyFilters m = Some (set_viewport v (refiltered m)).
Proof. exact (applyFilters_spec m). Qed.

(** X13.  The component filter and the critical-only key commute:
    entering a component filter and then pressing the key, or pressing
    the key and then entering the filter, neither panics and both end
    in the same state, the viewport apart. *)
Theorem filters_commute (value : string) (m : Model) :
  exists a1 a2 b1 b2,
    enterComponentFilter value m = Some a1 /\ toggleCriticalOnly a1 = Some a2 /\
    toggleCriticalOnly m = Some b1 /\ enterComponentFilter value b1 = Some b2 /\
    sameButViewport a2 b2.
Proof.
  unfold enterComponentFilter, toggleCriticalOnly.
  destruct (applyFilters_viewport (set_componentFilter value m)) as [v1 Ha1].
  rewrite Ha1.
  set (a1 := set_viewport v1 (refiltered (set_componentFilter value m))).
  set (a1' := if String.eqb (levelFilter a1) "C"
              then set_levelFilter EmptyString a1 else set_levelFilter "C" a1).
  destruct (applyFilters_viewport a1') as [v2 Ha2].
  set (b0 := if String.eqb (levelFilter m) "C"
             then set_levelFilter EmptyString m else set_levelFilter "C" m).
  destruct (applyFilters_viewport b0) as [w1 Hb1].
  destruct (applyFilters_viewport
              (set_componentFilter value (set_viewport w1 (refiltered b0)))) as [w2 Hb2].
  eexists a1, _, _, _. split; [done|]. split; [exact Ha2|].
  split; [exact Hb1|]. split; [exact Hb2|].
  unfold sameButViewport, a1', a1, b0. change (levelFilter _) with (levelFilter m).
  destruct (String.eqb (levelFilter m) "C"); destruct m; reflexivity.
Qed.

(** X14.  Pressing the critical-only key twice undoes it: from a state
    whose level filter is empty or "C" (the key sets no other), the
    state after two presses is the one [applyFilters] gives at once, the
    viewport apart; the cursors are at the top, not where they were. *)
Theorem toggleCriticalOnly_twice (m : Model) :
  levelFilter m = EmptyString \/ levelFilter m = "C"%string ->
  exists m0 m1 m2,
    applyFilters m = Some m0 /\
    toggleCriticalOnly m = Some m1 /\ toggleCriticalOnly m1 = Some m2 /\
    sameButViewport m2 m0.
Proof.
  intros Hl. unfold toggleCriticalOnly.
  destruct (applyFilters_viewport m) as [v0 H0].
  set (t1 := if String.eqb (levelFilter m) "C"
             then set_levelFilter EmptyString m else set_levelFilter "C" m).
  destruct (applyFilters_viewport t1) as [v1 H1].
  set (m1 := set_viewport v1 (refiltered t1)) in *.
  set (t2 := if String.eqb (levelFilter m1) "C"
             then set_levelFilter EmptyString m1 else set_levelFilter "C" m1).
  destruct (applyFilters_viewport t2) as [v2 H2].
  eexists _, m1, _. split; [exact H0|]. split; [exact H1|]. split; [exact H2|].
  unfold sameButViewport, t2, m1, t1.
  destruct m as [a f g mo fo gc ec go eo ps lf cf mf fi vp h]. simpl in Hl.
  destruct Hl as [->| ->]; reflexivity.
Qed.

(** X15.  Tab and Shift-Tab are inverse to each other on every state,
    and three Tabs come back to the panel they started from. *)
Theorem tab_cycles (m : Model) :
  tabBackward (tabForward m) = m /\ tabForward (tabBackward m) = m /\
  tabForward (tabForward (tabForward m)) = m.
Proof.
  destruct m as [a f g mo fo gc ec go eo ps lf cf mf fi vp h].
  by destruct fo.
Qed.

End Compose.

Lemma toggleCriticalOnly_twice_witness :
  (levelFilter scenarioDay = EmptyString \/ levelFilter scenarioDay = "C"%string) /\
  exists m0 m1 m2,
    applyFilters (H := asciiToLower) scenarioDay = Some m0 /\
    toggleCriticalOnly (H := asciiToLower) scenarioDay = Some m1 /\
    toggleCriticalOnly (H := asciiToLower) m1 = Some m2 /\
    sameButViewport m2 m0.
Proof.
  split; [by left|].
  apply (toggleCriticalOnly_twice (H := asciiToLower) scenarioDay). by left.
Defined.
(** ** Minutes of the day: [extractTimeHHMM] and [parseTimeToMinutes] *)

Lemma isDigit_byte c : isDigit c = true -> (48 <= byte c <= 57)%N.
Proof.
  unfold isDigit. intros Hd. apply andb_true_iff in Hd as [H1 H2].
  apply N.leb_le in H1, H2. lia.
Qed.

Lemma digit_not c d : isDigit c = true -> isDigit d = false -> Ascii.eqb c d = false.
Proof.
  intros Hc Hd. destruct (Ascii.eqb_spec c d) as [->|]; [congruence|done].
Qed.

(** A digit is no space, alone or as the first byte of one. *)
Lemma SkipSpace_digit c r :
  isDigit c = true -> Scan.SkipSpace (String c r) = Some (String c r).
Proof.
  intros Hc. apply isDigit_byte in Hc. simpl.
  destruct (N.eqb_spec (byte c) 10); [lia|].
  assert (Scan.space1 (byte c) = false) as ->.
  { unfold Scan.space1. destruct (N.leb_spec 9 (byte c)), (N.leb_spec (byte c) 13),
      (N.eqb_spec (byte c) 32); simpl; try done; lia. }
  destruct r as [|b r]; [done|].
  assert (Scan.space2 (byte c) (byte b) = false) as ->.
  { unfold Scan.space2. by destruct (N.eqb_spec (byte c) 194); [lia|]. }
  destruct r as [|d r]; [done|].
  assert (Scan.space3 (byte c) (byte b) (byte d) = false) as ->; [|done].
  unfold Scan.space3.
  destruct (N.eqb_spec (byte c) 225), (N.eqb_spec (byte c) 226),
    (N.eqb_spec (byte c) 227); simpl; try done; lia.
Qed.

Lemma digitVal_range c : isDigit c = true -> 0 <= digitVal c <= 9.
Proof. intros Hc. apply isDigit_byte in Hc. unfold digitVal. lia. Qed.

(** Two digits and what follows them, when that is no digit. *)
Lemma scanInt_two_digits c1 c2 r :
  isDigit c1 = true -> isDigit c2 = true ->
  match r with String c _ => isDigit c = false | EmptyString => True end ->
  Scan.scanInt (String c1 (String c2 r)) = Some (digitVal c1 * 10 + digitVal c2, r).
Proof.
  intros H1 H2 Hr. unfold Scan.scanInt. rewrite SkipSpace_digit by done. simpl.
  rewrite (digit_not c1 "-"), (digit_not c1 "+") by done.
  simpl. rewrite H1, H2.
  assert (Scan.scanNumber r = (EmptyString, r)) as ->.
  { destruct r as [|c r]; [done|]. simpl. by rewrite Hr. }
  simpl. rewrite H1, H2. simpl.
  pose proof (digitVal_range c1 H1). pose proof (digitVal_range c2 H2).
  destruct (Z.leb_spec (- 2 ^ 63) ((0 * 10 + digitVal c1) * 10 + digitVal c2)); [|lia].
  destruct (Z.ltb_spec ((0 * 10 + digitVal c1) * 10 + digitVal c2) (2 ^ 63)); [|lia].
  simpl. do 2 f_equal; lia.
Qed.

(** The minutes of a string of the shape HH:MM. *)
Lemma parseTimeToMinutes_HHMM c1 c2 c3 c4 :
  isDigit c1 = true -> isDigit c2 = true -> isDigit c3 = true -> isDigit c4 = true ->
  parseTimeToMinutes (String c1 (String c2 (String ":" (String c3 (String c4 EmptyString)))))
  = (digitVal c1 * 10 + digitVal c2) * 60 + (digitVal c3 * 10 + digitVal c4).
Proof.
  intros H1 H2 H3 H4. unfold parseTimeToMinutes.
  change ((String.length _ <? 5)%nat || negb (byteAt 2 _ ":")) with false.
  cbv iota. unfold Scan.Sscanf_d_colon_d.
  rewrite (scanInt_two_digits c1 c2) by done. simpl.
  rewrite (scanInt_two_digits c3 c4) by done. simpl.
  pose proof (digitVal_range c1 H1). pose proof (digitVal_range c2 H2).
  pose proof (digitVal_range c3 H3). pose proof (digitVal_range c4 H4).
  unfold GoInt.add, GoInt.mul.
  rewrite (wrap_id ((digitVal c1 * 10 + digitVal c2) * 60)) by (unfold GoInt.inRange; lia).
  apply wrap_id. unfold GoInt.inRange. lia.
Qed.

Lemma digitVal_digitChar k : 0 <= k <= 9 -> digitVal (GoTime.digitChar k) = k.
Proof.
  intros Hk.
  assert (k = 0 \/ k = 1 \/ k = 2 \/ k = 3 \/ k = 4 \/ k = 5 \/ k = 6 \/ k = 7 \/ k = 8 \/ k = 9)
    as Hcases by lia.
  repeat (destruct Hcases as [->|Hcases]; [reflexivity|]). by subst.
Qed.

(** Rendering a time as HH:MM and reading it back gives the minute of the
    day. *)
Lemma parseTimeToMinutes_Format t :
  parseTimeToMinutes (GoTime.Format "15:04" t) = GoTime.hour t * 60 + GoTime.minute t.
Proof.
  rewrite Format_HHMM.
  pose proof (hour_range t) as Hh. pose proof (minute_range t) as Hm.
  assert (forall n, 0 <= n < 100 -> 0 <= n / 10 <= 9 /\ 0 <= n mod 10 <= 9) as Hd.
  { intros n Hn. pose proof (Z.mod_pos_bound n 10 ltac:(lia)).
    split; [|lia]. split; [apply Z.div_pos; lia|].
    assert (n / 10 < 10); [apply Z.div_lt_upper_bound; lia|lia]. }
  destruct (Hd (GoTime.hour t) ltac:(lia)) as [Hh1 Hh2].
  destruct (Hd (GoTime.minute t) ltac:(lia)) as [Hm1 Hm2].
  rewrite parseTimeToMinutes_HHMM by (by apply digitChar_isDigit).
  rewrite !digitVal_digitChar by done.
  pose proof (Z.div_mod (GoTime.hour t) 10 ltac:(lia)).
  pose proof (Z.div_mod (GoTime.minute t) 10 ltac:(lia)). lia.
Qed.

(** X16.  What [extractTimeHHMM] prints, [parseTimeToMinutes] reads back:
    for a timestamp one of the three layouts parses, the time of the
    error is the hour and minute of the parsed time as "15:04", and its
    minutes are hour * 60 + minute, a minute of the day. *)
Theorem extractTimeHHMM_minute_of_day (timestamp filepath : string) (t : GoTime.Time) :
  timestamp <> EmptyString ->
  firstParse ["2006-01-02 15:04:05"; "15:04:05"; "15:04"]%string timestamp = Some t ->
  extractTimeHHMM timestamp filepath = GoTime.Format "15:04" t /\
  parseTimeToMinutes (extractTimeHHMM timestamp filepath)
  = GoTime.hour t * 60 + GoTime.minute t /\
  0 <= parseTimeToMinutes (extractTimeHHMM timestamp filepath) < 24 * 60.
Proof.
  intros Hne Hp.
  assert (extractTimeHHMM timestamp filepath = GoTime.Format "15:04" t) as Heq.
  { unfold extractTimeHHMM. destruct (String.eqb_spec timestamp EmptyString); [done|].
    simpl negb. cbv iota. by rewrite Hp. }
  split; [done|]. rewrite Heq, parseTimeToMinutes_Format.
  pose proof (hour_range t). pose proof (minute_range t). split; [done|lia].
Qed.

Lemma extractTimeHHMM_minute_of_day_witness :
  "2025-01-01 07:58:00"%string <> EmptyString /\
  parseTimeToMinutes (extractTimeHHMM "2025-01-01 07:58:00" "") = 478.
Proof.
  split; [discriminate|].
  destruct (extractTimeHHMM_minute_of_day "2025-01-01 07:58:00" ""
              (GoTime.mkTime 1735718280 0) ltac:(discriminate) ltac:(vm_compute; reflexivity))
    as (_ & -> & _).
  vm_compute. reflexivity.
Defined.

(** A time of the shape HH:MM resolves either way. *)
Lemma isHHMM_minutes s : isHHMM s = true -> 0 <= parseTimeToMinutes s <= 99 * 60 + 99.
Proof.
  destruct s as [|c1 [|c2 [|c [|c3 [|c4 [|c5 s]]]]]]; try discriminate.
  unfold isHHMM. intros Hs.
  apply andb_true_iff in Hs as [Hs H4]. apply andb_true_iff in Hs as [Hs H3].
  apply andb_true_iff in Hs as [Hs Hc]. apply andb_true_iff in Hs as [H1 H2].
  apply Ascii.eqb_eq in Hc as ->.
  rewrite parseTimeToMinutes_HHMM by done.
  pose proof (digitVal_range c1 H1). pose proof (digitVal_range c2 H2).
  pose proof (digitVal_range c3 H3). pose proof (digitVal_range c4 H4). lia.
Qed.

Lemma timestamped_minutes e :
  timestamped e ->
  groupTime timeOfError e = timeOfError e /\
  0 <= parseTimeToMinutes (timeOfError e) < 24 * 60.
Proof.
  intros [Hne [t Ht]]. unfold timeOfError, extractTimeHHMM.
  destruct (String.eqb_spec (Timestamp e) EmptyString); [done|].
  simpl negb. cbv iota. fold clockLayouts. rewrite Ht.
  pose proof (hour_range t). pose proof (minute_range t).
  split; [|rewrite parseTimeToMinutes_Format; lia].
  unfold groupTime, timeOfError, extractTimeHHMM.
  destruct (String.eqb_spec (Timestamp e) EmptyString); [done|].
  simpl negb. cbv iota. fold clockLayouts. rewrite Ht.
  pose proof (isHHMM_length _ (Format_isHHMM t)) as Hl.
  destruct (String.eqb_spec (GoTime.Format "15:04" t) EmptyString) as [E|]; [|done].
  rewrite E in Hl. done.
Qed.

Section JumpDay.

Context `{CaseFold}.

(** X18.  On a day on which every error has a timestamp that parses,
    every group is within the day, and [jumpToTime] to a time of the
    day goes to the nearest group: the group cursor is on the first of
    the groups whose minutes are nearest to the target, no group is
    nearer, and the errors panel is at its top. *)
Theorem jumpToTime_on_timestamped_day (timeStr : string) (m : Model) :
  groups m = buildGroups (filteredErrors m) -> filteredErrors m <> [] ->
  Forall timestamped (filteredErrors m) ->
  pageSize m <> 0 -> 0 <= parseTimeToMinutes timeStr < 24 * 60 ->
  let target := parseTimeToMinutes timeStr in
  exists m' k g, jumpToTime timeStr m = Some m' /\
    groups m !! k = Some g /\
    groupCursor m' = Z.of_nat k /\ errorCursor m' = 0 /\ errorOffset m' = 0 /\
    (forall j g', groups m !! j = Some g' ->
       Z.abs (groupMinutes g - target) <= Z.abs (groupMinutes g' - target)) /\
    (forall j g', groups m !! j = Some g' -> (j < k)%nat ->
       Z.abs (groupMinutes g - target) < Z.abs (groupMinutes g' - target)).
Proof.
  intros Hgroups Hne Hall Hps Ht target.
  assert (forall g, g ∈ groups m -> 0 <= groupMinutes g < 24 * 60) as Hday.
  { intros g Hg. rewrite Hgroups in Hg. unfold buildGroups in Hg.
    apply buildGroupsWith_elem_of, unsortedGroups_group in Hg
      as (e0 & He0 & Htime & _); try apply timeOfError_length.
    rewrite Forall_forall in Hall.
    destruct (timestamped_minutes e0 (Hall e0 He0)) as [Hgt Hmin].
    unfold groupMinutes. by rewrite Htime, Hgt. }
  assert (forall g, g ∈ groups m ->
            minutesFrom target g = Z.abs (groupMinutes g - target)) as Hdist.
  { intros g Hg. specialize (Hday g Hg).
    unfold minutesFrom, abs, GoInt.sub, GoInt.neg. fold target.
    rewrite wrap_id by (unfold GoInt.inRange; lia).
    destruct (Z.ltb_spec (groupMinutes g - target) 0).
    - rewrite wrap_id by (unfold GoInt.inRange; lia). lia.
    - lia. }
  assert (groups m <> []) as Hgne.
  { destruct (filteredErrors m) as [|e fe] eqn:Hfe; [done|].
    destruct (buildGroups_covers e (e :: fe) ltac:(left)) as (g & Hg & _).
    rewrite Hgroups. intros Hnil. rewrite Hnil in Hg. by apply elem_of_nil in Hg. }
  destruct (jumpToTime_within_day timeStr m Hgne Hps Ht) as
    (m' & k & g & Hj & Hec & Heo & Hk & Hc & Hg & Hmin & Hfirst).
  { apply Forall_forall. intros g Hg. by apply Hday. }
  { destruct (groups m) as [|g gs] eqn:Hgs; [done|]. exists g.
    split; [left|]. apply Hday. left. }
  exists m', k, g. split_and!; try done.
  - intros j g' Hj'. pose proof (list_elem_of_lookup_2 _ _ _ Hj') as Hg'.
    pose proof (list_elem_of_lookup_2 _ _ _ Hk) as Hgin.
    rewrite <- !Hdist by done. apply (Hmin j g' Hj'). by apply Hday.
  - intros j g' Hj' Hjk. pose proof (list_elem_of_lookup_2 _ _ _ Hj') as Hg'.
    pose proof (list_elem_of_lookup_2 _ _ _ Hk) as Hgin.
    rewrite <- !Hdist by done. apply (Hfirst j g' Hj'); [by apply Hday|done].
Qed.

End JumpDay.

Lemma jumpToTime_on_timestamped_day_witness :
  groups twoGroups = buildGroups (filteredErrors twoGroups) /\
  Forall timestamped (filteredErrors twoGroups) /\
  exists m', jumpToTime (H := asciiToLower) "08:00" twoGroups = Some m' /\
             groupCursor m' = 1.
Proof.
  assert (groups twoGroups = buildGroups (filteredErrors twoGroups)) as Hg
    by (vm_compute; reflexivity).
  assert (Forall timestamped (filteredErrors twoGroups)) as Hall.
  { repeat constructor; try discriminate; vm_compute; eauto. }
  split; [exact Hg|]. split; [exact Hall|].
  destruct (jumpToTime_on_timestamped_day (H := asciiToLower) "08:00" twoGroups Hg
              ltac:(discriminate) Hall ltac:(discriminate)
              ltac:(split; vm_compute; first [reflexivity|discriminate]))
    as (m' & k & g & Hj & _ & Hc & _).
  exists m'. split; [exact Hj|].
  vm_compute in Hj. injection Hj as <-. reflexivity.
Defined.
(** ** [buildGroups] on its own result *)

Section Regroup.

Variable timeOf : Error -> string.
Hypothesis timeOf_length :
  forall e, timeOf e = EmptyString \/ String.length (timeOf e) = 5%nat.

Lemma sharesKey_pair g g' e :
  sharesKey timeOf g e -> sharesKey timeOf g' e -> groupPair g = groupPair g'.
Proof. intros [Ht Hc] [Ht' Hc']. unfold groupPair. congruence. Qed.

Lemma group_members fe g e :
  g ∈ buildGroupsWith timeOf fe -> e ∈ ErrorGroup.Errors g -> sharesKey timeOf g e.
Proof.
  intros Hg He.
  destruct (buildGroupsWith_group timeOf timeOf_length fe g Hg) as [_ HE].
  rewrite HE in He. by apply list_elem_of_filter in He as [? _].
Qed.

Lemma group_eq (g g' : ErrorGroup) :
  groupPair g = groupPair g' -> ErrorGroup.Errors g = ErrorGroup.Errors g' -> g = g'.
Proof. destruct g, g'. unfold groupPair. simpl. by intros [= -> ->] ->. Qed.

(** Among the errors of the groups, those under the pair of one group
    are the errors of that group. *)
Lemma filter_concat_groups fe gs g :
  (forall g', g' ∈ gs -> g' ∈ buildGroupsWith timeOf fe) ->
  NoDup (groupPair <$> gs) -> g ∈ gs ->
  filter (sharesKey timeOf g) (concat (groupErrors <$> gs)) = ErrorGroup.Errors g.
Proof.
  intros Hsub Hnd Hg.
  assert (forall g2, g2 ∈ buildGroupsWith timeOf fe -> groupPair g2 <> groupPair g ->
            filter (sharesKey timeOf g) (ErrorGroup.Errors g2) = []) as Hother.
  { intros g2 Hg2 Hne. apply filter_none. intros e He Hs.
    apply Hne. eapply sharesKey_pair; [|exact Hs]. by eapply group_members. }
  assert (filter (sharesKey timeOf g) (ErrorGroup.Errors g) = ErrorGroup.Errors g) as Hself.
  { destruct (buildGroupsWith_group timeOf timeOf_length fe g (Hsub g Hg)) as [_ HE].
    rewrite HE. rewrite list_filter_filter. apply list_filter_iff. tauto. }
  induction gs as [|g0 gs IH]; [by apply elem_of_nil in Hg|].
  rewrite fmap_cons in Hnd. apply NoDup_cons in Hnd as [Hnotin Hnd].
  rewrite fmap_cons. cbn [concat]. rewrite filter_app. unfold groupErrors at 1.
  apply elem_of_cons in Hg as [<-|Hg].
  - rewrite Hself.
    assert (filter (sharesKey timeOf g) (concat (groupErrors <$> gs)) = []) as ->;
      [|by rewrite app_nil_r].
    apply filter_none. intros e He Hs.
    apply elem_of_concat in He as (es & Hes & He).
    apply list_elem_of_fmap in Hes as (g2 & -> & Hg2).
    apply Hnotin. apply list_elem_of_fmap. exists g2. split; [|done].
    eapply sharesKey_pair; [exact Hs|].
    eapply group_members; [|exact He]. apply Hsub. by right.
  - rewrite Hother; [| apply Hsub; by left |].
    + simpl. apply IH; [|done|done]. intros g' Hg'. apply Hsub. by right.
    + intros Heq. apply Hnotin. rewrite Heq. by apply list_elem_of_fmap_2.
Qed.

Lemma regroup_elem_of fe g :
  g ∈ buildGroupsWith timeOf (concat (groupErrors <$> buildGroupsWith timeOf fe)) <->
  g ∈ buildGroupsWith timeOf fe.
Proof.
  set (G := buildGroupsWith timeOf fe).
  set (fe' := concat (groupErrors <$> G)).
  assert (forall g1, g1 ∈ G -> filter (sharesKey timeOf g1) fe' = ErrorGroup.Errors g1)
    as Hfilter.
  { intros g1 Hg1. apply (filter_concat_groups fe); [done| |done].
    apply buildGroupsWith_NoDup. }
  assert (forall g', g' ∈ buildGroupsWith timeOf fe' ->
            forall e, e ∈ ErrorGroup.Errors g' ->
            forall g1, g1 ∈ G -> e ∈ ErrorGroup.Errors g1 -> g' = g1) as Hsame.
  { intros g' Hg' e He g1 Hg1 He1.
    pose proof (group_members fe' g' e Hg' He) as Hs'.
    pose proof (group_members fe g1 e Hg1 He1) as Hs1.
    pose proof (sharesKey_pair _ _ _ Hs' Hs1) as Hpair.
    apply group_eq; [done|].
    destruct (buildGroupsWith_group timeOf timeOf_length fe' g' Hg') as [_ ->].
    rewrite <- (Hfilter g1 Hg1). apply list_filter_iff. intros x.
    unfold sharesKey. unfold groupPair in Hpair. injection Hpair as -> ->. done. }
  split.
  - intros Hg'.
    destruct (buildGroupsWith_group timeOf timeOf_length fe' g Hg') as [Hne HE].
    destruct (ErrorGroup.Errors g) as [|e es] eqn:Hes; [done|].
    assert (e ∈ fe') as Hin.
    { assert (e ∈ filter (sharesKey timeOf g) fe') as He by (rewrite <- HE; left).
      by apply list_elem_of_filter in He as [_ ?]. }
    apply elem_of_concat in Hin as (es1 & Hes1 & He1).
    apply list_elem_of_fmap in Hes1 as (g1 & -> & Hg1).
    assert (e ∈ ErrorGroup.Errors g) as He by (rewrite Hes; left).
    rewrite (Hsame g Hg' e He g1 Hg1 He1). done.
  - intros Hg.
    destruct (buildGroupsWith_group timeOf timeOf_length fe g Hg) as [Hne _].
    destruct (ErrorGroup.Errors g) as [|e es] eqn:Hes; [done|].
    assert (e ∈ ErrorGroup.Errors g) as He by (rewrite Hes; left).
    assert (e ∈ fe') as Hin.
    { apply elem_of_concat. exists (ErrorGroup.Errors g). split; [|done].
      apply list_elem_of_fmap. by exists g. }
    destruct (buildGroupsWith_exactly_one timeOf timeOf_length fe' e Hin)
      as (g' & Hg' & He' & _).
    by rewrite <- (Hsame g' Hg' e He' g Hg He).
Qed.

Lemma regroup fe :
  buildGroupsWith timeOf (concat (groupErrors <$> buildGroupsWith timeOf fe))
  = buildGroupsWith timeOf fe.
Proof.
  symmetry. apply buildGroupsWith_any_sort; [|by apply buildGroupsWith_sorted].
  rewrite <- buildGroupsWith_Permutation.
  apply NoDup_Permutation.
  - eapply NoDup_fmap_1. apply buildGroupsWith_NoDup.
  - eapply NoDup_fmap_1. apply buildGroupsWith_NoDup.
  - intros g. symmetry. apply regroup_elem_of.
Qed.

End Regroup.

(** X17.  Grouping is idempotent: [buildGroups] on the errors of its own
    groups, taken group by group, gives the same groups, in both
    revisions of db.go. *)
Theorem buildGroups_regroup (filteredErrors : list Error) :
  buildGroups (concat (groupErrors <$> buildGroups filteredErrors))
  = buildGroups filteredErrors /\
  forall pacificLoc now,
    Pacific.buildGroups pacificLoc now
      (concat (groupErrors <$> Pacific.buildGroups pacificLoc now filteredErrors))
    = Pacific.buildGroups pacificLoc now filteredErrors.
Proof.
  split; [|intros pacificLoc now].
  - apply regroup, timeOfError_length.
  - apply regroup, Pacific_timeOfError_length.
Qed.
(** ** [LoadErrors]: the errors of the day, in order *)

Section ErrorOrder.

Variable sortTime : Error -> string.

Lemma errorLessWith_spec a b :
  errorLessWith sortTime a b = true <->
  String.ltb (sortTime a) (sortTime b) = true \/
  (sortTime a = sortTime b /\ LineNumber a < LineNumber b).
Proof.
  unfold errorLessWith.
  destruct (String.eqb_spec (sortTime a) (sortTime b)) as [Heq|Hne]; simpl.
  - rewrite Heq, ltb_irrefl. rewrite Z.ltb_lt. intuition congruence.
  - intuition congruence.
Qed.

Lemma errorLessWith_asym a b :
  errorLessWith sortTime a b = true -> errorLessWith sortTime b a = false.
Proof.
  intros Hab. apply errorLessWith_spec in Hab.
  destruct (errorLessWith sortTime b a) eqn:Hba; [|done].
  apply errorLessWith_spec in Hba. exfalso.
  destruct Hab as [Hab|[Heq Hab]], Hba as [Hba|[Heq' Hba]].
  - apply ltb_asym in Hab. congruence.
  - rewrite Heq', ltb_irrefl in Hab. done.
  - rewrite Heq, ltb_irrefl in Hba. done.
  - lia.
Qed.

Lemma errorLessWith_trans a b c :
  errorLessWith sortTime a b = true -> errorLessWith sortTime b c = true ->
  errorLessWith sortTime a c = true.
Proof.
  rewrite !errorLessWith_spec.
  intros [Hab|[Heq Hab]] [Hbc|[Heq' Hbc]].
  - left. by eapply ltb_trans.
  - left. by rewrite <- Heq'.
  - left. by rewrite Heq.
  - right. split; [congruence|lia].
Qed.

Lemma sortSlice_loadOrder l : loadOrder sortTime (sortSlice (errorLessWith sortTime) l).
Proof.
  assert (StronglySorted (notAfter (errorLessWith sortTime))
            (sortSlice (errorLessWith sortTime) l)) as Hs
    by (apply sortSlice_sorted; [apply errorLessWith_asym|apply errorLessWith_trans]).
  assert (forall i j a b,
            sortSlice (errorLessWith sortTime) l !! i = Some a ->
            sortSlice (errorLessWith sortTime) l !! j = Some b -> (i < j)%nat ->
            String.leb (sortTime a) (sortTime b) = true /\
            (sortTime a = sortTime b -> LineNumber a <= LineNumber b)) as Hord.
  { intros i j a b Hi Hj Hlt.
    pose proof (StronglySorted_lookup _ _ Hs i j a b Hi Hj Hlt) as Hab.
    unfold notAfter in Hab.
    assert (~ (String.ltb (sortTime b) (sortTime a) = true \/
               (sortTime b = sortTime a /\ LineNumber b < LineNumber a))) as Hn.
    { rewrite <- errorLessWith_spec. congruence. }
    split.
    - apply ltb_false_leb. destruct (String.ltb (sortTime b) (sortTime a)); [|done].
      exfalso. apply Hn. by left.
    - intros Heq. destruct (Z.le_gt_cases (LineNumber a) (LineNumber b)); [done|].
      exfalso. apply Hn. right. split; [done|lia]. }
  split; [exact Hord|].
  intros i j a b Hi Hj Ha [t Hb].
  assert (String.ltb (sortTime b) "99:99:99" = true) as Hlt
    by (rewrite Hb; apply Format_HHMMSS_before_sentinel).
  destruct (Nat.lt_trichotomy i j) as [Hij|[Heq|Hgt]]; [exfalso|exfalso|done].
  - destruct (Hord i j a b Hi Hj Hij) as [Hle _].
    rewrite Ha in Hle. unfold String.leb in Hle. unfold String.ltb in Hlt.
    rewrite String.compare_antisym in Hlt.
    destruct (String.compare "99:99:99" (sortTime b)); done.
  - subst j. rewrite Hi in Hj. injection Hj as ->. rewrite Ha in Hlt. done.
Qed.

End ErrorOrder.

Section Load.

Variable pacificLoc : GoTime.Location.
Variable now : GoTime.Time.

#[local] Abbreviation onDate date row :=
  (utcTimestampToPacificDate pacificLoc (fileTimestamp row) = date).

Lemma loadedRows_fold date rows : forall acc,
  fold_left (Pacific.loadStep pacificLoc date) rows acc
  = acc ++ (loadedError date <$> filter (fun row => onDate date row) rows).
Proof.
  induction rows as [|row rows IH]; intros acc; simpl; [by rewrite app_nil_r|].
  rewrite IH. unfold Pacific.loadStep. rewrite filter_cons.
  destruct (String.eqb_spec (utcTimestampToPacificDate pacificLoc (fileTimestamp row)) date)
    as [Heq|Hne].
  - rewrite decide_True by done. rewrite fmap_cons, <- app_assoc. done.
  - by rewrite decide_False.
Qed.

(** X19.  The later [LoadErrors] fails exactly when the date does not
    parse as 2006-01-02.  Otherwise it returns, in some order, the rows
    of the query whose file timestamp falls on that Pacific date, and
    no other: each with the date as its [DateRef], and with the time of
    the file name for a timestamp where the row had none. *)
Theorem LoadErrors_keeps_the_day (rows : list ErrorRow) (pacificDate : string) :
  (Pacific.LoadErrors pacificLoc now rows pacificDate = None <->
   GoTime.Parse "2006-01-02" pacificDate = None) /\
  (forall errors, Pacific.LoadErrors pacificLoc now rows pacificDate = Some errors ->
     errors ≡ₚ loadedError pacificDate
                 <$> filter (fun row => onDate pacificDate row) rows /\
     forall e, e ∈ errors ->
       DateRef e = pacificDate /\
       (Timestamp e = EmptyString -> extractTimeFromPath (FilePath e) = EmptyString)).
Proof.
  split.
  - unfold Pacific.LoadErrors, Pacific.pacificDateToUTCRange,
      GoTime.ParseInLocation, GoTime.Parse.
    destruct (GoTime.parseLoop _ _ _ _) as [f|]; simpl; [|done].
    destruct ((_ <? 1) || _); simpl; done.
  - intros errors. unfold Pacific.LoadErrors.
    destruct (Pacific.pacificDateToUTCRange pacificLoc pacificDate); simpl; [|done].
    intros [= <-].
    assert (sortSlice (Pacific.errorLess pacificLoc now)
              (Pacific.loadedRows pacificLoc rows pacificDate)
            ≡ₚ loadedError pacificDate
                 <$> filter (fun row => onDate pacificDate row) rows) as Hp.
    { rewrite sortSlice_Permutation. unfold Pacific.loadedRows.
      by rewrite loadedRows_fold. }
    split; [exact Hp|].
    intros e He. rewrite Hp in He.
    apply list_elem_of_fmap in He as (row & -> & _). unfold loadedError.
    change (Timestamp (set_DateRef pacificDate (scanned row)))
      with (Timestamp (scanned row)).
    destruct (String.eqb_spec (Timestamp (scanned row)) EmptyString) as [Hts|Hts];
      simpl; split; try done.
Qed.

(** X20.  [LoadErrors], in both revisions of db.go, returns the errors
    ordered by [getErrorSortTime], and by line number among equal sort
    times; an error whose sort time is the sentinel "99:99:99" stands
    after every error whose sort time is a clock time. *)
Theorem LoadErrors_sorted :
  (forall rows, loadOrder getErrorSortTime (LoadErrors rows)) /\
  (forall rows pacificDate errors,
     Pacific.LoadErrors pacificLoc now rows pacificDate = Some errors ->
     loadOrder (Pacific.getErrorSortTime pacificLoc now) errors).
Proof.
  split.
  - intros rows. apply sortSlice_loadOrder.
  - intros rows pacificDate errors. unfold Pacific.LoadErrors.
    destruct (Pacific.pacificDateToUTCRange pacificLoc pacificDate); simpl; [|done].
    intros [= <-]. apply sortSlice_loadOrder.
Qed.

End Load.
